(** * TruthChain backend: verification resolver, contract gateway, BNS sweep

    A shallow embedding of the parts of the TruthChain mainnet API that the
    specification's testable properties are about:

    - [HashService]            (services/HashService.ts)
    - [BlockchainService]      (services/BlockchainService.ts, mainnet),
      its write path in [BlockchainWrites]
    - [VerificationController] (controllers/VerificationController.ts),
      its BNS endpoints in [BnsEndpoints]
    - [RegistrationController] (controllers/RegistrationController.ts):
      the register and check endpoints
    - [BNSValidationService]   (services/BNSValidationService.ts), with
      [BNSValidationStatus], and the job that runs it, [BnsValidationCron]
    - the [Registration] and [VerificationCache] collections
      (shared/models/Registration.ts, shared/models/VerificationCache.ts)
    - the ledger contract [TruthChainV3] (contracts/truthchain_v3.clar)
    - the health route, [Router].

    JavaScript strings that are hashed are sequences of UTF-16 code units
    ([list Z]); identifiers (hex digests, addresses, BNS names) are [string].
    Asynchronous code is sequential per request, so every [async] method is a
    function in a state-and-exception monad [M]; the external collaborators
    (ledger RPC, name registry, store availability) are oracles collected in
    a [World]. *)

From Stdlib Require Import ZArith QArith Bool Ascii String List Lia.
From stdpp Require Import gmap strings list pretty.

Import ListNotations.
Local Open Scope string_scope.
Local Open Scope Z_scope.

(* ===================================================================== *)
(** ** Bytes, hexadecimal text and UTF-8 *)
(* ===================================================================== *)

(** A Node [Buffer]: a sequence of octets, each in [0, 255]. *)
Abbreviation Buffer := (list Z).

(** A JavaScript string as its UTF-16 code units, each in [0, 65535]. *)
Abbreviation JsString := (list Z).

(** The code units of an ASCII literal. *)
Fixpoint units (s : string) : JsString :=
  match s with
  | EmptyString => []
  | String a r => Z.of_N (N_of_ascii a) :: units r
  end.

Definition isHighSurrogate (c : Z) : bool := (0xD800 <=? c) && (c <=? 0xDBFF).
Definition isLowSurrogate (c : Z) : bool := (0xDC00 <=? c) && (c <=? 0xDFFF).

(** UTF-8 bytes of one Unicode scalar value. *)
Definition utf8CodePoint (cp : Z) : Buffer :=
  if cp <? 0x80 then [cp]
  else if cp <? 0x800 then
    [Z.lor 0xC0 (Z.shiftr cp 6); Z.lor 0x80 (Z.land cp 0x3F)]
  else if cp <? 0x10000 then
    [Z.lor 0xE0 (Z.shiftr cp 12);
     Z.lor 0x80 (Z.land (Z.shiftr cp 6) 0x3F);
     Z.lor 0x80 (Z.land cp 0x3F)]
  else
    [Z.lor 0xF0 (Z.shiftr cp 18);
     Z.lor 0x80 (Z.land (Z.shiftr cp 12) 0x3F);
     Z.lor 0x80 (Z.land (Z.shiftr cp 6) 0x3F);
     Z.lor 0x80 (Z.land cp 0x3F)].

(** [Buffer.from(s, 'utf8')] as used by [hash.update(s, 'utf8')]: surrogate
    pairs are combined, a lone surrogate becomes U+FFFD. *)
Fixpoint utf8Encode (s : JsString) : Buffer :=
  match s with
  | [] => []
  | c :: r =>
      if isHighSurrogate c then
        match r with
        | d :: r' =>
            if isLowSurrogate d then
              utf8CodePoint (0x10000 + Z.shiftl (c - 0xD800) 10 + (d - 0xDC00))
                ++ utf8Encode r'
            else utf8CodePoint 0xFFFD ++ utf8Encode r
        | [] => utf8CodePoint 0xFFFD
        end
      else if isLowSurrogate c then utf8CodePoint 0xFFFD ++ utf8Encode r
      else utf8CodePoint c ++ utf8Encode r
  end.

Definition hexDigit (n : Z) : ascii :=
  ascii_of_N (Z.to_N (if n <? 10 then 48 + n else 87 + n)).

(** [buffer.toString('hex')]: two lowercase digits per octet. *)
Fixpoint toHex (b : Buffer) : string :=
  match b with
  | [] => EmptyString
  | x :: r => String (hexDigit (x / 16)) (String (hexDigit (x mod 16)) (toHex r))
  end.

Definition hexValue (a : ascii) : option Z :=
  let n := Z.of_N (N_of_ascii a) in
  if (48 <=? n) && (n <=? 57) then Some (n - 48)
  else if (97 <=? n) && (n <=? 102) then Some (n - 87)
  else if (65 <=? n) && (n <=? 70) then Some (n - 55)
  else None.

(** [Buffer.from(s, 'hex')]: decodes pairs of hexadecimal digits and stops
    silently at the first pair that is not valid; it never throws. *)
Fixpoint fromHex (s : string) : Buffer :=
  match s with
  | String a (String b r) =>
      match hexValue a, hexValue b with
      | Some x, Some y => (16 * x + y) :: fromHex r
      | _, _ => []
      end
  | _ => []
  end.

(* ===================================================================== *)
(** ** SHA-256 (the digest behind [crypto.createHash('sha256')]) *)
(* ===================================================================== *)

Module SHA256.

Definition w32 (x : Z) : Z := x mod 2 ^ 32.
Definition add32 (x y : Z) : Z := w32 (x + y).
Definition rotr (n x : Z) : Z :=
  Z.lor (Z.shiftr x n) (w32 (Z.shiftl x (32 - n))).
Definition not32 (x : Z) : Z := w32 (Z.lnot x).

Definition Ch (x y z : Z) : Z := Z.lxor (Z.land x y) (Z.land (not32 x) z).
Definition Maj (x y z : Z) : Z :=
  Z.lxor (Z.lxor (Z.land x y) (Z.land x z)) (Z.land y z).
Definition Sigma0 (x : Z) : Z := Z.lxor (Z.lxor (rotr 2 x) (rotr 13 x)) (rotr 22 x).
Definition Sigma1 (x : Z) : Z := Z.lxor (Z.lxor (rotr 6 x) (rotr 11 x)) (rotr 25 x).
Definition sigma0 (x : Z) : Z := Z.lxor (Z.lxor (rotr 7 x) (rotr 18 x)) (Z.shiftr x 3).
Definition sigma1 (x : Z) : Z := Z.lxor (Z.lxor (rotr 17 x) (rotr 19 x)) (Z.shiftr x 10).

(** The first [n] primes, by trial division. *)
Definition isPrime (n : Z) : bool :=
forallb (fun d => negb (n mod Z.of_nat d =? 0)) (seq 2 (Z.to_nat n - 2)).

Definition primes (n : nat) : list Z :=
firstn n (List.filter isPrime (map Z.of_nat (seq 2 310))).

(** The integer cube root, by bisection on [[lo, hi)]. *)
Fixpoint cubeRootIn (fuel : nat) (lo hi n : Z) : Z :=
match fuel with
| O => lo
| S f =>
    let mid := (lo + hi) / 2 in
    if mid * mid * mid <=? n then cubeRootIn f mid hi n else cubeRootIn f lo mid n
end.

Definition cubeRoot (n : Z) : Z := cubeRootIn 40 0 (2 ^ 36) n.

(** The round constants: the first 32 bits of the fractional parts of the
    cube roots of the first 64 primes. *)
Definition K : list Z := Eval vm_compute in
  map (fun p => w32 (cubeRoot (p * 2 ^ 96))) (primes 64).

(** The initial hash value: the first 32 bits of the fractional parts of the
    square roots of the first 8 primes. *)
Definition H0 : list Z := Eval vm_compute in
  map (fun p => w32 (Z.sqrt (p * 2 ^ 64))) (primes 8).

(** Big-endian octets of the low [8 * n] bits of [x]. *)
Fixpoint bigEndian (n : nat) (x : Z) : Buffer :=
  match n with
  | O => []
  | S m => Z.land (Z.shiftr x (8 * Z.of_nat m)) 0xFF :: bigEndian m x
  end.

(** Message padding: a [1] bit, zeros up to 56 mod 64, the bit length. *)
Definition pad (msg : Buffer) : Buffer :=
  let len := Z.of_nat (length msg) in
  let zeros := Z.to_nat ((55 - len) mod 64) in
  msg ++ 0x80 :: repeat 0 zeros ++ bigEndian 8 (8 * len).

Fixpoint wordsOf (n : nat) (b : Buffer) : list Z :=
  match n with
  | O => []
  | S m =>
      match b with
      | b0 :: b1 :: b2 :: b3 :: r =>
          (Z.shiftl b0 24 + Z.shiftl b1 16 + Z.shiftl b2 8 + b3) :: wordsOf m r
      | _ => []
      end
  end.

(** The message schedule, most recent word first. *)
Fixpoint extend (n : nat) (ws : list Z) : list Z :=
  match n with
  | O => ws
  | S m =>
      let w := add32 (add32 (sigma1 (nth 1 ws 0)) (nth 6 ws 0))
                     (add32 (sigma0 (nth 14 ws 0)) (nth 15 ws 0)) in
      extend m (w :: ws)
  end.

Definition schedule (block : Buffer) : list Z :=
  rev (extend 48 (rev (wordsOf 16 block))).

Definition round (st : list Z) (kw : Z * Z) : list Z :=
  match st with
  | [a; b; c; d; e; f; g; h] =>
      let t1 := add32 (add32 (add32 h (Sigma1 e)) (add32 (Ch e f g) (fst kw))) (snd kw) in
      let t2 := add32 (Sigma0 a) (Maj a b c) in
      [add32 t1 t2; a; b; c; add32 d t1; e; f; g]
  | _ => st
  end.

Definition compress (h : list Z) (block : Buffer) : list Z :=
  let out := fold_left round (combine K (schedule block)) h in
  map (fun p => add32 (fst p) (snd p)) (combine h out).

Fixpoint blocks (n : nat) (h : list Z) (b : Buffer) : list Z :=
  match n with
  | O => h
  | S m => blocks m (compress h (firstn 64 b)) (skipn 64 b)
  end.

Definition digest (msg : Buffer) : Buffer :=
  let p := pad msg in
  flat_map (bigEndian 4) (blocks (length p / 64)%nat H0 p).

End SHA256.

(* ===================================================================== *)
(** ** HashService (services/HashService.ts) *)
(* ===================================================================== *)

Module HashService.

(** The code units matched by [\s] and removed by [String.prototype.trim]:
    ECMAScript WhiteSpace and LineTerminator. *)
Definition isWhiteSpace (c : Z) : bool :=
  ((0x09 <=? c) && (c <=? 0x0D))
  || (c =? 0x20) || (c =? 0xA0) || (c =? 0x1680)
  || ((0x2000 <=? c) && (c <=? 0x200A))
  || (c =? 0x2028) || (c =? 0x2029) || (c =? 0x202F)
  || (c =? 0x205F) || (c =? 0x3000) || (c =? 0xFEFF).

Fixpoint trimStart (s : JsString) : JsString :=
  match s with
  | [] => []
  | c :: r => if isWhiteSpace c then trimStart r else s
  end.

Definition trimEnd (s : JsString) : JsString := rev (trimStart (rev s)).

(** [s.trim()] *)
Definition trim (s : JsString) : JsString := trimEnd (trimStart s).

(** [s.replace(/\s+/g, ' ')]: every maximal run of whitespace becomes one
    U+0020; [inRun] records that the previous unit belonged to a run whose
    replacement has already been emitted. *)
Fixpoint replaceRuns (inRun : bool) (s : JsString) : JsString :=
  match s with
  | [] => []
  | c :: r =>
      if isWhiteSpace c
      then (if inRun then replaceRuns true r else 0x20 :: replaceRuns true r)
      else c :: replaceRuns false r
  end.

(** [content.trim().replace(/\s+/g, ' ')] *)
Definition cleanContent (content : JsString) : JsString :=
  replaceRuns false (trim content).

Definition generateContentHash (content : JsString) : Buffer :=
  SHA256.digest (utf8Encode (cleanContent content)).

Definition generateContentHashHex (content : JsString) : string :=
  toHex (generateContentHash content).

Definition bufferEquals (a b : Buffer) : bool :=
  bool_decide (a = b).

Definition validateContentHash (content : JsString) (expectedHash : Buffer) : bool :=
  bufferEquals (generateContentHash content) expectedHash.

Definition startsWith0x (s : string) : bool :=
  match s with
  | String "0" (String "x" _) => true
  | _ => false
  end.

Definition slice2 (s : string) : string :=
  match s with
  | String _ (String _ r) => r
  | String _ EmptyString => EmptyString
  | EmptyString => EmptyString
  end.

Definition hexToBuffer (hexString : string) : Buffer :=
  let cleanHex := if startsWith0x hexString then slice2 hexString else hexString in
  fromHex cleanHex.

End HashService.

(** The normalisation named by the specification: trim, then collapse every
    run of whitespace to a single space. *)
Definition trim_collapse (s : JsString) : JsString :=
  HashService.replaceRuns false (HashService.trim s).

(** The specification's [hash]. *)
Definition hash (s : JsString) : Buffer := HashService.generateContentHash s.

(** The two inputs of the specification's example; the rocket U+1F680 is the
    surrogate pair D83D DE80. *)
Definition tweetPlain : JsString :=
  units "Just launched my new startup! " ++ [0xD83D; 0xDE80].
Definition tweetSpaced : JsString :=
  units "Just   launched my new startup! " ++ [0xD83D; 0xDE80] ++ units "  ".

(* ===================================================================== *)
(** ** JavaScript values, numbers and exceptions *)
(* ===================================================================== *)

(** A JavaScript number, with doubles idealised as exact rationals. *)
Inductive JsNumber : Type :=
| NaN
| Num (q : Q).

(** The values produced by [cvToJSON]: it renders Clarity integers as
    decimal strings, so no JavaScript number occurs in them. [JUndefined] is
    what reading an absent property yields. *)
#[warnings="-register-all"]
Inductive JsVal : Type :=
| JUndefined
| JNull
| JBool (b : bool)
| JString (s : string)
| JArray (items : list JsVal)
| JObject (fields : list (string * JsVal)).

(** Why a read-only contract call did not deliver a decoded value; the SDK
    raises an exception in each case. *)
Inductive RpcFailure : Type :=
| TransportError
| MalformedResponse
| LedgerError (cause : string).

(** The operations issued against the document store. *)
Inductive StoreOp : Type :=
| CacheFindOne (contentHash : string)
| CacheDeleteOne (contentHash : string)
| CacheFindOneAndUpdate (contentHash : string)
| RegFindOne (contentHash : string)
| RegFindOneAndUpdate (contentHash : string)
| RegFindByIdAndUpdate (id : N)
| RegFind.

(** Thrown values. The message of an engine-raised error is indicative. *)
Inductive JsError : Type :=
| TypeError (msg : string)
| RangeError (msg : string)
| RpcError (f : RpcFailure)
| StoreError (op : StoreOp).

(** [error instanceof Error ? error.message : 'Unknown error'] *)
Definition errorMessage (e : JsError) : string :=
  match e with
  | TypeError m => m
  | RangeError m => m
  | RpcError TransportError => "fetch failed"
  | RpcError MalformedResponse => "Unexpected response"
  | RpcError (LedgerError cause) => cause
  | StoreError _ => "store operation failed"
  end.

Inductive Outcome (A : Type) : Type :=
| Ok (a : A)
| Thrown (e : JsError).
Arguments Ok {A} a.
Arguments Thrown {A} e.

(** ToBoolean *)
Definition truthy (v : JsVal) : bool :=
  match v with
  | JUndefined | JNull => false
  | JBool b => b
  | JString s => negb (bool_decide (s = EmptyString))
  | JArray _ | JObject _ => true
  end.

Fixpoint lookupField (k : string) (fields : list (string * JsVal)) : JsVal :=
  match fields with
  | [] => JUndefined
  | (k', v) :: r => if bool_decide (k' = k) then v else lookupField k r
  end.

(** [v.k] and [v['k']] for the keys the services read ([success], [value],
    [type], [author], [bns-name], ...), none of which is a built-in property
    of strings, booleans or arrays. *)
Definition getProp (v : JsVal) (k : string) : Outcome JsVal :=
  match v with
  | JUndefined => Thrown (TypeError "Cannot read properties of undefined")
  | JNull => Thrown (TypeError "Cannot read properties of null")
  | JObject fields => Ok (lookupField k fields)
  | JBool _ | JString _ | JArray _ => Ok JUndefined
  end.

(** [v === true] *)
Definition isTrue (v : JsVal) : bool :=
  match v with
  | JBool true => true
  | _ => false
  end.

(** [v === s] for a string literal [s] *)
Definition isString (s : string) (v : JsVal) : bool :=
  match v with
  | JString s' => bool_decide (s' = s)
  | _ => false
  end.

Definition joinComma (parts : list string) : string :=
  match parts with
  | [] => EmptyString
  | p :: r => fold_left (fun acc x => acc ++ "," ++ x)%string r p
  end.

(** ToString *)
Fixpoint toJsString (v : JsVal) : string :=
  match v with
  | JUndefined => "undefined"
  | JNull => "null"
  | JBool true => "true"
  | JBool false => "false"
  | JString s => s
  | JArray items =>
      joinComma (map (fun x => match x with
                               | JUndefined | JNull => EmptyString
                               | _ => toJsString x
                               end) items)
  | JObject _ => "[object Object]"
  end.

Definition isAsciiSpace (a : ascii) : bool :=
  let n := Z.of_N (N_of_ascii a) in ((9 <=? n) && (n <=? 13)) || (n =? 32).

Fixpoint skipSpaces (s : string) : string :=
  match s with
  | String a r => if isAsciiSpace a then skipSpaces r else s
  | EmptyString => EmptyString
  end.

Definition digitValue (radix : Z) (a : ascii) : option Z :=
  match hexValue a with
  | Some d => if d <? radix then Some d else None
  | None => None
  end.

(** The longest prefix of digits, as [Some value] once a digit was read. *)
Fixpoint readDigits (radix : Z) (acc : option Z) (s : string) : option Z :=
  match s with
  | String a r =>
      match digitValue radix a with
      | Some d => readDigits radix (Some (radix * default 0 acc + d)) r
      | None => acc
      end
  | EmptyString => acc
  end.

Definition stripSign (s : string) : bool * string :=
  match s with
  | String "-" r => (true, r)
  | String "+" r => (false, r)
  | _ => (false, s)
  end.

Definition stripRadixPrefix (s : string) : Z * string :=
  match s with
  | String "0" (String "x" r) => (16, r)
  | String "0" (String "X" r) => (16, r)
  | _ => (10, s)
  end.

(** [parseInt(v)] without a radix argument. Whitespace skipping covers the
    ASCII range of the byte strings used here. *)
Definition parseInt (v : JsVal) : JsNumber :=
  let '(neg, s1) := stripSign (skipSpaces (toJsString v)) in
  let '(radix, s2) := stripRadixPrefix s1 in
  match readDigits radix None s2 with
  | Some n => Num (inject_Z (if neg then - n else n))
  | None => NaN
  end.

(** A [Date]: its time value in milliseconds, or Invalid Date. *)
Inductive JsDate : Type :=
| InvalidDate
| DateMs (ms : Z).

(** Truncation towards zero of a rational. *)
Definition truncQ (q : Q) : Z := Z.quot (Qnum q) (Z.pos (Qden q)).

(** [new Date(n)] (TimeClip). *)
Definition newDate (n : JsNumber) : JsDate :=
  match n with
  | NaN => InvalidDate
  | Num q =>
      if Qle_bool (inject_Z (-8640000000000000)) q && Qle_bool q (inject_Z 8640000000000000)
      then DateMs (truncQ q) else InvalidDate
  end.

(** The instant rendered by [toISOString]; the textual form is not modelled. *)
Inductive IsoString : Type :=
| Iso (ms : Z).

(** [d.toISOString()] *)
Definition toISOString (d : JsDate) : Outcome IsoString :=
  match d with
  | InvalidDate => Thrown (RangeError "Invalid time value")
  | DateMs ms => Ok (Iso ms)
  end.

Definition numMul (n : JsNumber) (k : Z) : JsNumber :=
  match n with
  | NaN => NaN
  | Num q => Num (q * inject_Z k)
  end.

(** [n > k] *)
Definition numGt (n : JsNumber) (k : Z) : bool :=
  match n with
  | NaN => false
  | Num q => negb (Qle_bool q (inject_Z k))
  end.

(** [String.prototype.toUpperCase] and [toLowerCase] on the ASCII range of
    the byte strings used here (addresses, BNS names, hex digests): the
    letters change case, every other character is kept. *)
Definition upperChar (a : ascii) : ascii :=
  let n := N_of_ascii a in
  if ((97 <=? n) && (n <=? 122))%N then ascii_of_N (n - 32) else a.

Definition lowerChar (a : ascii) : ascii :=
  let n := N_of_ascii a in
  if ((65 <=? n) && (n <=? 90))%N then ascii_of_N (n + 32) else a.

Fixpoint mapText (f : ascii -> ascii) (s : string) : string :=
  match s with
  | EmptyString => EmptyString
  | String a r => String (f a) (mapText f r)
  end.

Definition toUpperCase (s : string) : string := mapText upperChar s.
Definition toLowerCase (s : string) : string := mapText lowerChar s.

(* ===================================================================== *)
(** ** Documents of the store *)
(* ===================================================================== *)

Inductive BnsStatus : Type :=
| BnsValid            (* 'valid' *)
| BnsTransferred      (* 'transferred' *)
| BnsNoLongerOwned.   (* 'no-longer-owned', the unowned state *)

Inductive ChainStatus : Type :=
| Pending
| Confirmed
| Failed.

(** shared/models/Registration.ts. Optional paths are [option]s; [None]
    stands for an absent or null path. Dates are millisecond time values.
    Of the paths of a document, [content.type], [content.text],
    [content.preview], [ipfs.size], [blockchain.confirmations],
    [blockchain.error], [metadata] and [updatedAt] are left out. *)
Module Registration.

Record BlockchainData : Type := mkBlockchain {
  txId : option string;
  registrationId : option string;
  status : ChainStatus;
  blockHeight : option Z;
  timestamp : option Z
}.

Record IPFSData : Type := mkIPFS {
  cid : option string;
  gateway : option string;
  pinned : bool;
  uploadedAt : option Z
}.

Record Analytics : Type := mkAnalytics {
  views : Z;
  verifications : Z;
  lastViewed : option Z;
  lastVerified : option Z
}.

Record t : Type := mk {
  _id : N;
  contentHash : string;
  authorWallet : string;
  bnsName : option string;
  lastBnsValidation : option Z;
  bnsStatus : option BnsStatus;
  currentBnsOwner : option string;
  bnsTransferredAt : option Z;
  contentUrl : option string;
  contentTwitterHandle : option string;
  blockchain : BlockchainData;
  ipfs : IPFSData;
  analytics : Analytics;
  createdAt : Z
}.

(** [new Registration({contentHash, authorWallet, bnsName, content,
    blockchain: {status: 'pending'}, ipfs, metadata})] followed by [save()],
    as RegistrationController.secureRegisterTweet creates records
    (RegistrationController.ts 313-342). [stored] is the IPFS identifier
    with its gateway when the content was stored there. The schema
    lower-cases [contentHash] and upper-cases [authorWallet]; the paths the
    controller does not pass take the schema defaults, among them
    [bnsStatus: 'valid']. *)
Definition create (id : N) (hashHex walletAddress : string)
    (bns : option string) (url handle : option string)
    (stored : option (string * option string)) (now : Z) : t :=
  {| _id := id;
     contentHash := toLowerCase hashHex;
     authorWallet := toUpperCase walletAddress;
     bnsName := bns;
     lastBnsValidation := None;
     bnsStatus := Some BnsValid;
     currentBnsOwner := None;
     bnsTransferredAt := None;
     contentUrl := url;
     contentTwitterHandle := handle;
     blockchain := {| txId := None; registrationId := None; status := Pending;
                      blockHeight := None; timestamp := None |};
     ipfs := match stored with
             | Some (c, g) => {| cid := Some c; gateway := g; pinned := true;
                                 uploadedAt := Some now |}
             | None => {| cid := None; gateway := None; pinned := false;
                          uploadedAt := None |}
             end;
     analytics := {| views := 0; verifications := 0; lastViewed := None;
                     lastVerified := None |};
     createdAt := now |}.

Definition withBlockchain (b : BlockchainData) (r : t) : t :=
  {| _id := _id r; contentHash := contentHash r; authorWallet := authorWallet r;
     bnsName := bnsName r; lastBnsValidation := lastBnsValidation r;
     bnsStatus := bnsStatus r; currentBnsOwner := currentBnsOwner r;
     bnsTransferredAt := bnsTransferredAt r; contentUrl := contentUrl r;
     contentTwitterHandle := contentTwitterHandle r; blockchain := b;
     ipfs := ipfs r; analytics := analytics r; createdAt := createdAt r |}.

Definition withIpfs (i : IPFSData) (r : t) : t :=
  {| _id := _id r; contentHash := contentHash r; authorWallet := authorWallet r;
     bnsName := bnsName r; lastBnsValidation := lastBnsValidation r;
     bnsStatus := bnsStatus r; currentBnsOwner := currentBnsOwner r;
     bnsTransferredAt := bnsTransferredAt r; contentUrl := contentUrl r;
     contentTwitterHandle := contentTwitterHandle r; blockchain := blockchain r;
     ipfs := i; analytics := analytics r; createdAt := createdAt r |}.

Definition withAnalytics (a : Analytics) (r : t) : t :=
  {| _id := _id r; contentHash := contentHash r; authorWallet := authorWallet r;
     bnsName := bnsName r; lastBnsValidation := lastBnsValidation r;
     bnsStatus := bnsStatus r; currentBnsOwner := currentBnsOwner r;
     bnsTransferredAt := bnsTransferredAt r; contentUrl := contentUrl r;
     contentTwitterHandle := contentTwitterHandle r; blockchain := blockchain r;
     ipfs := ipfs r; analytics := a; createdAt := createdAt r |}.

(** [$inc: {'analytics.verifications': 1},
     $set: {'analytics.lastVerified': new Date()}], the update of the
    verification endpoints (routes/index.ts 697-703 and 761-764; the testnet
    controller issues the same two). *)
Definition recordVerification (now : Z) (r : t) : t :=
  withAnalytics {| views := views (analytics r);
                   verifications := verifications (analytics r) + 1;
                   lastViewed := lastViewed (analytics r);
                   lastVerified := Some now |} r.

(** [$inc: {'analytics.views': 1}, $set: {'analytics.lastViewed': new Date()}],
    the update of RegistrationController.retrieveOriginalContent
    (RegistrationController.ts 525-528). *)
Definition recordView (now : Z) (r : t) : t :=
  withAnalytics {| views := views (analytics r) + 1;
                   verifications := verifications (analytics r);
                   lastViewed := Some now;
                   lastVerified := lastVerified (analytics r) |} r.

(** [$set: {'blockchain.txId', 'blockchain.blockHeight',
    'blockchain.registrationId', 'blockchain.status': 'confirmed',
    'blockchain.timestamp': new Date()}], the update of
    RegistrationController.confirmRegistration (RegistrationController.ts
    431-443); [height] and [regId] are the gateway's numbers as the schema
    casts them. *)
Definition confirmOnChain (tx : string) (height : option Z) (regId : option string)
    (now : Z) (r : t) : t :=
  withBlockchain {| txId := Some tx; registrationId := regId; status := Confirmed;
                    blockHeight := height; timestamp := Some now |} r.

(** A [Partial<IBlockchainData>]: for each key, [None] when it is missing. *)
Record BlockchainPatch : Type := mkBlockchainPatch {
  p_txId : option (option string);
  p_registrationId : option (option string);
  p_status : option ChainStatus;
  p_blockHeight : option (option Z);
  p_timestamp : option (option Z)
}.

(** [methods.updateBlockchainStatus]: [this.blockchain.status = status;
    if (data) Object.assign(this.blockchain, data); return this.save()]. *)
Definition updateBlockchainStatus (st : ChainStatus) (data : option BlockchainPatch)
    (r : t) : t :=
  let b := blockchain r in
  withBlockchain
    match data with
    | None => {| txId := txId b; registrationId := registrationId b; status := st;
                 blockHeight := blockHeight b; timestamp := timestamp b |}
    | Some d =>
        {| txId := default (txId b) (p_txId d);
           registrationId := default (registrationId b) (p_registrationId d);
           status := default st (p_status d);
           blockHeight := default (blockHeight b) (p_blockHeight d);
           timestamp := default (timestamp b) (p_timestamp d) |}
    end r.

(** [methods.incrementViews] and [methods.incrementVerifications] *)
Definition incrementViews (now : Z) (r : t) : t :=
  withAnalytics {| views := views (analytics r) + 1;
                   verifications := verifications (analytics r);
                   lastViewed := Some now;
                   lastVerified := lastVerified (analytics r) |} r.

Definition incrementVerifications (now : Z) (r : t) : t :=
  withAnalytics {| views := views (analytics r);
                   verifications := verifications (analytics r) + 1;
                   lastViewed := lastViewed (analytics r);
                   lastVerified := Some now |} r.

(** A [Partial<IIPFSData>]. *)
Record IPFSPatch : Type := mkIPFSPatch {
  p_cid : option (option string);
  p_gateway : option (option string);
  p_pinned : option bool
}.

(** [methods.setIPFSData]: [Object.assign(this.ipfs, ipfsData);
    this.ipfs.uploadedAt = new Date(); return this.save()]. *)
Definition setIPFSData (ipfsData : IPFSPatch) (now : Z) (r : t) : t :=
  let i := ipfs r in
  withIpfs {| cid := default (cid i) (p_cid ipfsData);
              gateway := default (gateway i) (p_gateway ipfsData);
              pinned := default (pinned i) (p_pinned ipfsData);
              uploadedAt := Some now |} r.

(** The [$set] document of the BNS sweep (BNSValidationService.ts 119-128)
    as the schema casts it. [transfer] carries the two extra paths written
    when the result is 'transferred': [bnsTransferredAt] and
    [currentBnsOwner] (possibly null); the schema declares
    [currentBnsOwner] with [uppercase: true], so a string written to it is
    stored in upper case. *)
Definition setBnsValidation (now : Z) (st : BnsStatus)
    (transfer : option (Z * option string)) (r : t) : t :=
  {| _id := _id r; contentHash := contentHash r; authorWallet := authorWallet r;
     bnsName := bnsName r;
     lastBnsValidation := Some now;
     bnsStatus := Some st;
     currentBnsOwner := match transfer with
                        | Some (_, owner) => option_map toUpperCase owner
                        | None => currentBnsOwner r
                        end;
     bnsTransferredAt := match transfer with
                         | Some (at_, _) => Some at_
                         | None => bnsTransferredAt r
                         end;
     contentUrl := contentUrl r;
     contentTwitterHandle := contentTwitterHandle r; blockchain := blockchain r;
     ipfs := ipfs r;
     analytics := analytics r;
     createdAt := createdAt r |}.

(** Every update the repository issues against a stored Registration, by
    the place that issues it. *)
Inductive Update : Type :=
| Verification                       (* the verification endpoints *)
| View                               (* retrieveOriginalContent *)
| Confirmation (tx : string) (height : option Z) (regId : option string)
                                     (* confirmRegistration *)
| BlockchainStatus (st : ChainStatus) (data : option BlockchainPatch)
| IncrementViews
| IncrementVerifications
| IPFS (ipfsData : IPFSPatch)        (* the four document methods *)
| BnsValidation (st : BnsStatus) (transfer : option (Z * option string)).
                                     (* the BNS sweep *)

Definition applyUpdate (now : Z) (u : Update) : t -> t :=
  match u with
  | Verification => recordVerification now
  | View => recordView now
  | Confirmation tx height regId => confirmOnChain tx height regId now
  | BlockchainStatus st data => updateBlockchainStatus st data
  | IncrementViews => incrementViews now
  | IncrementVerifications => incrementVerifications now
  | IPFS ipfsData => setIPFSData ipfsData now
  | BnsValidation st transfer => setBnsValidation now st transfer
  end.

(** The update is the Validator's. *)
Definition byValidator (u : Update) : bool :=
  match u with
  | BnsValidation _ _ => true
  | _ => false
  end.

End Registration.

(** shared/models/VerificationCache.ts *)
Module VerificationCache.

Record VerificationResult : Type := mkResult {
  isRegistered : option bool;
  registrationDate : option JsDate;
  authorWallet : JsVal;
  bnsName : JsVal;
  bnsStatus : option BnsStatus;
  txId : option string;
  blockHeight : option JsNumber
}.

Record t : Type := mk {
  result : option VerificationResult;
  expiresAt : Z;
  hits : Z;
  lastAccessed : Z
}.

(** [{ isRegistered: false }] *)
Definition negative : VerificationResult :=
  {| isRegistered := Some false; registrationDate := None;
     authorWallet := JUndefined; bnsName := JUndefined; bnsStatus := None;
     txId := None; blockHeight := None |}.

End VerificationCache.

(* ===================================================================== *)
(** ** The world outside the process, and the effect monad *)
(* ===================================================================== *)

Inductive Network : Type :=
| Testnet
| Mainnet.

#[global] Instance Network_eq_dec : EqDecision Network.
Proof. solve_decision. Defined.

Record ContractConfig : Type := mkConfig {
  contractAddress : string;
  contractName : string;
  network : Network
}.

(** The options object handed to [fetchCallReadOnlyFunction]. *)
Record ReadOnlyOptions : Type := mkReadOnly {
  roContractAddress : string;
  roContractName : string;
  roFunctionName : string;
  roFunctionArgs : list Buffer;
  roNetwork : Network;
  roSenderAddress : string
}.

(** What [cvToJSON(await fetchCallReadOnlyFunction(options))] evaluates to. *)
Inductive RpcOutcome : Type :=
| RpcThrows (f : RpcFailure)
| RpcJson (j : JsVal).

(** What [fetch(url, {headers})] followed by [response.json()] delivers for
    the name registry: an exception is raised inside the [try] block (the
    request fails, the body does not parse), the status is not 2xx, or the
    body is the declared [{ names?: string[] }]. *)
Inductive NamesOutcome : Type :=
| NamesThrows
| NamesNotOk (status : Z)
| NamesBody (names : option (list string)).

Record World : Type := mkWorld {
  readOnlyCall : ReadOnlyOptions -> RpcOutcome;
  namesOf : string -> NamesOutcome;
  storeFails : StoreOp -> bool
}.

Inductive LogLevel : Type :=
| Warn
| Error.

(** Observable effects, in the order they happen. Of the console output only
    [console.warn] and [console.error] are recorded. *)
Inductive Event : Type :=
| EvStore (op : StoreOp)
| EvReadOnly (opts : ReadOnlyOptions)
| EvNames (walletAddress : string)
| EvConsole (lvl : LogLevel) (msg : string)
| EvSleep (ms : Z).

(** The process state: both collections, the wall clock in milliseconds and
    the effects so far. The clock advances only through [sleep]. The store
    applies filters as the code issues them: content hashes are opaque keys.
    Of the casting the ODM derives from the schemas, the string case options
    of the written paths are applied by the update functions of
    [Registration]; validation is not modelled. *)
Record State : Type := mkState {
  cache : gmap string VerificationCache.t;
  registrations : list Registration.t;
  clock : Z;
  trace : list Event
}.

Definition M (A : Type) : Type := State -> Outcome A * State.

Definition ret {A} (a : A) : M A := fun s => (Ok a, s).

Definition bind {A B} (m : M A) (k : A -> M B) : M B :=
  fun s => match m s with
           | (Ok a, s') => k a s'
           | (Thrown e, s') => (Thrown e, s')
           end.

Definition throw {A} (e : JsError) : M A := fun s => (Thrown e, s).

(** [try { m } catch (error) { handler error }] *)
Definition tryCatch {A} (m : M A) (handler : JsError -> M A) : M A :=
  fun s => match m s with
           | (Ok a, s') => (Ok a, s')
           | (Thrown e, s') => handler e s'
           end.

Definition lift {A} (o : Outcome A) : M A := fun s => (o, s).

(** Sequencing of pure steps that may throw. *)
Definition obind {A B} (o : Outcome A) (k : A -> Outcome B) : Outcome B :=
  match o with
  | Ok a => k a
  | Thrown e => Thrown e
  end.

Declare Scope m_scope.
Delimit Scope m_scope with M.
Notation "'let!' x ':=' c1 'in' c2" := (bind c1 (fun x => c2))
  (at level 10, x name, c1 at level 100, c2 at level 200) : m_scope.
Notation "'let?' x ':=' c1 'in' c2" := (obind c1 (fun x => c2))
  (at level 10, x name, c1 at level 100, c2 at level 200) : m_scope.
Local Open Scope m_scope.

Definition emit (e : Event) : M unit :=
  fun s => (Ok tt, {| cache := cache s; registrations := registrations s;
                      clock := clock s; trace := trace s ++ [e] |}).

(** [Date.now()] *)
Definition dateNow : M Z := fun s => (Ok (clock s), s).

(** [await new Promise(resolve => setTimeout(resolve, ms))] *)
Definition sleep (ms : Z) : M unit :=
  fun s => (Ok tt, {| cache := cache s; registrations := registrations s;
                      clock := clock s + ms; trace := trace s ++ [EvSleep ms] |}).

Definition console (lvl : LogLevel) (msg : string) : M unit :=
  emit (EvConsole lvl msg).

Definition getCache : M (gmap string VerificationCache.t) :=
  fun s => (Ok (cache s), s).
Definition putCache (c : gmap string VerificationCache.t) : M unit :=
  fun s => (Ok tt, {| cache := c; registrations := registrations s;
                      clock := clock s; trace := trace s |}).
Definition getRegistrations : M (list Registration.t) :=
  fun s => (Ok (registrations s), s).
Definition putRegistrations (l : list Registration.t) : M unit :=
  fun s => (Ok tt, {| cache := cache s; registrations := l;
                      clock := clock s; trace := trace s |}).

Section Store.

Variable W : World.

(** Every store operation is visible in the trace and throws when the
    store is unavailable for it. *)
Definition storeOp (op : StoreOp) : M unit :=
  let! _ := emit (EvStore op) in
  if storeFails W op then throw (StoreError op) else ret tt.

(** [VerificationCache.findOne({contentHash, expiresAt: {$gt: new Date()}})] *)
Definition cacheFindOne (hashHex : string) : M (option VerificationCache.t) :=
  let! now := dateNow in
  let! _ := storeOp (CacheFindOne hashHex) in
  let! c := getCache in
  ret (match c !! hashHex with
       | Some d => if now <? VerificationCache.expiresAt d then Some d else None
       | None => None
       end).

(** [VerificationCache.deleteOne({contentHash})] *)
Definition cacheDeleteOne (hashHex : string) : M unit :=
  let! _ := storeOp (CacheDeleteOne hashHex) in
  let! c := getCache in
  putCache (delete hashHex c).

(** [VerificationCache.findOneAndUpdate({contentHash},
      {$set: {result, expiresAt, lastAccessed}, $inc: {hits: 1}},
      {upsert: true})] *)
Definition cacheFindOneAndUpdate (hashHex : string)
    (res : VerificationCache.VerificationResult) (expires accessed : Z) : M unit :=
  let! _ := storeOp (CacheFindOneAndUpdate hashHex) in
  let! c := getCache in
  let oldHits := match c !! hashHex with
                 | Some d => VerificationCache.hits d
                 | None => 0
                 end in
  putCache (<[hashHex := {| VerificationCache.result := Some res;
                            VerificationCache.expiresAt := expires;
                            VerificationCache.hits := oldHits + 1;
                            VerificationCache.lastAccessed := accessed |}]> c).

(** Apply [f] to the first document satisfying [p] (the document an
    update-one operation modifies). *)
Fixpoint updateFirst (p : Registration.t -> bool)
    (f : Registration.t -> Registration.t) (l : list Registration.t)
    : list Registration.t :=
  match l with
  | [] => []
  | r :: l' => if p r then f r :: l' else r :: updateFirst p f l'
  end.

Definition hasHash (hashHex : string) (r : Registration.t) : bool :=
  bool_decide (Registration.contentHash r = hashHex).

Definition hasId (id : N) (r : Registration.t) : bool :=
  bool_decide (Registration._id r = id).

Definition confirmedOrPending (r : Registration.t) : bool :=
  match Registration.status (Registration.blockchain r) with
  | Confirmed | Pending => true
  | Failed => false
  end.

(** [Registration.findOne({contentHash,
      'blockchain.status': {$in: ['confirmed', 'pending']}})] *)
Definition regFindOne (hashHex : string) : M (option Registration.t) :=
  let! _ := storeOp (RegFindOne hashHex) in
  let! l := getRegistrations in
  ret (find (fun r => hasHash hashHex r && confirmedOrPending r) l).

(** [Registration.findOneAndUpdate({contentHash}, update)] *)
Definition regFindOneAndUpdate (hashHex : string)
    (f : Registration.t -> Registration.t) : M unit :=
  let! _ := storeOp (RegFindOneAndUpdate hashHex) in
  let! l := getRegistrations in
  putRegistrations (updateFirst (hasHash hashHex) f l).

(** [Registration.findByIdAndUpdate(id, update)] *)
Definition regFindByIdAndUpdate (id : N)
    (f : Registration.t -> Registration.t) : M unit :=
  let! _ := storeOp (RegFindByIdAndUpdate id) in
  let! l := getRegistrations in
  putRegistrations (updateFirst (hasId id) f l).

End Store.

(* ===================================================================== *)
(** ** BlockchainService (services/BlockchainService.ts, mainnet API) *)
(* ===================================================================== *)

Module BlockchainService.

Record TweetRegistration : Type := mkTweet {
  hash : Buffer;
  author : JsVal;
  bnsName : JsVal;
  blockHeight : JsNumber;
  timestamp : JsNumber;
  registrationId : JsNumber
}.

(** v2 and v1 contracts for fallback verification. *)
Definition contractAddressV2 : string := "SPVQ61FEWR6M4HVAT3BNE07D4BNW6A1C2ACCNQ6F".
Definition contractNameV2 : string := "truthchain_v2".
Definition contractAddressV1 : string := "SP1S7KX8TVSAWJ8CVJZQSFERBQ8BNCDXYFHXT21Z9".
Definition contractNameV1 : string := "truthchain_v1".

Section Service.

Variable W : World.
Variable config : ContractConfig.

(** [cvToJSON(await fetchCallReadOnlyFunction(options))] *)
Definition callReadOnly (options : ReadOnlyOptions) : M JsVal :=
  let! _ := emit (EvReadOnly options) in
  match readOnlyCall W options with
  | RpcThrows f => throw (RpcError f)
  | RpcJson j => ret j
  end.

Definition readOnlyOptions (address name functionName : string)
    (args : list Buffer) : ReadOnlyOptions :=
  {| roContractAddress := address;
     roContractName := name;
     roFunctionName := functionName;
     roFunctionArgs := args;
     roNetwork := network config;
     roSenderAddress := address |}.

Definition hashExistsOnContract (address name : string)
    (contentHash : Buffer) : M bool :=
  tryCatch
    (let! jsonResult :=
       callReadOnly (readOnlyOptions address name "hash-exists" [contentHash]) in
     let! v := lift (getProp jsonResult "value") in
     ret (isTrue v))
    (fun _ =>
       let! _ := console Error ("Error checking hash existence on " ++ name) in
       ret false).

(** The statements of the inner [try] block after [cvToJSON]: [Some r]
    when the [return] is reached, [None] when the [if] is not entered. *)
Definition parseDetails (contentHash : Buffer) (jsonResult : JsVal)
    : Outcome (option TweetRegistration) :=
  let? success := getProp jsonResult "success" in
  if negb (truthy success) then Ok None else
  let? value := getProp jsonResult "value" in
  if negb (truthy value) then Ok None else
  let? data := getProp value "value" in
  let? bnsField := getProp data "bns-name" in
  let? bnsName_ :=
    (if truthy bnsField then
       let? ty := getProp bnsField "type" in
       if isString "some" ty then
         let? inner := getProp bnsField "value" in
         getProp inner "value"
       else Ok JUndefined
     else Ok JUndefined) in
  let? authorField := getProp data "author" in
  let? author_ := getProp authorField "value" in
  let? heightField := getProp data "block-height" in
  let? height := getProp heightField "value" in
  let? stampField := getProp data "time-stamp" in
  let? stamp := getProp stampField "value" in
  let? idField := getProp data "registration-id" in
  let? rid := getProp idField "value" in
  Ok (Some {| hash := contentHash;
              author := author_;
              bnsName := bnsName_;
              blockHeight := parseInt height;
              timestamp := parseInt stamp;
              registrationId := parseInt rid |}).

(** The fallback record returned when the hash exists but its details
    cannot be obtained; [now] is [Date.now()]. *)
Definition basicInfo (contentHash : Buffer) (now : Z) : TweetRegistration :=
  {| hash := contentHash;
     author := JString "unknown";
     bnsName := JUndefined;
     blockHeight := Num (inject_Z 0);
     timestamp := Num (Qmake now 1000);
     registrationId := Num (inject_Z 0) |}.

Definition verifyOnContract (address name : string) (contentHash : Buffer)
    : M (option TweetRegistration) :=
  tryCatch
    (let! exists_ := hashExistsOnContract address name contentHash in
     if negb exists_ then ret None else
     let! details :=
       tryCatch
         (let! jsonResult :=
            callReadOnly (readOnlyOptions address name "verify-content" [contentHash]) in
          lift (parseDetails contentHash jsonResult))
         (fun _ => ret None) in
     match details with
     | Some r => ret (Some r)
     | None =>
         let! now := dateNow in
         ret (Some (basicInfo contentHash now))
     end)
    (fun _ =>
       let! _ := console Error ("Error verifying on " ++ name) in
       ret None).

Definition verifyTweet (contentHash : Buffer) : M (option TweetRegistration) :=
  tryCatch
    (let! v3Result :=
       verifyOnContract (contractAddress config) (contractName config) contentHash in
     match v3Result with
     | Some r => ret (Some r)
     | None =>
         if bool_decide (network config = Mainnet) then
           let! v2Result :=
             verifyOnContract contractAddressV2 contractNameV2 contentHash in
           match v2Result with
           | Some r => ret (Some r)
           | None =>
               let! v1Result :=
                 verifyOnContract contractAddressV1 contractNameV1 contentHash in
               match v1Result with
               | Some r => ret (Some r)
               | None => ret None
               end
           end
         else ret None
     end)
    (fun _ =>
       let! _ := console Error "Error verifying content:" in
       ret None).

Definition hashExists (contentHash : Buffer) : M bool :=
  hashExistsOnContract (contractAddress config) (contractName config) contentHash.

(** Returns the decoded statistics, or [JNull] for [null]. *)
Definition getContractStats : M JsVal :=
  tryCatch
    (callReadOnly (readOnlyOptions (contractAddress config) (contractName config)
                                   "get-contract-stats" []))
    (fun _ =>
       let! _ := console Error "Error getting contract stats:" in
       ret JNull).

End Service.

End BlockchainService.

(* ===================================================================== *)
(** ** VerificationController (controllers/VerificationController.ts) *)
(* ===================================================================== *)

(** [res.status(code).json(body)]; [res.json(body)] has status 200. *)
Record HttpResponse (B : Type) : Type := mkHttp {
  statusCode : Z;
  body : B
}.
Arguments mkHttp {B} statusCode body.
Arguments statusCode {B} h.
Arguments body {B} h.

(** What reading a property of a parsed JSON body yields. Nothing checks
    a body against the type its handler declares, so the value may be of
    any kind; of a value that is not a string only its truthiness
    matters to the handlers. *)
Inductive Field (A : Type) : Type :=
| Absent                     (* undefined or null *)
| Text (s : A)               (* a string *)
| NotText (truthy : bool).   (* a boolean, number, array or object *)
Arguments Absent {A}.
Arguments Text {A} s.
Arguments NotText {A} truthy.

(** A request field is usable when it is present and not the empty string. *)
Definition truthyUnits (o : option JsString) : option JsString :=
  match o with
  | Some (c :: r) => Some (c :: r)
  | _ => None
  end.

Definition truthyText (o : option string) : option string :=
  match o with
  | Some (String a r) => Some (String a r)
  | _ => None
  end.

(** [x || 0] on an optional store number, [x || ''] on an optional string. *)
Definition orZero (o : option Z) : Z := default 0 o.
Definition orEmpty (o : option string) : string := default EmptyString o.

Definition optionalString (o : option string) : JsVal :=
  match o with
  | Some s => JString s
  | None => JUndefined
  end.

Module VerificationController.

Record VerifyTweetRequest : Type := mkRequest {
  tweetContent : option JsString;
  hash : option string
}.

(** [registrationId] is a store string or a number. *)
Inductive IdValue : Type :=
| IdString (s : string)
| IdNumber (n : JsNumber).

Record VerifyData : Type := mkData {
  d_hash : string;
  author : JsVal;
  bnsName : JsVal;
  bnsStatus : BnsStatus;
  lastBnsValidation : option Z;
  registeredAt : option IsoString;
  blockHeight : option JsNumber;
  registrationId : option IdValue;
  txId : option string;
  tweetUrl : option string;
  twitterHandle : option string
}.

Record VerifyTweetResponse : Type := mkResponse {
  success : bool;
  verified : bool;
  message : string;
  data : option VerifyData;
  error : option string
}.

Module Quick.
Record Data : Type := mkData { hash : string; exists_ : bool }.
Record Response : Type := mkResponse {
  success : bool;
  verified : bool;
  message : string;
  data : option Data;
  error : option string
}.
End Quick.

Module Batch.
(** An element of [items]: [null], or a value whose properties
    [content] and [hash] can be read. A number, string, boolean or array
    has neither property and reads as [ItemOf Absent Absent], like [{}]. *)
Inductive Item : Type :=
| ItemNull
| ItemOf (content : Field JsString) (hash : Field string).
Record Data : Type := mkData {
  author : JsVal;
  registeredAt : IsoString;
  blockHeight : JsNumber;
  registrationId : JsNumber
}.
(** [r_data] is [None] when the key is absent, [Some None] for [null]. *)
Record Result : Type := mkResult {
  r_success : bool;
  r_verified : bool;
  r_hash : option string;
  r_data : option (option Data);
  r_error : option string
}.
Record Response : Type := mkResponse {
  success : bool;
  message : string;
  results : option (list Result);
  error : option string
}.
End Batch.

Section Controller.

Variable W : World.
Variable config : ContractConfig.

(** [timestamp > 1000000000000 ? timestamp : timestamp * 1000] *)
Definition toMillis (timestamp : JsNumber) : JsNumber :=
  if numGt timestamp 1000000000000 then timestamp else numMul timestamp 1000.

(** Step 1 of [verifyTweet]: [Some response] when the cache answers. *)
Definition cacheStep (hashHex : string)
    : M (option (HttpResponse VerifyTweetResponse)) :=
  let! cached := cacheFindOne W hashHex in
  match cached with
  | None => ret None
  | Some c =>
      match VerificationCache.result c with
      | Some res =>
          match VerificationCache.isRegistered res with
          | Some true =>
              let! now := dateNow in
              let! _ := regFindOneAndUpdate W hashHex
                          (Registration.recordVerification now) in
              let! iso :=
                match VerificationCache.registrationDate res with
                | Some d => let! i := lift (toISOString d) in ret (Some i)
                | None => ret None
                end in
              ret (Some (mkHttp 200
                {| success := true;
                   verified := true;
                   message := "Content verified (cached)";
                   data := Some
                     {| d_hash := hashHex;
                        author := VerificationCache.authorWallet res;
                        bnsName := VerificationCache.bnsName res;
                        bnsStatus := default BnsValid (VerificationCache.bnsStatus res);
                        lastBnsValidation := None;
                        registeredAt := iso;
                        blockHeight := VerificationCache.blockHeight res;
                        registrationId := None;
                        txId := VerificationCache.txId res;
                        tweetUrl := None;
                        twitterHandle := None |};
                   error := None |}))
          | Some false =>
              let! _ := cacheDeleteOne W hashHex in
              ret None
          | None =>
              let! _ := console Warn "Corrupted cache entry detected, clearing:" in
              let! _ := cacheDeleteOne W hashHex in
              ret None
          end
      | None =>
          let! _ := console Warn "Corrupted cache entry detected, clearing:" in
          let! _ := cacheDeleteOne W hashHex in
          ret None
      end
  end.

(** Step 2 of [verifyTweet], for a record found in the store. *)
Definition storeHit (hashHex : string) (registration : Registration.t)
    : M (HttpResponse VerifyTweetResponse) :=
  let chain := Registration.blockchain registration in
  let! now := dateNow in
  let! _ := cacheFindOneAndUpdate W hashHex
    {| VerificationCache.isRegistered := Some true;
       VerificationCache.authorWallet := JString (Registration.authorWallet registration);
       VerificationCache.bnsName := optionalString (Registration.bnsName registration);
       VerificationCache.bnsStatus :=
         Some (default BnsValid (Registration.bnsStatus registration));
       VerificationCache.blockHeight :=
         Some (Num (inject_Z (orZero (Registration.blockHeight chain))));
       VerificationCache.registrationDate :=
         Some (DateMs (default now (Registration.timestamp chain)));
       VerificationCache.txId := Some (orEmpty (Registration.txId chain)) |}
    (now + 3600000) now in
  let! _ := regFindByIdAndUpdate W (Registration._id registration)
              (Registration.recordVerification now) in
  ret (mkHttp 200
    {| success := true;
       verified := true;
       message := "Content verified successfully";
       data := Some
         {| d_hash := hashHex;
            author := JString (Registration.authorWallet registration);
            bnsName := optionalString (Registration.bnsName registration);
            bnsStatus := default BnsValid (Registration.bnsStatus registration);
            lastBnsValidation := Registration.lastBnsValidation registration;
            registeredAt :=
              Some (Iso (default (Registration.createdAt registration)
                                 (Registration.timestamp chain)));
            blockHeight := Some (Num (inject_Z (orZero (Registration.blockHeight chain))));
            registrationId :=
              Some (match truthyText (Registration.registrationId chain) with
                    | Some s => IdString s
                    | None => IdNumber (Num (inject_Z 0))
                    end);
            txId := Some (orEmpty (Registration.txId chain));
            tweetUrl := Registration.contentUrl registration;
            twitterHandle := Registration.contentTwitterHandle registration |};
       error := None |}).

(** Step 3 of [verifyTweet]: the blockchain fallback. *)
Definition chainStep (hashHex : string) (contentHash : Buffer)
    : M (HttpResponse VerifyTweetResponse) :=
  let! verification := BlockchainService.verifyTweet W config contentHash in
  match verification with
  | None =>
      let! now := dateNow in
      let! _ := cacheFindOneAndUpdate W hashHex VerificationCache.negative
                  (now + 3600000) now in
      ret (mkHttp 200
        {| success := true;
           verified := false;
           message := "Content not found on blockchain";
           data := None;
           error := None |})
  | Some v =>
      let registrationDate :=
        newDate (toMillis (BlockchainService.timestamp v)) in
      let! now := dateNow in
      let! _ := cacheFindOneAndUpdate W hashHex
        {| VerificationCache.isRegistered := Some true;
           VerificationCache.authorWallet := BlockchainService.author v;
           VerificationCache.bnsName := BlockchainService.bnsName v;
           VerificationCache.bnsStatus := Some BnsValid;
           VerificationCache.blockHeight := Some (BlockchainService.blockHeight v);
           VerificationCache.registrationDate := Some registrationDate;
           VerificationCache.txId := None |}
        (now + 3600000) now in
      let! iso := lift (toISOString registrationDate) in
      ret (mkHttp 200
        {| success := true;
           verified := true;
           message := "Content verified successfully";
           data := Some
             {| d_hash := hashHex;
                author := BlockchainService.author v;
                bnsName := BlockchainService.bnsName v;
                bnsStatus := BnsValid;
                lastBnsValidation := None;
                registeredAt := Some iso;
                blockHeight := Some (BlockchainService.blockHeight v);
                registrationId := Some (IdNumber (BlockchainService.registrationId v));
                txId := None;
                tweetUrl := None;
                twitterHandle := None |};
           error := None |})
  end.

(** Steps 1 to 3 of [verifyTweet] for the hex digest [hashHex];
    [contentHash] is the buffer step 3 derives from the same request. *)
Definition resolve (hashHex : string) (contentHash : Buffer)
    : M (HttpResponse VerifyTweetResponse) :=
  let! cachedAnswer := cacheStep hashHex in
  match cachedAnswer with
  | Some response => ret response
  | None =>
      let! registration := regFindOne W hashHex in
      match registration with
      | Some r => storeHit hashHex r
      | None => chainStep hashHex contentHash
      end
  end.

(** POST /api/verify *)
Definition verifyTweet (req : VerifyTweetRequest)
    : M (HttpResponse VerifyTweetResponse) :=
  tryCatch
    (match truthyUnits (tweetContent req), truthyText (hash req) with
     | Some c, _ =>
         resolve (HashService.generateContentHashHex c)
                 (HashService.generateContentHash c)
     | None, Some h => resolve h (HashService.hexToBuffer h)
     | None, None =>
         ret (mkHttp 400
           {| success := false;
              verified := false;
              message := "Either tweet content or hash is required";
              data := None;
              error := Some "Missing required fields" |})
     end)
    (fun e =>
       let! _ := console Error "Error verifying tweet:" in
       ret (mkHttp 500
         {| success := false;
            verified := false;
            message := "Error during verification";
            data := None;
            error := Some (errorMessage e) |})).

(** GET /api/verify/:hash *)
Definition quickVerify (hashParam : string) : M (HttpResponse Quick.Response) :=
  tryCatch
    (if bool_decide (hashParam = EmptyString) then
       ret (mkHttp 400
         {| Quick.success := false;
            Quick.verified := false;
            Quick.message := "Hash parameter is required";
            Quick.data := None;
            Quick.error := None |})
     else
       let contentHash := HashService.hexToBuffer hashParam in
       let! exists_ := BlockchainService.hashExists W config contentHash in
       ret (mkHttp 200
         {| Quick.success := true;
            Quick.verified := exists_;
            Quick.message := if exists_ then "Content verified" else "Content not found";
            Quick.data := Some {| Quick.hash := hashParam; Quick.exists_ := exists_ |};
            Quick.error := None |}))
    (fun e =>
       let! _ := console Error "Error in quick verify:" in
       ret (mkHttp 500
         {| Quick.success := false;
            Quick.verified := false;
            Quick.message := "Error during quick verification";
            Quick.data := None;
            Quick.error := Some (errorMessage e) |})).

(** The result pushed for an item that carries neither field. *)
Definition missingFields : Batch.Result :=
  {| Batch.r_success := false;
     Batch.r_verified := false;
     Batch.r_hash := None;
     Batch.r_data := None;
     Batch.r_error := Some "Either content or hash required" |}.

(** The inner [try]/[catch] of the batch loop for one hashed item. *)
Definition verifyItem (contentHash : Buffer) (hashHex : string) : M Batch.Result :=
  tryCatch
    (let! verification := BlockchainService.verifyTweet W config contentHash in
     match verification with
     | Some v =>
         let! iso := lift (toISOString
                             (newDate (numMul (BlockchainService.timestamp v) 1000))) in
         ret {| Batch.r_success := true;
                Batch.r_verified := true;
                Batch.r_hash := Some hashHex;
                Batch.r_data := Some (Some
                  {| Batch.author := BlockchainService.author v;
                     Batch.registeredAt := iso;
                     Batch.blockHeight := BlockchainService.blockHeight v;
                     Batch.registrationId := BlockchainService.registrationId v |});
                Batch.r_error := None |}
     | None =>
         ret {| Batch.r_success := true;
                Batch.r_verified := false;
                Batch.r_hash := Some hashHex;
                Batch.r_data := Some None;
                Batch.r_error := None |}
     end)
    (fun e =>
       ret {| Batch.r_success := false;
              Batch.r_verified := false;
              Batch.r_hash := Some hashHex;
              Batch.r_data := None;
              Batch.r_error := Some (errorMessage e) |}).

(** One iteration of [for (const item of items)]. The property reads and
    the two [HashService] calls stand before the inner [try]: what they
    throw leaves the loop. *)
Definition processItem (item : Batch.Item) : M Batch.Result :=
  match item with
  | Batch.ItemNull =>
      throw (TypeError "Cannot read properties of null (reading 'content')")
  | Batch.ItemOf content hash =>
      match content with
      | Text (c :: r) =>
          verifyItem (HashService.generateContentHash (c :: r))
                     (HashService.generateContentHashHex (c :: r))
      | NotText true => throw (TypeError "content.trim is not a function")
      | _ =>
          match hash with
          | Text (String a r) =>
              verifyItem (HashService.hexToBuffer (String a r)) (String a r)
          | NotText true =>
              throw (TypeError "hexString.startsWith is not a function")
          | _ => ret missingFields
          end
      end
  end.

Fixpoint processItems (items : list Batch.Item) (results : list Batch.Result)
    : M (list Batch.Result) :=
  match items with
  | [] => ret results
  | item :: rest =>
      let! r := processItem item in
      processItems rest (results ++ [r])
  end.

(** POST /api/verify/batch. [items] is [None] when the body holds no
    array under that key. *)
Definition batchVerify (items : option (list Batch.Item))
    : M (HttpResponse Batch.Response) :=
  tryCatch
    (match items with
     | None | Some [] =>
         ret (mkHttp 400
           {| Batch.success := false;
              Batch.message := "Items array is required for batch verification";
              Batch.results := None;
              Batch.error := None |})
     | Some l =>
         if (10 <? length l)%nat then
           ret (mkHttp 400
             {| Batch.success := false;
                Batch.message := "Maximum 10 items allowed per batch request";
                Batch.results := None;
                Batch.error := None |})
         else
           let! results := processItems l [] in
           ret (mkHttp 200
             {| Batch.success := true;
                Batch.message :=
                  "Batch verification completed for " ++ pretty (length l) ++ " items";
                Batch.results := Some results;
                Batch.error := None |})
     end)
    (fun e =>
       let! _ := console Error "Error in batch verify:" in
       ret (mkHttp 500
         {| Batch.success := false;
            Batch.message := "Error during batch verification";
            Batch.results := None;
            Batch.error := Some (errorMessage e) |})).

End Controller.

End VerificationController.

(* ===================================================================== *)
(** ** BNSValidationService (services/BNSValidationService.ts) *)
(* ===================================================================== *)

Module BNSValidationService.

Record BNSValidationResult : Type := mkResult {
  isValid : bool;
  currentNames : list string;
  hasOriginalBNS : bool;
  status : BnsStatus
}.

(** [names.includes(name)] *)
Definition includes (names : list string) (name : string) : bool :=
  existsb (fun n => bool_decide (n = name)) names.

(** [result.currentNames[0] || null] *)
Definition firstNameOrNull (names : list string) : option string :=
  match names with
  | n :: _ => truthyText (Some n)
  | [] => None
  end.

(** The filter of the sweep's query:
    [{ bnsName: {$exists: true, $ne: null},
       $or: [{lastBnsValidation: {$lt: cutoffDate}},
             {lastBnsValidation: {$exists: false}}] }] *)
Definition isStale (cutoffDate : Z) (r : Registration.t) : bool :=
  match Registration.bnsName r with
  | Some _ =>
      match Registration.lastBnsValidation r with
      | Some t => t <? cutoffDate
      | None => true
      end
  | None => false
  end.

Section Service.

Variable W : World.

Definition fetchWalletBNSNames (walletAddress : string) : M (list string) :=
  tryCatch
    (let! _ := emit (EvNames walletAddress) in
     match namesOf W walletAddress with
     | NamesThrows => throw (TypeError "fetch failed")
     | NamesNotOk _ =>
         let! _ := console Warn ("BNS API returned an error status for " ++ walletAddress) in
         ret []
     | NamesBody names => ret (default [] names)
     end)
    (fun _ =>
       let! _ := console Error "Failed to fetch BNS names:" in
       ret []).

Definition validateRegistration (originalBNS walletAddress : string)
    : M BNSValidationResult :=
  let! names := fetchWalletBNSNames walletAddress in
  if includes names originalBNS then
    ret {| isValid := true; currentNames := names;
           hasOriginalBNS := true; status := BnsValid |}
  else if (0 <? length names)%nat then
    ret {| isValid := false; currentNames := names;
           hasOriginalBNS := false; status := BnsTransferred |}
  else
    ret {| isValid := false; currentNames := [];
           hasOriginalBNS := false; status := BnsNoLongerOwned |}.

(** [Registration.find(filter).limit(100)] *)
Definition findStale (cutoffDate : Z) : M (list Registration.t) :=
  let! _ := storeOp W RegFind in
  let! l := getRegistrations in
  ret (firstn 100 (List.filter (isStale cutoffDate) l)).

(** The body of the per-record [try] block. The query only returns
    documents whose [bnsName] is set. *)
Definition validateOne (registration : Registration.t) : M unit :=
  let! result := validateRegistration
                   (orEmpty (Registration.bnsName registration))
                   (Registration.authorWallet registration) in
  let! now := dateNow in
  let! _ := regFindByIdAndUpdate W (Registration._id registration)
              (Registration.setBnsValidation now (status result)
                 (match status result with
                  | BnsTransferred =>
                      Some (now, firstNameOrNull (currentNames result))
                  | _ => None
                  end)) in
  sleep 100.

(** [for (const registration of staleRegistrations) { try ... catch ... }] *)
Fixpoint validateEach (stale : list Registration.t) (validatedCount : nat) : M nat :=
  match stale with
  | [] => ret validatedCount
  | registration :: rest =>
      let! counted :=
        tryCatch
          (let! _ := validateOne registration in ret true)
          (fun _ =>
             let! _ := console Error "Failed to validate registration" in
             ret false) in
      validateEach rest (if counted : bool then S validatedCount else validatedCount)
  end.

Definition validateStaleRegistrations (maxAge : Z) : M nat :=
  let! now := dateNow in
  let cutoffDate := now - maxAge in
  let! staleRegistrations := findStale cutoffDate in
  validateEach staleRegistrations 0%nat.

End Service.

(** The default of [maxAge]: 24 hours in milliseconds. *)
Definition defaultMaxAge : Z := 24 * 60 * 60 * 1000.

End BNSValidationService.

(* ===================================================================== *)
(** ** Vocabulary of the properties *)
(* ===================================================================== *)

Local Open Scope list_scope.

(** No whitespace at either end. *)
Definition edgeFree (s : JsString) : Prop :=
  HashService.trimStart s = s /\ HashService.trimStart (rev s) = rev s.

(** Every whitespace unit is a U+0020 that does not follow another
    whitespace unit; [afterSpace] tells that the previous unit was one. *)
Fixpoint singleSpaced (afterSpace : bool) (s : JsString) : bool :=
  match s with
  | [] => true
  | c :: r =>
      if HashService.isWhiteSpace c
      then (c =? 0x20) && negb afterSpace && singleSpaced true r
      else singleSpaced false r
  end.

(** The state after further effects [evs] and nothing else. *)
Definition addTrace (evs : list Event) (s : State) : State :=
  {| cache := cache s; registrations := registrations s;
     clock := clock s; trace := trace s ++ evs |}.

(** A deployed contract: its address and name. *)
Definition ContractId : Type := string * string.

Definition primary (config : ContractConfig) : ContractId :=
  (contractAddress config, contractName config).
Definition contractV2 : ContractId :=
  (BlockchainService.contractAddressV2, BlockchainService.contractNameV2).
Definition contractV1 : ContractId :=
  (BlockchainService.contractAddressV1, BlockchainService.contractNameV1).

(** The versions consulted for a configuration, newest first. *)
Definition versions (config : ContractConfig) : list ContractId :=
  primary config :: (if bool_decide (network config = Mainnet)
                     then [contractV2; contractV1] else []).

(** The contract's [hash-exists] answer as the gateway reads it. *)
Definition reportsExistence (W : World) (config : ContractConfig)
    (c : ContractId) (contentHash : Buffer) : bool :=
  match readOnlyCall W (BlockchainService.readOnlyOptions config (fst c) (snd c)
                          "hash-exists" [contentHash]) with
  | RpcJson j =>
      match getProp j "value" with
      | Ok v => isTrue v
      | Thrown _ => false
      end
  | RpcThrows _ => false
  end.

(** The contracts whose [hash-exists] was called, in call order. *)
Fixpoint existenceChecks (evs : list Event) : list ContractId :=
  match evs with
  | [] => []
  | EvReadOnly o :: r =>
      if bool_decide (roFunctionName o = "hash-exists")
      then (roContractAddress o, roContractName o) :: existenceChecks r
      else existenceChecks r
  | _ :: r => existenceChecks r
  end.

(** The versions probed when probing stops at the first hit. *)
Fixpoint probedUntilHit (hit : ContractId -> bool) (vs : list ContractId)
    : list ContractId :=
  match vs with
  | [] => []
  | v :: r => v :: (if hit v then [] else probedUntilHit hit r)
  end.

(** The gateway's view of one contract version. *)
Section GatewayView.

Variable W : World.
Variable config : ContractConfig.

Definition existsOptions (c : ContractId) (contentHash : Buffer) : ReadOnlyOptions :=
  BlockchainService.readOnlyOptions config (fst c) (snd c) "hash-exists" [contentHash].

Definition detailOptions (c : ContractId) (contentHash : Buffer) : ReadOnlyOptions :=
  BlockchainService.readOnlyOptions config (fst c) (snd c) "verify-content" [contentHash].

(** The existence check ended in its [catch] block. *)
Definition existenceCheckFailed (c : ContractId) (contentHash : Buffer) : bool :=
  match readOnlyCall W (existsOptions c contentHash) with
  | RpcJson j =>
      match getProp j "value" with
      | Ok _ => false
      | Thrown _ => true
      end
  | RpcThrows _ => true
  end.

Definition existsEvents (c : ContractId) (contentHash : Buffer) : list Event :=
  EvReadOnly (existsOptions c contentHash)
    :: (if existenceCheckFailed c contentHash
        then [EvConsole Error ("Error checking hash existence on " +:+ snd c)]
        else []).

(** The details the [verify-content] call yields, when it yields any. *)
Definition detailsOf (c : ContractId) (contentHash : Buffer)
    : option BlockchainService.TweetRegistration :=
  match readOnlyCall W (detailOptions c contentHash) with
  | RpcJson j =>
      match BlockchainService.parseDetails contentHash j with
      | Ok (Some r) => Some r
      | _ => None
      end
  | RpcThrows _ => None
  end.

Definition verifyOn (c : ContractId) (contentHash : Buffer) (now : Z)
    : option BlockchainService.TweetRegistration :=
  if reportsExistence W config c contentHash
  then Some (default (BlockchainService.basicInfo contentHash now)
                     (detailsOf c contentHash))
  else None.

Definition verifyOnEvents (c : ContractId) (contentHash : Buffer) : list Event :=
  existsEvents c contentHash
    ++ (if reportsExistence W config c contentHash
        then [EvReadOnly (detailOptions c contentHash)] else []).

Fixpoint verifyAcross (vs : list ContractId) (contentHash : Buffer) (now : Z)
    : option BlockchainService.TweetRegistration :=
  match vs with
  | [] => None
  | v :: r =>
      match verifyOn v contentHash now with
      | Some x => Some x
      | None => verifyAcross r contentHash now
      end
  end.

Fixpoint verifyAcrossEvents (vs : list ContractId) (contentHash : Buffer)
    : list Event :=
  match vs with
  | [] => []
  | v :: r =>
      verifyOnEvents v contentHash
        ++ (if reportsExistence W config v contentHash
            then [] else verifyAcrossEvents r contentHash)
  end.

End GatewayView.

Definition statsOptions (config : ContractConfig) : ReadOnlyOptions :=
  BlockchainService.readOnlyOptions config (contractAddress config)
    (contractName config) "get-contract-stats" [].

(** The record the gateway returns when only existence is known. *)
Definition isDegraded (contentHash : Buffer) (now : Z)
    (r : BlockchainService.TweetRegistration) : Prop :=
  BlockchainService.hash r = contentHash
  /\ BlockchainService.author r = JString "unknown"
  /\ BlockchainService.bnsName r = JUndefined
  /\ BlockchainService.blockHeight r = Num (inject_Z 0)
  /\ BlockchainService.registrationId r = Num (inject_Z 0)
  /\ BlockchainService.timestamp r = Num (Qmake now 1000).

(** *** Sample worlds *)

(** The default configuration of routes/index.ts. *)
Definition mainnetConfig : ContractConfig :=
  {| contractAddress := "SPVQ61FEWR6M4HVAT3BNE07D4BNW6A1C2ACCNQ6F";
     contractName := "truthchain_v3";
     network := Mainnet |}.

(** The digest of [tweetPlain]. *)
Definition sampleHex : string :=
  "f0245d9cedd40d301f2398c2d04c525fc615be765d802082884d41d452eab8ba".
Definition sampleHash : Buffer := HashService.hexToBuffer sampleHex.

Definition boolJson (b : bool) : JsVal :=
  JObject [("type", JString "bool"); ("value", JBool b)].

Definition uintJson (digits : string) : JsVal :=
  JObject [("type", JString "uint"); ("value", JString digits)].

(** [cvToJSON] of [(ok {author, bns-name: none, block-height, ...})]. *)
Definition sampleDetails : JsVal :=
  JObject
    [("type", JString "(response (tuple) UnknownType)");
     ("value",
      JObject
        [("type", JString "(tuple)");
         ("value",
          JObject
            [("author", JObject [("type", JString "principal");
                                 ("value", JString "SP1S7KX8TVSAWJ8CVJZQSFERBQ8BNCDXYFHXT21Z9")]);
             ("bns-name", JObject [("type", JString "(optional none)");
                                   ("value", JNull)]);
             ("block-height", uintJson "154200");
             ("time-stamp", uintJson "1718000000");
             ("content-type", JObject [("type", JString "(string-ascii 5)");
                                       ("value", JString "tweet")]);
             ("registration-id", uintJson "7")])]);
     ("success", JBool true)].

(** [cvToJSON] of [(err u104)]. *)
Definition notFoundJson : JsVal :=
  JObject [("type", JString "(response UnknownType uint)");
           ("value", uintJson "104");
           ("success", JBool false)].

Definition quietNames : string -> NamesOutcome := fun _ => NamesBody (Some []).

(** A ledger on which only truthchain_v1 holds the hash. *)
Definition worldV1Only : World :=
  {| readOnlyCall := fun o =>
       let isV1 := bool_decide (roContractName o = "truthchain_v1") in
       if bool_decide (roFunctionName o = "hash-exists") then RpcJson (boolJson isV1)
       else if bool_decide (roFunctionName o = "verify-content") then
         RpcJson (if isV1 then sampleDetails else notFoundJson)
       else RpcThrows (LedgerError "NoSuchPublicFunction");
     namesOf := quietNames;
     storeFails := fun _ => false |}.

(** A ledger that confirms existence but whose detail call fails. *)
Definition worldDetailsDown : World :=
  {| readOnlyCall := fun o =>
       if bool_decide (roFunctionName o = "hash-exists") then RpcJson (boolJson true)
       else RpcThrows TransportError;
     namesOf := quietNames;
     storeFails := fun _ => false |}.

(** An unreachable ledger endpoint. *)
Definition worldLedgerDown : World :=
  {| readOnlyCall := fun _ => RpcThrows TransportError;
     namesOf := quietNames;
     storeFails := fun _ => false |}.

Definition emptyState (now : Z) : State :=
  {| cache := ∅; registrations := []; clock := now; trace := [] |}.

(** *** Batch items, viewed through the gateway *)

Section BatchView.

Variable W : World.
Variable config : ContractConfig.

(** The result of the batch loop's [try]/[catch] for a hashed item. *)
Definition hashedItemResult (contentHash : Buffer) (hashHex : string) (now : Z)
    : VerificationController.Batch.Result :=
  match verifyAcross W config (versions config) contentHash now with
  | Some v =>
      match toISOString (newDate (numMul (BlockchainService.timestamp v) 1000)) with
      | Ok iso =>
          {| VerificationController.Batch.r_success := true;
             VerificationController.Batch.r_verified := true;
             VerificationController.Batch.r_hash := Some hashHex;
             VerificationController.Batch.r_data := Some (Some
               {| VerificationController.Batch.author := BlockchainService.author v;
                  VerificationController.Batch.registeredAt := iso;
                  VerificationController.Batch.blockHeight := BlockchainService.blockHeight v;
                  VerificationController.Batch.registrationId :=
                    BlockchainService.registrationId v |});
             VerificationController.Batch.r_error := None |}
      | Thrown e =>
          {| VerificationController.Batch.r_success := false;
             VerificationController.Batch.r_verified := false;
             VerificationController.Batch.r_hash := Some hashHex;
             VerificationController.Batch.r_data := None;
             VerificationController.Batch.r_error := Some (errorMessage e) |}
      end
  | None =>
      {| VerificationController.Batch.r_success := true;
         VerificationController.Batch.r_verified := false;
         VerificationController.Batch.r_hash := Some hashHex;
         VerificationController.Batch.r_data := Some None;
         VerificationController.Batch.r_error := None |}
  end.

(** The hash an item designates: from its content when that is a
    non-empty string, else from its hex text; [None] for an item with
    neither. *)
Definition itemHash (item : VerificationController.Batch.Item)
    : option (Buffer * string) :=
  match item with
  | VerificationController.Batch.ItemOf
      (Text (c :: r)) _ =>
      Some (HashService.generateContentHash (c :: r),
            HashService.generateContentHashHex (c :: r))
  | VerificationController.Batch.ItemOf _
      (Text (String a r)) =>
      Some (HashService.hexToBuffer (String a r), String a r)
  | _ => None
  end.

(** What the loop body throws before its inner [try]: on [null], and on a
    truthy [content], or with a falsy [content] a truthy [hash], that is
    not a string. *)
Definition itemError (item : VerificationController.Batch.Item) : option JsError :=
  match item with
  | VerificationController.Batch.ItemNull =>
      Some (TypeError "Cannot read properties of null (reading 'content')")
  | VerificationController.Batch.ItemOf content hash =>
      match content with
      | Text (_ :: _) => None
      | NotText true =>
          Some (TypeError "content.trim is not a function")
      | _ =>
          match hash with
          | NotText true =>
              Some (TypeError "hexString.startsWith is not a function")
          | _ => None
          end
      end
  end.

(** The item is of the declared type [{content?: string, hash?: string}],
    or at least does not make the loop body throw. *)
Definition wellFormed (item : VerificationController.Batch.Item) : Prop :=
  itemError item = None.

(** The entry reported for one item at time [now]. *)
Definition resolveItem (now : Z) (item : VerificationController.Batch.Item)
    : VerificationController.Batch.Result :=
  match itemHash item with
  | Some (contentHash, hashHex) => hashedItemResult contentHash hashHex now
  | None => VerificationController.missingFields
  end.

(** The effects of resolving one item: gateway calls only. *)
Definition itemEvents (item : VerificationController.Batch.Item) : list Event :=
  match itemHash item with
  | Some (contentHash, _) => verifyAcrossEvents W config (versions config) contentHash
  | None => []
  end.

End BatchView.

(** A batch result without its registration date: for a degraded record
    that date comes from [Date.now() / 1000 * 1000] in double arithmetic,
    which the exact numbers used here do not round. *)
Definition withoutDate (r : VerificationController.Batch.Result)
    : VerificationController.Batch.Result :=
  {| VerificationController.Batch.r_success := VerificationController.Batch.r_success r;
     VerificationController.Batch.r_verified := VerificationController.Batch.r_verified r;
     VerificationController.Batch.r_hash := VerificationController.Batch.r_hash r;
     VerificationController.Batch.r_data :=
       option_map (option_map (fun d =>
         {| VerificationController.Batch.author := VerificationController.Batch.author d;
            VerificationController.Batch.registeredAt := Iso 0;
            VerificationController.Batch.blockHeight :=
              VerificationController.Batch.blockHeight d;
            VerificationController.Batch.registrationId :=
              VerificationController.Batch.registrationId d |}))
         (VerificationController.Batch.r_data r);
     VerificationController.Batch.r_error := VerificationController.Batch.r_error r |}.

(** Effects on the ledger side: read-only calls and their error logs. *)
Definition isGatewayEvent (e : Event) : Prop :=
  match e with
  | EvReadOnly _ | EvConsole _ _ => True
  | _ => False
  end.

Definition targets (c : ContractId) (e : Event) : Prop :=
  match e with
  | EvReadOnly o => (roContractAddress o, roContractName o) = c
  | _ => True
  end.

(** *** The resolver's view of a request *)

(** The hex digest a POST /verify request designates; [None] for a request
    with neither field. *)
Definition requestHash (req : VerificationController.VerifyTweetRequest)
    : option string :=
  match truthyUnits (VerificationController.tweetContent req),
        truthyText (VerificationController.hash req) with
  | Some c, _ => Some (HashService.generateContentHashHex c)
  | None, Some h => Some h
  | None, None => None
  end.

(** The unexpired cache entry for a digest, if any. *)
Definition liveEntry (c : gmap string VerificationCache.t) (hashHex : string) (now : Z)
    : option VerificationCache.t :=
  match c !! hashHex with
  | Some d => if now <? VerificationCache.expiresAt d then Some d else None
  | None => None
  end.

(** Every store operation succeeds. *)
Definition storeAvailable (W : World) : Prop := forall op, storeFails W op = false.

(** The response data are those of the stored record. *)
Definition carriesMetadata (h : string) (r : Registration.t)
    (d : VerificationController.VerifyData) : Prop :=
  let chain := Registration.blockchain r in
  VerificationController.d_hash d = h
  /\ VerificationController.author d = JString (Registration.authorWallet r)
  /\ VerificationController.bnsName d = optionalString (Registration.bnsName r)
  /\ VerificationController.bnsStatus d = default BnsValid (Registration.bnsStatus r)
  /\ VerificationController.lastBnsValidation d = Registration.lastBnsValidation r
  /\ VerificationController.registeredAt d
     = Some (Iso (default (Registration.createdAt r) (Registration.timestamp chain)))
  /\ VerificationController.blockHeight d
     = Some (Num (inject_Z (orZero (Registration.blockHeight chain))))
  /\ VerificationController.registrationId d
     = Some (match truthyText (Registration.registrationId chain) with
             | Some i => VerificationController.IdString i
             | None => VerificationController.IdNumber (Num (inject_Z 0))
             end)
  /\ VerificationController.txId d = Some (orEmpty (Registration.txId chain))
  /\ VerificationController.tweetUrl d = Registration.contentUrl r
  /\ VerificationController.twitterHandle d = Registration.contentTwitterHandle r.


(** A confirmed registration of the sample digest. *)
Definition sampleRegistration : Registration.t :=
  {| Registration._id := 1%N;
     Registration.contentHash := sampleHex;
     Registration.authorWallet := "SP1S7KX8TVSAWJ8CVJZQSFERBQ8BNCDXYFHXT21Z9";
     Registration.bnsName := Some "alice.btc";
     Registration.lastBnsValidation := None;
     Registration.bnsStatus := Some BnsValid;
     Registration.currentBnsOwner := None;
     Registration.bnsTransferredAt := None;
     Registration.contentUrl := Some "https://x.com/alice/status/1";
     Registration.contentTwitterHandle := Some "alice";
     Registration.blockchain :=
       {| Registration.txId := Some "0x51a7";
          Registration.registrationId := Some "7";
          Registration.status := Confirmed;
          Registration.blockHeight := Some 154200;
          Registration.timestamp := Some 1718000000000 |};
     Registration.ipfs :=
       {| Registration.cid := None; Registration.gateway := None;
          Registration.pinned := false; Registration.uploadedAt := None |};
     Registration.analytics :=
       {| Registration.views := 0; Registration.verifications := 0;
          Registration.lastViewed := None; Registration.lastVerified := None |};
     Registration.createdAt := 1717999000000 |}.

(** A negative answer cached half an hour ago. *)
Definition staleNegative : VerificationCache.t :=
  {| VerificationCache.result := Some VerificationCache.negative;
     VerificationCache.expiresAt := 1718001800000;
     VerificationCache.hits := 1;
     VerificationCache.lastAccessed := 1717998200000 |}.

(** The store after an out-of-band registration, the negative answer still
    cached. *)
Definition maskedState : State :=
  {| cache := {[ sampleHex := staleNegative ]};
     registrations := [sampleRegistration];
     clock := 1718000000123;
     trace := [] |}.

(** *** The sweep's view of the name registry and the store *)

Section SweepView.

Variable W : World.

(** The list [fetchWalletBNSNames] returns for a wallet. *)
Definition namesSeen (walletAddress : string) : list string :=
  match namesOf W walletAddress with
  | NamesBody names => default [] names
  | NamesThrows | NamesNotOk _ => []
  end.

Definition fetchEvents (walletAddress : string) : list Event :=
  EvNames walletAddress
    :: match namesOf W walletAddress with
       | NamesThrows => [EvConsole Error "Failed to fetch BNS names:"]
       | NamesNotOk _ =>
           [EvConsole Warn ("BNS API returned an error status for " +:+ walletAddress)]
       | NamesBody _ => []
       end.

(** The status [validateRegistration] assigns. *)
Definition classify (names : list string) (originalBNS : string) : BnsStatus :=
  if BNSValidationService.includes names originalBNS then BnsValid
  else if (0 <? length names)%nat then BnsTransferred
  else BnsNoLongerOwned.

(** The update the sweep applies, at time [now], for the selected record
    [r], to the stored document with the same [_id]. *)
Definition bnsUpdate (now : Z) (r : Registration.t) : Registration.t -> Registration.t :=
  let names := namesSeen (Registration.authorWallet r) in
  let st := classify names (orEmpty (Registration.bnsName r)) in
  Registration.setBnsValidation now st
    (match st with
     | BnsTransferred => Some (now, BNSValidationService.firstNameOrNull names)
     | _ => None
     end).

Definition updateSucceeds (r : Registration.t) : bool :=
  negb (storeFails W (RegFindByIdAndUpdate (Registration._id r))).

End SweepView.

(** The records a sweep started in state [s] selects. *)
Definition selected (maxAge : Z) (s : State) : list Registration.t :=
  firstn 100 (List.filter (BNSValidationService.isStale (clock s - maxAge))
                     (registrations s)).

(** The stored document with a given [_id]. *)
Definition findById (id : N) (l : list Registration.t) : option Registration.t :=
  find (hasId id) l.

Definition ids (l : list Registration.t) : list N := map Registration._id l.

(** The effects of one iteration of the sweep for the selected record [r]. *)
Definition recordEvents (W : World) (r : Registration.t) : list Event :=
  fetchEvents W (Registration.authorWallet r)
    ++ EvStore (RegFindByIdAndUpdate (Registration._id r))
    :: (if updateSucceeds W r
        then [EvSleep 100]
        else [EvConsole Error "Failed to validate registration"]).

(** The clock once the sweep has gone through [done]: it waits 100 ms after
    each record whose update succeeded. *)
Definition clockAfter (W : World) (start : Z) (done : list Registration.t) : Z :=
  start + 100 * Z.of_nat (length (List.filter (updateSucceeds W) done)).

(** The binding status of every stored record, in store order. *)
Definition bnsStatuses (s : State) : list (option BnsStatus) :=
  map Registration.bnsStatus (registrations s).

(** A computation that leaves every binding status as it was. *)
Definition keepsBns {A} (m : M A) : Prop :=
  forall s, bnsStatuses (snd (m s)) = bnsStatuses s.

(** *** Sample registries and stores for the sweep *)

Definition quietLedger : ReadOnlyOptions -> RpcOutcome :=
  fun _ => RpcThrows TransportError.

(** The name registry is unreachable. *)
Definition worldRegistryDown : World :=
  {| readOnlyCall := quietLedger;
     namesOf := fun _ => NamesThrows;
     storeFails := fun _ => false |}.

(** Every wallet owns exactly [names]. *)
Definition worldOwning (names : list string) : World :=
  {| readOnlyCall := quietLedger;
     namesOf := fun _ => NamesBody (Some names);
     storeFails := fun _ => false |}.

(** The sample registration, bound to alice.btc and never validated yet. *)
Definition freshRecord : Registration.t :=
  {| Registration._id := Registration._id sampleRegistration;
     Registration.contentHash := Registration.contentHash sampleRegistration;
     Registration.authorWallet := Registration.authorWallet sampleRegistration;
     Registration.bnsName := Some "alice.btc";
     Registration.lastBnsValidation := None;
     Registration.bnsStatus := Some BnsValid;
     Registration.currentBnsOwner := None;
     Registration.bnsTransferredAt := None;
     Registration.contentUrl := Registration.contentUrl sampleRegistration;
     Registration.contentTwitterHandle :=
       Registration.contentTwitterHandle sampleRegistration;
     Registration.blockchain := Registration.blockchain sampleRegistration;
     Registration.ipfs := Registration.ipfs sampleRegistration;
     Registration.analytics := Registration.analytics sampleRegistration;
     Registration.createdAt := Registration.createdAt sampleRegistration |}.

(** The same registration as an earlier sweep left it, more than a day ago,
    when the wallet held bob.btc instead: 'transferred', the owner stored
    as BOB.BTC. *)
Definition transferredRecord : Registration.t :=
  Registration.setBnsValidation 1717800000000 BnsTransferred
    (Some (1717800000000, Some "bob.btc")) freshRecord.

Definition sweepState (r : Registration.t) : State :=
  {| cache := ∅;
     registrations := [r];
     clock := 1718000000123;
     trace := [] |}.

(** A record bound to [name], never validated. *)
Definition namedRecord (id : N) (hashHex wallet name : string) : Registration.t :=
  Registration.create id hashHex wallet (Some name) None None None 1717999000000.

(** Three such records of three wallets. *)
Definition threeRecords : list Registration.t :=
  [ namedRecord 1 sampleHex "SP1S7KX8TVSAWJ8CVJZQSFERBQ8BNCDXYFHXT21Z9" "alice.btc";
    namedRecord 2 "2c26b46b68ffc68ff99b453c1d30413413422d706483bfa0f98a5e886266e7ae"
                "SP2J6ZY48GV1EZ5V2V5RB9MP66SW86PYKKNRV9EJ7" "bob.btc";
    namedRecord 3 "fcde2b2edba56bf408601fb721fe9b5c338d10ee429ea04fae5511b68fbf8fb9"
                "SP3FBR2AGK5H9QBDH3EEN6DF8EK8JY7RX8QJ5SVTE" "carol.btc" ].

Definition batchState : State :=
  {| cache := ∅;
     registrations := threeRecords;
     clock := 1718000000123;
     trace := [] |}.

(** The name registry is unreachable, and the store rejects the update of
    the document with id 2. *)
Definition worldRegistryDownStoreFlaky : World :=
  {| readOnlyCall := quietLedger;
     namesOf := fun _ => NamesThrows;
     storeFails := fun op =>
       match op with
       | RegFindByIdAndUpdate 2%N => true
       | _ => false
       end |}.

(** *** Digests and whitespace layout *)

(** An octet of a [Buffer]. *)
Definition octet (b : Z) : Prop := 0 <= b < 256.

(** The normal form read off in one pass: the words of [s], separated by
    single U+0020. [started] tells that a word has been emitted, [gap] that
    whitespace was skipped since. *)
Fixpoint joinWords (started gap : bool) (s : JsString) : JsString :=
  match s with
  | [] => []
  | c :: r =>
      if HashService.isWhiteSpace c then joinWords started true r
      else if started && gap then 0x20 :: c :: joinWords true false r
      else c :: joinWords true false r
  end.

(** A string that does not end in whitespace. *)
Fixpoint endsInWord (s : JsString) : bool :=
  match s with
  | [] => true
  | c :: r =>
      match r with
      | [] => negb (HashService.isWhiteSpace c)
      | _ :: _ => endsInWord r
      end
  end.

(** *** The resolver, step by step *)

(** The result a cache entry carries when it is well formed and positive:
    the only kind of entry the resolver answers from. *)
Definition positiveResult (e : VerificationCache.t)
    : option VerificationCache.VerificationResult :=
  match VerificationCache.result e with
  | Some res =>
      match VerificationCache.isRegistered res with
      | Some true => Some res
      | _ => None
      end
  | None => None
  end.

(** The entry lacks [result] or a boolean [isRegistered]. *)
Definition corrupted (e : VerificationCache.t) : bool :=
  match VerificationCache.result e with
  | Some res =>
      match VerificationCache.isRegistered res with
      | Some _ => false
      | None => true
      end
  | None => true
  end.

(** What the cache can answer for a digest at time [now]. *)
Definition servable (c : gmap string VerificationCache.t) (hashHex : string) (now : Z)
    : option VerificationCache.VerificationResult :=
  match liveEntry c hashHex now with
  | Some e => positiveResult e
  | None => None
  end.

(** The digest and the buffer a POST /verify request designates. *)
Definition requestTarget (req : VerificationController.VerifyTweetRequest)
    : option (string * Buffer) :=
  match truthyUnits (VerificationController.tweetContent req),
        truthyText (VerificationController.hash req) with
  | Some c, _ =>
      Some (HashService.generateContentHashHex c, HashService.generateContentHash c)
  | None, Some h => Some (h, HashService.hexToBuffer h)
  | None, None => None
  end.

(** The record the store step answers from. *)
Definition storedRecord (hashHex : string) (l : list Registration.t)
    : option Registration.t :=
  find (fun r => hasHash hashHex r && confirmedOrPending r) l.

Definition verifiedResponse (msg : string) (d : VerificationController.VerifyData)
    : HttpResponse VerificationController.VerifyTweetResponse :=
  mkHttp 200
    {| VerificationController.success := true;
       VerificationController.verified := true;
       VerificationController.message := msg;
       VerificationController.data := Some d;
       VerificationController.error := None |}.

Definition notFoundResponse : HttpResponse VerificationController.VerifyTweetResponse :=
  mkHttp 200
    {| VerificationController.success := true;
       VerificationController.verified := false;
       VerificationController.message := "Content not found on blockchain";
       VerificationController.data := None;
       VerificationController.error := None |}.

Definition failureResponse (e : JsError)
    : HttpResponse VerificationController.VerifyTweetResponse :=
  mkHttp 500
    {| VerificationController.success := false;
       VerificationController.verified := false;
       VerificationController.message := "Error during verification";
       VerificationController.data := None;
       VerificationController.error := Some (errorMessage e) |}.

(** [registrationDate?.toISOString()] *)
Definition optionalIso (d : option JsDate) : Outcome (option IsoString) :=
  match d with
  | Some x =>
      match toISOString x with
      | Ok i => Ok (Some i)
      | Thrown e => Thrown e
      end
  | None => Ok None
  end.

Definition cachedData (hashHex : string) (res : VerificationCache.VerificationResult)
    (iso : option IsoString) : VerificationController.VerifyData :=
  {| VerificationController.d_hash := hashHex;
     VerificationController.author := VerificationCache.authorWallet res;
     VerificationController.bnsName := VerificationCache.bnsName res;
     VerificationController.bnsStatus :=
       default BnsValid (VerificationCache.bnsStatus res);
     VerificationController.lastBnsValidation := None;
     VerificationController.registeredAt := iso;
     VerificationController.blockHeight := VerificationCache.blockHeight res;
     VerificationController.registrationId := None;
     VerificationController.txId := VerificationCache.txId res;
     VerificationController.tweetUrl := None;
     VerificationController.twitterHandle := None |}.

(** The result cached for a record found in the store at time [now]. *)
Definition storeResult (r : Registration.t) (now : Z)
    : VerificationCache.VerificationResult :=
  let chain := Registration.blockchain r in
  {| VerificationCache.isRegistered := Some true;
     VerificationCache.authorWallet := JString (Registration.authorWallet r);
     VerificationCache.bnsName := optionalString (Registration.bnsName r);
     VerificationCache.bnsStatus := Some (default BnsValid (Registration.bnsStatus r));
     VerificationCache.blockHeight :=
       Some (Num (inject_Z (orZero (Registration.blockHeight chain))));
     VerificationCache.registrationDate :=
       Some (DateMs (default now (Registration.timestamp chain)));
     VerificationCache.txId := Some (orEmpty (Registration.txId chain)) |}.

Definition storeData (hashHex : string) (r : Registration.t)
    : VerificationController.VerifyData :=
  let chain := Registration.blockchain r in
  {| VerificationController.d_hash := hashHex;
     VerificationController.author := JString (Registration.authorWallet r);
     VerificationController.bnsName := optionalString (Registration.bnsName r);
     VerificationController.bnsStatus := default BnsValid (Registration.bnsStatus r);
     VerificationController.lastBnsValidation := Registration.lastBnsValidation r;
     VerificationController.registeredAt :=
       Some (Iso (default (Registration.createdAt r) (Registration.timestamp chain)));
     VerificationController.blockHeight :=
       Some (Num (inject_Z (orZero (Registration.blockHeight chain))));
     VerificationController.registrationId :=
       Some (match truthyText (Registration.registrationId chain) with
             | Some i => VerificationController.IdString i
             | None => VerificationController.IdNumber (Num (inject_Z 0))
             end);
     VerificationController.txId := Some (orEmpty (Registration.txId chain));
     VerificationController.tweetUrl := Registration.contentUrl r;
     VerificationController.twitterHandle := Registration.contentTwitterHandle r |}.

(** The date the chain step derives from a ledger record. *)
Definition chainDate (v : BlockchainService.TweetRegistration) : JsDate :=
  newDate (VerificationController.toMillis (BlockchainService.timestamp v)).

Definition chainResult (v : BlockchainService.TweetRegistration)
    : VerificationCache.VerificationResult :=
  {| VerificationCache.isRegistered := Some true;
     VerificationCache.authorWallet := BlockchainService.author v;
     VerificationCache.bnsName := BlockchainService.bnsName v;
     VerificationCache.bnsStatus := Some BnsValid;
     VerificationCache.blockHeight := Some (BlockchainService.blockHeight v);
     VerificationCache.registrationDate := Some (chainDate v);
     VerificationCache.txId := None |}.

Definition chainData (hashHex : string) (v : BlockchainService.TweetRegistration)
    (iso : IsoString) : VerificationController.VerifyData :=
  {| VerificationController.d_hash := hashHex;
     VerificationController.author := BlockchainService.author v;
     VerificationController.bnsName := BlockchainService.bnsName v;
     VerificationController.bnsStatus := BnsValid;
     VerificationController.lastBnsValidation := None;
     VerificationController.registeredAt := Some iso;
     VerificationController.blockHeight := Some (BlockchainService.blockHeight v);
     VerificationController.registrationId :=
       Some (VerificationController.IdNumber (BlockchainService.registrationId v));
     VerificationController.txId := None;
     VerificationController.tweetUrl := None;
     VerificationController.twitterHandle := None |}.

(** The cache after the upsert of [res] for a digest at time [now]. *)
Definition upserted (hashHex : string) (res : VerificationCache.VerificationResult)
    (now : Z) (c : gmap string VerificationCache.t) : gmap string VerificationCache.t :=
  <[hashHex := {| VerificationCache.result := Some res;
                  VerificationCache.expiresAt := now + 3600000;
                  VerificationCache.hits :=
                    match c !! hashHex with
                    | Some d => VerificationCache.hits d
                    | None => 0
                    end + 1;
                  VerificationCache.lastAccessed := now |}]> c.

(** The cache once step 1 has passed without an answer: a live entry that
    cannot be served has been deleted. *)
Definition afterMiss (hashHex : string) (now : Z) (c : gmap string VerificationCache.t)
    : gmap string VerificationCache.t :=
  match liveEntry c hashHex now with
  | Some _ => delete hashHex c
  | None => c
  end.

Definition missEvents (hashHex : string) (now : Z) (c : gmap string VerificationCache.t)
    : list Event :=
  EvStore (CacheFindOne hashHex)
    :: match liveEntry c hashHex now with
       | Some e =>
           (if corrupted e
            then [EvConsole Warn "Corrupted cache entry detected, clearing:"]
            else [])
           ++ [EvStore (CacheDeleteOne hashHex)]
       | None => []
       end.

Section ResolverView.

Variable W : World.
Variable config : ContractConfig.

(** What the chain step finds for a buffer at time [now]. *)
Definition onChain (contentHash : Buffer) (now : Z)
    : option BlockchainService.TweetRegistration :=
  verifyAcross W config (versions config) contentHash now.

(** The outcome of steps 1 to 3 in state [s], the store being available. *)
Definition resolveAnswer (hashHex : string) (contentHash : Buffer) (s : State)
    : Outcome (HttpResponse VerificationController.VerifyTweetResponse) :=
  match servable (cache s) hashHex (clock s) with
  | Some res =>
      match optionalIso (VerificationCache.registrationDate res) with
      | Ok iso => Ok (verifiedResponse "Content verified (cached)"
                        (cachedData hashHex res iso))
      | Thrown e => Thrown e
      end
  | None =>
      match storedRecord hashHex (registrations s) with
      | Some r => Ok (verifiedResponse "Content verified successfully"
                        (storeData hashHex r))
      | None =>
          match onChain contentHash (clock s) with
          | Some v =>
              match toISOString (chainDate v) with
              | Ok iso => Ok (verifiedResponse "Content verified successfully"
                                (chainData hashHex v iso))
              | Thrown e => Thrown e
              end
          | None => Ok notFoundResponse
          end
      end
  end.

(** The state steps 1 to 3 leave behind. *)
Definition resolveState (hashHex : string) (contentHash : Buffer) (s : State) : State :=
  let now := clock s in
  match servable (cache s) hashHex now with
  | Some _ =>
      {| cache := cache s;
         registrations :=
           updateFirst (hasHash hashHex) (Registration.recordVerification now)
                       (registrations s);
         clock := now;
         trace := trace s ++ [EvStore (CacheFindOne hashHex);
                              EvStore (RegFindOneAndUpdate hashHex)] |}
  | None =>
      match storedRecord hashHex (registrations s) with
      | Some r =>
          {| cache := upserted hashHex (storeResult r now) now
                        (afterMiss hashHex now (cache s));
             registrations :=
               updateFirst (hasId (Registration._id r))
                           (Registration.recordVerification now) (registrations s);
             clock := now;
             trace := trace s ++ missEvents hashHex now (cache s)
                      ++ [EvStore (RegFindOne hashHex);
                          EvStore (CacheFindOneAndUpdate hashHex);
                          EvStore (RegFindByIdAndUpdate (Registration._id r))] |}
      | None =>
          {| cache := upserted hashHex
                        (match onChain contentHash now with
                         | Some v => chainResult v
                         | None => VerificationCache.negative
                         end) now (afterMiss hashHex now (cache s));
             registrations := registrations s;
             clock := now;
             trace := trace s ++ missEvents hashHex now (cache s)
                      ++ EvStore (RegFindOne hashHex)
                      :: verifyAcrossEvents W config (versions config) contentHash
                      ++ [EvStore (CacheFindOneAndUpdate hashHex)] |}
      end
  end.

End ResolverView.

(** The effects a request added to the trace. *)
Definition ledgerCalls (evs : list Event) : list ReadOnlyOptions :=
  flat_map (fun e => match e with EvReadOnly o => [o] | _ => [] end) evs.



(** *** Frames: what a computation may change *)

(** Every final state of [m] is related to its initial state by [R]. *)
Definition within (R : State -> State -> Prop) {A} (m : M A) : Prop :=
  forall s, R s (snd (m s)).

(** The relations a computation can be proved to stay within step by step:
    reflexive, transitive and blind to what is appended to the trace. *)
Class Frame (R : State -> State -> Prop) : Prop := {
  frame_refl : forall s, R s s;
  frame_trans : forall a b c, R a b -> R b c -> R a c;
  frame_emit : forall s e,
    R s {| cache := cache s; registrations := registrations s;
           clock := clock s; trace := trace s ++ [e] |}
}.

(** A registration without its analytics counters. *)
Definition beyondAnalytics (r : Registration.t) :=
  (Registration._id r, Registration.contentHash r, Registration.authorWallet r,
   Registration.bnsName r, Registration.lastBnsValidation r,
   Registration.bnsStatus r, Registration.currentBnsOwner r,
   Registration.bnsTransferredAt r, Registration.contentUrl r,
   Registration.contentTwitterHandle r, Registration.blockchain r,
   Registration.ipfs r, Registration.createdAt r).

(** A registration without the four paths of the BNS validation. *)
Definition beyondBns (r : Registration.t) :=
  (Registration._id r, Registration.contentHash r, Registration.authorWallet r,
   Registration.bnsName r, Registration.contentUrl r,
   Registration.contentTwitterHandle r, Registration.blockchain r,
   Registration.ipfs r, Registration.analytics r, Registration.createdAt r).

(** What POST /verify for the digest [hashHex] may change: analytics
    counters of registrations and the cache entry of [hashHex]. *)
Definition verifyFrame (hashHex : option string) (s s' : State) : Prop :=
  map beyondAnalytics (registrations s') = map beyondAnalytics (registrations s)
  /\ clock s' = clock s
  /\ (forall k, hashHex <> Some k -> cache s' !! k = cache s !! k)
  /\ (exists evs, trace s' = trace s ++ evs).

(** What a sweep may change: the BNS validation paths of registrations;
    time passes. *)
Definition sweepFrame (s s' : State) : Prop :=
  map beyondBns (registrations s') = map beyondBns (registrations s)
  /\ cache s' = cache s
  /\ clock s <= clock s'
  /\ (exists evs, trace s' = trace s ++ evs).

(** The wallets whose names were requested from the registry, in order. *)
Definition nameLookups (evs : list Event) : list string :=
  flat_map (fun e => match e with EvNames w => [w] | _ => [] end) evs.

(** The store writes among the effects. *)
Definition storeWrites (evs : list Event) : list StoreOp :=
  flat_map (fun e => match e with
                     | EvStore (CacheDeleteOne h) => [CacheDeleteOne h]
                     | EvStore (CacheFindOneAndUpdate h) => [CacheFindOneAndUpdate h]
                     | EvStore (RegFindOneAndUpdate h) => [RegFindOneAndUpdate h]
                     | EvStore (RegFindByIdAndUpdate i) => [RegFindByIdAndUpdate i]
                     | _ => []
                     end) evs.

(* ===================================================================== *)
(** ** The validation job (jobs/bnsValidationCron.ts) *)
(* ===================================================================== *)

Module BnsValidationCron.

(** 24 hours *)
Definition VALIDATION_INTERVAL : Z := 24 * 60 * 60 * 1000.

(** The two callbacks the job hands to the timers. *)
Inductive Callback : Type :=
| InitialRun      (* 'Running initial BNS validation...' *)
| ScheduledRun.   (* 'Running scheduled BNS validation...' *)

(** A pending Node timer. *)
Record Timer : Type := mkTimer {
  handle : N;
  callback : Callback;
  delay : Z;
  repeating : bool
}.

(** The timers of the event loop and the module variable
    [validationTimer]. *)
Record Scheduler : Type := mkScheduler {
  validationTimer : option N;
  pending : list Timer;
  nextHandle : N
}.

(** The module as loaded: [let validationTimer = null]. *)
Definition initial : Scheduler :=
  {| validationTimer := None; pending := []; nextHandle := 1%N |}.

(** [setTimeout(callback, delay)] and [setInterval(callback, delay)]: the
    new timer gets a fresh handle, which is returned. *)
Definition addTimer (cb : Callback) (ms : Z) (repeats : bool) (t : Scheduler)
    : N * Scheduler :=
  (nextHandle t,
   {| validationTimer := validationTimer t;
      pending := pending t ++ [{| handle := nextHandle t; callback := cb;
                                  delay := ms; repeating := repeats |}];
      nextHandle := N.succ (nextHandle t) |}).

Definition setTimeout (cb : Callback) (ms : Z) : Scheduler -> N * Scheduler :=
  addTimer cb ms false.

Definition setInterval (cb : Callback) (ms : Z) : Scheduler -> N * Scheduler :=
  addTimer cb ms true.

(** [clearInterval(h)] *)
Definition clearInterval (h : N) (t : Scheduler) : Scheduler :=
  {| validationTimer := validationTimer t;
     pending := List.filter (fun x => negb (bool_decide (handle x = h))) (pending t);
     nextHandle := nextHandle t |}.

Definition setValidationTimer (v : option N) (t : Scheduler) : Scheduler :=
  {| validationTimer := v; pending := pending t; nextHandle := nextHandle t |}.

Definition startBNSValidationCron (t : Scheduler) : Scheduler :=
  match validationTimer t with
  | Some _ => t
  | None =>
      let '(_, t1) := setTimeout InitialRun (5 * 60 * 1000) t in
      let '(h, t2) := setInterval ScheduledRun VALIDATION_INTERVAL t1 in
      setValidationTimer (Some h) t2
  end.

Definition stopBNSValidationCron (t : Scheduler) : Scheduler :=
  match validationTimer t with
  | Some h => setValidationTimer None (clearInterval h t)
  | None => t
  end.

Section Job.

Variable W : World.

(** The duration is computed for [console.log] only. *)
Definition runValidation : M unit :=
  tryCatch
    (let! startTime := dateNow in
     let! result := BNSValidationService.validateStaleRegistrations W
                      BNSValidationService.defaultMaxAge in
     let! endTime := dateNow in
     ret tt)
    (fun _ => console Error "BNS validation failed:").

Definition triggerManualValidation : M nat :=
  let! result := BNSValidationService.validateStaleRegistrations W
                   BNSValidationService.defaultMaxAge in
  ret result.

End Job.

End BnsValidationCron.

(** The calls a process makes to the job's exported functions. *)
Inductive CronCall : Type :=
| CallStart
| CallStop.

Definition cronStep (t : BnsValidationCron.Scheduler) (c : CronCall)
    : BnsValidationCron.Scheduler :=
  match c with
  | CallStart => BnsValidationCron.startBNSValidationCron t
  | CallStop => BnsValidationCron.stopBNSValidationCron t
  end.

(** The repeating timers still pending. *)
Definition intervals (t : BnsValidationCron.Scheduler) : list N :=
  map BnsValidationCron.handle
      (List.filter BnsValidationCron.repeating (BnsValidationCron.pending t)).

(** The one-shot timers still pending. *)
Definition timeouts (t : BnsValidationCron.Scheduler) : list N :=
  map BnsValidationCron.handle
      (List.filter (fun x => negb (BnsValidationCron.repeating x))
                   (BnsValidationCron.pending t)).

(** The calls to [startBNSValidationCron] that found no job running. *)
Fixpoint effectiveStarts (running : bool) (calls : list CronCall) : nat :=
  match calls with
  | [] => O
  | CallStart :: r =>
      if running then effectiveStarts true r else S (effectiveStarts true r)
  | CallStop :: r => effectiveStarts false r
  end.

(** The scheduler after a sequence of calls, from the module as loaded. *)
Definition cronRun (calls : list CronCall) : BnsValidationCron.Scheduler :=
  fold_left cronStep calls BnsValidationCron.initial.

(** Handles are fresh and distinct, and the repeating timers are exactly
    the one [validationTimer] refers to. *)
Definition cronInvariant (t : BnsValidationCron.Scheduler) : Prop :=
  Forall (fun x => (BnsValidationCron.handle x < BnsValidationCron.nextHandle t)%N)
         (BnsValidationCron.pending t)
  /\ List.NoDup (map BnsValidationCron.handle (BnsValidationCron.pending t))
  /\ intervals t = match BnsValidationCron.validationTimer t with
                   | Some h => [h]
                   | None => []
                   end.

(* ===================================================================== *)
(** ** VerificationController: the BNS endpoints *)
(* ===================================================================== *)

#[global] Instance BnsStatus_eq_dec : EqDecision BnsStatus.
Proof. solve_decision. Defined.

Module BnsEndpoints.

Record ValidateResponse : Type := mkValidate {
  success : bool;
  message : string;
  validated : option nat;
  transferred : option nat;
  noLongerOwned : option nat;
  total : option nat;
  error : option string
}.

Record StatusEntry : Type := mkEntry {
  contentHash : string;
  bnsName : option string;
  status : BnsStatus;
  lastValidation : option Z;
  currentOwner : option string;
  transferredAt : option Z
}.

Record StatusResponse : Type := mkStatus {
  s_success : bool;
  s_message : option string;
  s_registrations : option (list StatusEntry);
  s_error : option string
}.

(** [bnsName: {$exists: true, $ne: null}] *)
Definition named (r : Registration.t) : bool :=
  match Registration.bnsName r with
  | Some _ => true
  | None => false
  end.

Section Endpoints.

Variable W : World.

(** [Registration.find({authorWallet, bnsName: {$exists: true, $ne: null}})] *)
Definition findNamedByWallet (authorWallet : string) : M (list Registration.t) :=
  let! _ := storeOp W RegFind in
  let! l := getRegistrations in
  ret (List.filter
         (fun r => bool_decide (Registration.authorWallet r = authorWallet) && named r)
         l).

(** [for (const registration of registrations) { ... }] with its three
    counters. *)
Fixpoint countStatuses (registrations : list Registration.t)
    (validatedCount transferredCount noLongerOwnedCount : nat)
    : M (nat * nat * nat) :=
  match registrations with
  | [] => ret (validatedCount, transferredCount, noLongerOwnedCount)
  | registration :: rest =>
      let! result :=
        BNSValidationService.validateRegistration W
          (orEmpty (Registration.bnsName registration))
          (Registration.authorWallet registration) in
      match BNSValidationService.status result with
      | BnsValid =>
          countStatuses rest (S validatedCount) transferredCount noLongerOwnedCount
      | BnsTransferred =>
          countStatuses rest validatedCount (S transferredCount) noLongerOwnedCount
      | BnsNoLongerOwned =>
          countStatuses rest validatedCount transferredCount (S noLongerOwnedCount)
      end
  end.

(** POST, manual BNS validation of one wallet; [walletAddress] is read
    from the JSON body. *)
Definition validateBNS (walletAddress : Field string)
    : M (HttpResponse ValidateResponse) :=
  tryCatch
    (match walletAddress with
     | NotText true => throw (TypeError "walletAddress.toUpperCase is not a function")
     | Absent | Text EmptyString | NotText false =>
         ret (mkHttp 400
           {| success := false;
              message := "Wallet address is required";
              validated := None; transferred := None; noLongerOwned := None;
              total := None; error := None |})
     | Text w =>
         let! registrations := findNamedByWallet (toUpperCase w) in
         match registrations with
         | [] =>
             ret (mkHttp 200
               {| success := true;
                  message := "No registrations with BNS names found for this wallet";
                  validated := Some 0%nat;
                  transferred := None; noLongerOwned := None;
                  total := None; error := None |})
         | _ :: _ =>
             let! counts := countStatuses registrations 0 0 0 in
             let '(validatedCount, transferredCount, noLongerOwnedCount) := counts in
             ret (mkHttp 200
               {| success := true;
                  message := "BNS validation completed";
                  validated := Some validatedCount;
                  transferred := Some transferredCount;
                  noLongerOwned := Some noLongerOwnedCount;
                  total := Some (length registrations);
                  error := None |})
         end
     end)
    (fun e =>
       let! _ := console Error "Error validating BNS:" in
       ret (mkHttp 500
         {| success := false;
            message := "Error validating BNS ownership";
            validated := None; transferred := None; noLongerOwned := None;
            total := None; error := Some (errorMessage e) |})).

Definition statusEntry (reg : Registration.t) : StatusEntry :=
  {| contentHash := Registration.contentHash reg;
     bnsName := Registration.bnsName reg;
     status := default BnsValid (Registration.bnsStatus reg);
     lastValidation := Registration.lastBnsValidation reg;
     currentOwner := Registration.currentBnsOwner reg;
     transferredAt := Registration.bnsTransferredAt reg |}.

(** GET, the validation status of a wallet's registrations;
    [walletAddress] is a route parameter, hence a string. *)
Definition getBNSValidationStatus (walletAddress : string)
    : M (HttpResponse StatusResponse) :=
  tryCatch
    (if bool_decide (walletAddress = EmptyString) then
       ret (mkHttp 400
         {| s_success := false;
            s_message := Some "Wallet address is required";
            s_registrations := None; s_error := None |})
     else
       let! registrations := findNamedByWallet (toUpperCase walletAddress) in
       ret (mkHttp 200
         {| s_success := true;
            s_message := None;
            s_registrations := Some (map statusEntry registrations);
            s_error := None |}))
    (fun e =>
       let! _ := console Error "Error getting BNS validation status:" in
       ret (mkHttp 500
         {| s_success := false;
            s_message := Some "Error retrieving BNS validation status";
            s_registrations := None;
            s_error := Some (errorMessage e) |})).

End Endpoints.

End BnsEndpoints.

(* ===================================================================== *)
(** ** BNSValidationService: status of one content hash *)
(* ===================================================================== *)

Module BNSValidationStatus.

(** [registration.bnsStatus || 'unknown'] *)
Inductive StatusText : Type :=
| StatusOf (st : BnsStatus)
| StatusUnknown.

Record t : Type := mk {
  originalBNS : string;
  status : StatusText;
  lastChecked : option Z
}.

Section Service.

Variable W : World.

(** [Registration.findOne({contentHash})] *)
Definition regFindOneByHash (contentHash : string) : M (option Registration.t) :=
  let! _ := storeOp W (RegFindOne contentHash) in
  let! l := getRegistrations in
  ret (find (hasHash contentHash) l).

Definition getValidationStatus (contentHash : string) : M (option t) :=
  let! registration := regFindOneByHash contentHash in
  match registration with
  | None => ret None
  | Some r =>
      match truthyText (Registration.bnsName r) with
      | None => ret None
      | Some b =>
          ret (Some {| originalBNS := b;
                       status := match Registration.bnsStatus r with
                                 | Some st => StatusOf st
                                 | None => StatusUnknown
                                 end;
                       lastChecked := Registration.lastBnsValidation r |})
      end
  end.

End Service.

End BNSValidationStatus.

(** *** The BNS endpoints' view *)

(** The registrations the BNS endpoints select for an upper-cased wallet. *)
Definition namedOf (wallet : string) (l : list Registration.t) : list Registration.t :=
  List.filter
    (fun r => bool_decide (Registration.authorWallet r = wallet) && BnsEndpoints.named r)
    l.

(** The status [validateRegistration] computes for a record now. *)
Definition verdict (W : World) (r : Registration.t) : BnsStatus :=
  classify (namesSeen W (Registration.authorWallet r))
           (orEmpty (Registration.bnsName r)).

(** How many records of [l] get the status [st]. *)
Definition verdicts (W : World) (st : BnsStatus) (l : list Registration.t) : nat :=
  length (List.filter (fun r => bool_decide (verdict W r = st)) l).

(** A store with two named registrations of the sample wallet. *)
Definition secondRecord : Registration.t :=
  Registration.create 2 "00ff" "SP1S7KX8TVSAWJ8CVJZQSFERBQ8BNCDXYFHXT21Z9"
    (Some "carol.btc") None None None 1717999500000.

Definition twoRecords : State :=
  {| cache := ∅;
     registrations := [freshRecord; secondRecord];
     clock := 1718000000123;
     trace := [] |}.

(* ===================================================================== *)
(** ** BlockchainService.registerTweet and the registration endpoints
       (controllers/RegistrationController.ts) *)
(* ===================================================================== *)

Module BlockchainWrites.

Inductive AnchorMode : Type := OnChainOnly | OffChainOnly | AnchorAny.

Inductive PostConditionMode : Type := Allow | Deny.

(** The options handed to [makeContractCall]; [txHash] and
    [txContentType] are the two function arguments
    [bufferCV(contentHash)] and [stringAsciiCV('tweet')]. The sender key is
    passed on as the caller gave it, whatever its kind. *)
Record TxOptions (Key : Type) : Type := mkTx {
  txContractAddress : string;
  txContractName : string;
  txFunctionName : string;
  txHash : Buffer;
  txContentType : string;
  txSenderKey : Key;
  txNetwork : Network;
  txAnchorMode : AnchorMode;
  txPostConditionMode : PostConditionMode
}.
Arguments mkTx {Key}.
Arguments txContractAddress {Key} t.
Arguments txContractName {Key} t.
Arguments txFunctionName {Key} t.
Arguments txHash {Key} t.
Arguments txContentType {Key} t.
Arguments txSenderKey {Key} t.
Arguments txNetwork {Key} t.
Arguments txAnchorMode {Key} t.
Arguments txPostConditionMode {Key} t.

(** What [broadcastTransaction] resolves to: an object with an [error]
    key, or one with the [txid]. *)
Inductive BroadcastResponse : Type :=
| Rejected (error : string)
| Accepted (txid : string).

Record RegistrationResult : Type := mkResult {
  success : bool;
  txId : option string;
  error : option string;
  registrationId : option Z
}.

Section Service.

Variable config : ContractConfig.
Context {Key : Type}.

(** [makeContractCall(txOptions)] followed by
    [broadcastTransaction({transaction})]: signing and submission are
    outside the process and may have any effect or throw. *)
Variable submit : TxOptions Key -> M BroadcastResponse.

Definition registerOptions (contentHash : Buffer) (senderKey : Key) : TxOptions Key :=
  {| txContractAddress := contractAddress config;
     txContractName := contractName config;
     txFunctionName := "register-content";
     txHash := contentHash;
     txContentType := "tweet";
     txSenderKey := senderKey;
     txNetwork := network config;
     txAnchorMode := AnchorAny;
     txPostConditionMode := Allow |}.

Definition registerTweet (contentHash : Buffer) (senderKey : Key)
    : M RegistrationResult :=
  tryCatch
    (let! broadcastResponse := submit (registerOptions contentHash senderKey) in
     match broadcastResponse with
     | Rejected e =>
         ret {| success := false; txId := None; error := Some e;
                registrationId := None |}
     | Accepted txid =>
         ret {| success := true; txId := Some txid; error := None;
                registrationId := None |}
     end)
    (fun e =>
       ret {| success := false; txId := None; error := Some (errorMessage e);
              registrationId := None |}).

End Service.

End BlockchainWrites.

Module RegistrationController.

(** The fields of the JSON body as the handler reads them. [oversized]
    tells, for a [tweetContent] that is not a string, whether its [length]
    property exceeds 280. *)
Record RegisterTweetRequest : Type := mkRequest {
  tweetContent : Field JsString;
  oversized : bool;
  tweetUrl : option string;
  twitterHandle : option string;
  senderKey : Field string
}.

Record RegisterData : Type := mkData {
  hash : string;
  txId : option string;
  registrationId : option Z;
  d_tweetUrl : option string;
  d_twitterHandle : option string
}.

Record RegisterTweetResponse : Type := mkResponse {
  success : bool;
  message : string;
  data : option RegisterData;
  error : option string
}.

Record CheckData : Type := mkCheck {
  c_hash : string;
  exists_ : bool;
  canRegister : bool;
  c_message : string
}.

Record CheckResponse : Type := mkCheckResponse {
  c_success : bool;
  c_text : option string;
  c_data : option CheckData;
  c_error : option string
}.

Section Controller.

Variable W : World.
Variable config : ContractConfig.
Variable submit : BlockchainWrites.TxOptions (Field string)
                  -> M BlockchainWrites.BroadcastResponse.

(** ToBoolean of a body field *)
Definition truthyContent (f : Field JsString) : bool :=
  match f with
  | Text (_ :: _) | NotText true => true
  | _ => false
  end.

Definition truthyKey (f : Field string) : bool :=
  match f with
  | Text (String _ _) | NotText true => true
  | _ => false
  end.

(** [tweetContent.length > 280] *)
Definition tooLong (req : RegisterTweetRequest) : bool :=
  match tweetContent req with
  | Text content => (280 <? length content)%nat
  | _ => oversized req
  end.

(** POST /api/register *)
Definition registerTweet (req : RegisterTweetRequest)
    : M (HttpResponse RegisterTweetResponse) :=
  tryCatch
    (if negb (truthyContent (tweetContent req)) || negb (truthyKey (senderKey req)) then
       ret (mkHttp 400
         {| success := false;
            message := "Tweet content and sender key are required";
            data := None;
            error := Some "Missing required fields" |})
     else if tooLong req then
       ret (mkHttp 400
         {| success := false;
            message := "Tweet content exceeds 280 characters";
            data := None;
            error := Some "Content too long" |})
     else
       match tweetContent req with
       | Text content =>
           let contentHash := HashService.generateContentHash content in
           let hashHex := HashService.generateContentHashHex content in
           let! exists_ := BlockchainService.hashExists W config contentHash in
           if exists_ : bool then
             ret (mkHttp 409
               {| success := false;
                  message := "This content has already been registered";
                  data := Some {| hash := hashHex; txId := None;
                                  registrationId := None;
                                  d_tweetUrl := tweetUrl req;
                                  d_twitterHandle := twitterHandle req |};
                  error := Some "Duplicate content" |})
           else
             let! registrationResult :=
               BlockchainWrites.registerTweet config submit contentHash
                 (senderKey req) in
             if negb (BlockchainWrites.success registrationResult) then
               ret (mkHttp 500
                 {| success := false;
                    message := "Failed to register tweet on blockchain";
                    data := None;
                    error := BlockchainWrites.error registrationResult |})
             else
               ret (mkHttp 201
                 {| success := true;
                    message := "Tweet registered successfully";
                    data := Some {| hash := hashHex;
                                    txId := BlockchainWrites.txId registrationResult;
                                    registrationId :=
                                      BlockchainWrites.registrationId registrationResult;
                                    d_tweetUrl := tweetUrl req;
                                    d_twitterHandle := twitterHandle req |};
                    error := None |})
       | _ => throw (TypeError "content.trim is not a function")
       end)
    (fun e =>
       let! _ := console Error "Error registering tweet:" in
       ret (mkHttp 500
         {| success := false;
            message := "Internal server error";
            data := None;
            error := Some (errorMessage e) |})).

(** POST /api/check-registration *)
Definition checkRegistration (tweetContent : Field JsString)
    : M (HttpResponse CheckResponse) :=
  tryCatch
    (match tweetContent with
     | NotText true => throw (TypeError "content.trim is not a function")
     | Text (u :: r) =>
         let c := u :: r in
         let contentHash := HashService.generateContentHash c in
         let hashHex := HashService.generateContentHashHex c in
         let! found := BlockchainService.hashExists W config contentHash in
         ret (mkHttp 200
           {| c_success := true;
              c_text := None;
              c_data := Some {| c_hash := hashHex;
                                exists_ := found;
                                canRegister := negb found;
                                c_message := if found
                                             then "Content already registered"
                                             else "Content available for registration" |};
              c_error := None |})
     | _ =>
         ret (mkHttp 400
           {| c_success := false;
              c_text := Some "Tweet content is required";
              c_data := None;
              c_error := None |})
     end)
    (fun e =>
       let! _ := console Error "Error checking registration:" in
       ret (mkHttp 500
         {| c_success := false;
            c_text := Some "Error checking registration status";
            c_data := None;
            c_error := Some (errorMessage e) |})).

End Controller.

End RegistrationController.

(** *** Sample submitters *)

(** A node that accepts every transaction. *)
Definition acceptingNode {Key : Type} (txid : string)
    : BlockchainWrites.TxOptions Key -> M BlockchainWrites.BroadcastResponse :=
  fun _ => ret (BlockchainWrites.Accepted txid).

(** A ledger on which no contract holds any hash. *)
Definition worldEmptyLedger : World :=
  {| readOnlyCall := fun o =>
       if bool_decide (roFunctionName o = "hash-exists") then RpcJson (boolJson false)
       else RpcJson notFoundJson;
     namesOf := quietNames;
     storeFails := fun _ => false |}.

(* ===================================================================== *)
(** ** The ledger contract (contracts/truthchain_v3.clar) *)
(* ===================================================================== *)

Module TruthChainV3.

Definition Principal : Type := string.

(** The largest [uint] (unsigned, 128 bits). *)
Definition uintMax : N := 2 ^ 128 - 1.

(** A Clarity [response]. *)
Inductive Response (A : Type) : Type :=
| ROk (a : A)
| RErr (code : N).
Arguments ROk {A} a.
Arguments RErr {A} code.

(** How a call ends: with a response, or aborted by the runtime (an
    arithmetic overflow, an argument outside the declared type). An aborted
    call and a call answered [(err ...)] leave the storage as it was. *)
Inductive CallResult (A : Type) : Type :=
| Returned (r : Response A)
| Aborted.
Arguments Returned {A} r.
Arguments Aborted {A}.

Definition ERR_HASH_EXISTS {A} : Response A := RErr 100.
Definition ERR_INVALID_HASH {A} : Response A := RErr 101.
Definition ERR_INVALID_CONTENT_TYPE {A} : Response A := RErr 102.
Definition ERR_UNAUTHORIZED {A} : Response A := RErr 103.
Definition ERR_HASH_NOT_FOUND {A} : Response A := RErr 104.

Definition CONTENT_TYPE_BLOG_POST : string := "blog_post".
Definition CONTENT_TYPE_PAGE : string := "page".
Definition CONTENT_TYPE_MEDIA : string := "media".
Definition CONTENT_TYPE_DOCUMENT : string := "document".
Definition CONTENT_TYPE_TWEET : string := "tweet".

(** A value of the map [content-registry]. *)
Record Entry : Type := mkEntry {
  author : Principal;
  bnsName : option string;
  blockHeight : N;
  timeStamp : N;
  contentType : string;
  registrationId : N
}.

(** The tuple [register-content-with-bns] returns. *)
Record Receipt : Type := mkReceipt {
  r_registrationId : N;
  r_hash : Buffer;
  r_author : Principal;
  r_bnsName : option string;
  r_blockHeight : N;
  r_timestamp : N
}.

Record Stats : Type := mkStats {
  s_totalRegistrations : N;
  s_contractActive : bool;
  s_contractOwner : Principal
}.

(** The contract's constant [CONTRACT-OWNER], its two data variables and
    its two maps. *)
Record Storage : Type := mkStorage {
  contractOwner : Principal;
  totalRegistrations : N;
  contractActive : bool;
  contentRegistry : gmap Buffer Entry;
  authorContent : gmap (Principal * N) Buffer
}.

(** The storage right after deployment by [deployer]. *)
Definition deploy (deployer : Principal) : Storage :=
  {| contractOwner := deployer;
     totalRegistrations := 0;
     contractActive := true;
     contentRegistry := ∅;
     authorContent := ∅ |}.

(** What a call sees of its transaction. *)
Record Context : Type := mkContext {
  txSender : Principal;
  stacksBlockHeight : N
}.

Definition isValidContentType (contentType_ : string) : bool :=
  bool_decide (contentType_ = CONTENT_TYPE_BLOG_POST)
  || bool_decide (contentType_ = CONTENT_TYPE_PAGE)
  || bool_decide (contentType_ = CONTENT_TYPE_MEDIA)
  || bool_decide (contentType_ = CONTENT_TYPE_DOCUMENT)
  || bool_decide (contentType_ = CONTENT_TYPE_TWEET).

(** [(is-eq (len hash) u32)] *)
Definition isValidHash (hash : Buffer) : bool :=
  bool_decide (length hash = 32%nat).

(** The arguments are of the declared types [(buff 32)],
    [(string-ascii 32)] and [(optional (string-ascii 64))]. *)
Definition registerContentWithBns (ctx : Context) (hash : Buffer)
    (contentType_ : string) (bnsName_ : option string) (st : Storage)
    : CallResult Receipt * Storage :=
  let currentRegistrations := totalRegistrations st in
  if (currentRegistrations =? uintMax)%N then (Aborted, st) else
  let newRegistrationId := (currentRegistrations + 1)%N in
  let currentBlock := stacksBlockHeight ctx in
  if negb (contractActive st) then (Returned ERR_UNAUTHORIZED, st)
  else if negb (isValidHash hash) then (Returned ERR_INVALID_HASH, st)
  else if negb (isValidContentType contentType_)
  then (Returned ERR_INVALID_CONTENT_TYPE, st)
  else if negb (bool_decide (contentRegistry st !! hash = None))
  then (Returned ERR_HASH_EXISTS, st)
  else
    (Returned (ROk {| r_registrationId := newRegistrationId;
                     r_hash := hash;
                     r_author := txSender ctx;
                     r_bnsName := bnsName_;
                     r_blockHeight := currentBlock;
                     r_timestamp := currentBlock |}),
     {| contractOwner := contractOwner st;
        totalRegistrations := newRegistrationId;
        contractActive := contractActive st;
        contentRegistry :=
          <[hash := {| author := txSender ctx;
                       bnsName := bnsName_;
                       blockHeight := currentBlock;
                       timeStamp := currentBlock;
                       contentType := contentType_;
                       registrationId := newRegistrationId |}]>
            (contentRegistry st);
        authorContent :=
          <[(txSender ctx, newRegistrationId) := hash]> (authorContent st) |}).

Definition registerContent (ctx : Context) (hash : Buffer) (contentType_ : string)
    (st : Storage) : CallResult Receipt * Storage :=
  registerContentWithBns ctx hash contentType_ None st.

Definition verifyContent (st : Storage) (hash : Buffer) : Response Entry :=
  match contentRegistry st !! hash with
  | Some registrationData => ROk registrationData
  | None => ERR_HASH_NOT_FOUND
  end.

Definition hashExists (st : Storage) (hash : Buffer) : bool :=
  bool_decide (is_Some (contentRegistry st !! hash)).

Definition getAuthorContent (st : Storage) (author_ : Principal) (registrationId_ : N)
    : Response Entry :=
  match authorContent st !! (author_, registrationId_) with
  | Some hashData =>
      match contentRegistry st !! hashData with
      | Some contentData => ROk contentData
      | None => ERR_HASH_NOT_FOUND
      end
  | None => ERR_HASH_NOT_FOUND
  end.

Definition getTotalRegistrations (st : Storage) : Response N :=
  ROk (totalRegistrations st).

Definition getRegistrationCount (st : Storage) : Response N :=
  ROk (totalRegistrations st).

Definition getContractStats (st : Storage) : Response Stats :=
  ROk {| s_totalRegistrations := totalRegistrations st;
         s_contractActive := contractActive st;
         s_contractOwner := contractOwner st |}.

Definition verifyContentSimple (st : Storage) (hash : Buffer) : Buffer * bool :=
  (hash, hashExists st hash).

(** The argument is of type [(list 10 (buff 32))]. *)
Definition batchVerify (st : Storage) (hashes : list Buffer)
    : Response (list (Buffer * bool)) :=
  ROk (map (verifyContentSimple st) hashes).

Definition toggleContractStatus (ctx : Context) (st : Storage)
    : CallResult bool * Storage :=
  if negb (bool_decide (txSender ctx = contractOwner st))
  then (Returned ERR_UNAUTHORIZED, st)
  else
    (Returned (ROk (negb (contractActive st))),
     {| contractOwner := contractOwner st;
        totalRegistrations := totalRegistrations st;
        contractActive := negb (contractActive st);
        contentRegistry := contentRegistry st;
        authorContent := authorContent st |}).

Definition getRegistrationById (st : Storage) (registrationId_ : N) : Response N :=
  if ((0 <? registrationId_) && (registrationId_ <=? totalRegistrations st))%N
  then ROk registrationId_
  else ERR_HASH_NOT_FOUND.

(** *** Transactions *)

(** A call of one of the public functions. *)
Inductive Call : Type :=
| RegisterContentWithBns (hash : Buffer) (contentType_ : string)
                         (bnsName_ : option string)
| RegisterContent (hash : Buffer) (contentType_ : string)
| ToggleContractStatus.

Definition isAsciiText (s : string) : bool :=
  forallb (fun a => (N_of_ascii a <? 128)%N) (list_ascii_of_string s).

(** [(buff n)] *)
Definition fitsBuff (n : nat) (b : Buffer) : bool :=
  (length b <=? n)%nat && forallb (fun x => (0 <=? x) && (x <? 256)) b.

(** [(string-ascii n)] *)
Definition fitsAscii (n : nat) (s : string) : bool :=
  (String.length s <=? n)%nat && isAsciiText s.

(** The arguments are of the types the function declares. *)
Definition wellTyped (c : Call) : bool :=
  match c with
  | RegisterContentWithBns hash contentType_ bnsName_ =>
      fitsBuff 32 hash && fitsAscii 32 contentType_
      && match bnsName_ with
         | Some name => fitsAscii 64 name
         | None => true
         end
  | RegisterContent hash contentType_ => fitsBuff 32 hash && fitsAscii 32 contentType_
  | ToggleContractStatus => true
  end.

(** The storage a transaction leaves. *)
Definition execute (st : Storage) (tx : Context * Call) : Storage :=
  let '(ctx, c) := tx in
  if wellTyped c then
    match c with
    | RegisterContentWithBns hash contentType_ bnsName_ =>
        snd (registerContentWithBns ctx hash contentType_ bnsName_ st)
    | RegisterContent hash contentType_ =>
        snd (registerContent ctx hash contentType_ st)
    | ToggleContractStatus => snd (toggleContractStatus ctx st)
    end
  else st.

Definition executeAll (txs : list (Context * Call)) (st : Storage) : Storage :=
  fold_left execute txs st.

End TruthChainV3.

(** *** Properties of the contract's storage *)

(** The counter counts the registry; every entry carries an id between 1
    and the counter and is indexed under its author and id; the index has
    no other keys; every id up to the counter is in use, by one hash. *)
Definition ledgerInvariant (st : TruthChainV3.Storage) : Prop :=
  N.of_nat (size (TruthChainV3.contentRegistry st)) = TruthChainV3.totalRegistrations st
  /\ (forall h e,
         TruthChainV3.contentRegistry st !! h = Some e ->
         (1 <= TruthChainV3.registrationId e <= TruthChainV3.totalRegistrations st)%N
         /\ TruthChainV3.authorContent st
              !! (TruthChainV3.author e, TruthChainV3.registrationId e) = Some h)
  /\ (forall a i h,
         TruthChainV3.authorContent st !! (a, i) = Some h ->
         exists e, TruthChainV3.contentRegistry st !! h = Some e
                   /\ TruthChainV3.author e = a
                   /\ TruthChainV3.registrationId e = i)
  /\ (forall i, (1 <= i <= TruthChainV3.totalRegistrations st)%N ->
         exists h e, TruthChainV3.contentRegistry st !! h = Some e
                     /\ TruthChainV3.registrationId e = i)
  /\ (forall h h' e e',
         TruthChainV3.contentRegistry st !! h = Some e ->
         TruthChainV3.contentRegistry st !! h' = Some e' ->
         TruthChainV3.registrationId e = TruthChainV3.registrationId e' ->
         h = h').

(** The call the gateway's [registerTweet] asks the node to run. *)
Definition callOf {Key : Type} (tx : BlockchainWrites.TxOptions Key) : TruthChainV3.Call :=
  TruthChainV3.RegisterContent (BlockchainWrites.txHash tx)
                               (BlockchainWrites.txContentType tx).



Definition aliceContext : TruthChainV3.Context :=
  {| TruthChainV3.txSender := "SP1S7KX8TVSAWJ8CVJZQSFERBQ8BNCDXYFHXT21Z9";
     TruthChainV3.stacksBlockHeight := 154200 |}.

Definition freshLedger : TruthChainV3.Storage :=
  TruthChainV3.deploy "SPVQ61FEWR6M4HVAT3BNE07D4BNW6A1C2ACCNQ6F".

(* ===================================================================== *)
(** ** Cache maintenance (shared/models/VerificationCache.ts, statics) and
       the health route (routes/index.ts) *)
(* ===================================================================== *)

Module VerificationCacheStatics.


End VerificationCacheStatics.


Module Router.

Record HealthBody : Type := mkHealth {
  success : bool;
  message : string;
  connected : option bool;
  network_ : option Network;
  contract : option string;
  timestamp : option IsoString;
  error : option string
}.

Section Routes.

Variable W : World.
Variable blockchainConfig : ContractConfig.

(** GET /health *)
Definition health : M (HttpResponse HealthBody) :=
  tryCatch
    (let! stats := BlockchainService.getContractStats W blockchainConfig in
     let! now := dateNow in
     let! iso := lift (toISOString (DateMs now)) in
     ret (mkHttp 200
       {| success := true;
          message := "TruthChain API is running";
          connected := Some (truthy stats);
          network_ := Some (network blockchainConfig);
          contract := Some (contractAddress blockchainConfig +:+ "."
                            +:+ contractName blockchainConfig);
          timestamp := Some iso;
          error := None |}))
    (fun e =>
       ret (mkHttp 500
         {| success := false;
            message := "API running but blockchain connection failed";
            connected := None; network_ := None; contract := None;
            timestamp := None;
            error := Some (errorMessage e) |})).

End Routes.

End Router.


(* ===================================================================== *)
(** * Properties *)
(* ===================================================================== *)

(* ===================================================================== *)
(** ** Content hashing: the normalisation is idempotent *)
(* ===================================================================== *)

Section Normalisation.

Import HashService.

Lemma trimStart_fixed_cons c r :
  isWhiteSpace c = false -> trimStart (c :: r) = c :: r.
Proof. intros Hc; simpl; now rewrite Hc. Qed.

Lemma trimStart_length s : (length (trimStart s) <= length s)%nat.
Proof.
  induction s as [|c r IH]; simpl; [lia|].
  destruct (isWhiteSpace c); simpl; lia.
Qed.

(** A string fixed by [trimStart] is empty or starts with a non-space. *)
Lemma trimStart_fixed_inv s :
  trimStart s = s -> s = [] \/ exists c r, s = c :: r /\ isWhiteSpace c = false.
Proof.
  destruct s as [|c r]; [now left|]; intros H; right.
  exists c, r; split; [reflexivity|].
  destruct (isWhiteSpace c) eqn:E; [|reflexivity].
  simpl in H; rewrite E in H.
  pose proof (trimStart_length r) as L; rewrite H in L; simpl in L; lia.
Qed.

Lemma trimStart_idem s : trimStart (trimStart s) = trimStart s.
Proof.
  induction s as [|c r IH]; simpl; [reflexivity|].
  destruct (isWhiteSpace c) eqn:E; [exact IH|].
  now apply trimStart_fixed_cons.
Qed.

Lemma trimStart_snoc s c :
  isWhiteSpace c = false -> trimStart (s ++ [c]) = trimStart s ++ [c].
Proof.
  intros Hc; induction s as [|d r IH]; simpl.
  - now rewrite Hc.
  - destruct (isWhiteSpace d); [exact IH | reflexivity].
Qed.

Lemma trim_edgeFree s : edgeFree (trim s).
Proof.
  unfold edgeFree, trim, trimEnd.
  set (a := trimStart s).
  assert (Ha : trimStart a = a) by apply trimStart_idem.
  split.
  - destruct (trimStart_fixed_inv a Ha) as [-> | (c & r & -> & Hc)]; [reflexivity|].
    simpl rev. rewrite trimStart_snoc by exact Hc.
    rewrite rev_app_distr. simpl. now rewrite Hc.
  - rewrite rev_involutive. apply trimStart_idem.
Qed.

Lemma trim_of_edgeFree s : edgeFree s -> trim s = s.
Proof.
  intros [H1 H2]. unfold trim, trimEnd. rewrite H1, H2. apply rev_involutive.
Qed.

Lemma replaceRuns_snoc b s c :
  isWhiteSpace c = false -> replaceRuns b (s ++ [c]) = replaceRuns b s ++ [c].
Proof.
  intros Hc; revert b; induction s as [|d r IH]; intros b; simpl.
  - now rewrite Hc.
  - destruct (isWhiteSpace d); [destruct b|]; simpl; now rewrite IH.
Qed.

Lemma replaceRuns_edgeFree s : edgeFree s -> edgeFree (replaceRuns false s).
Proof.
  intros [H1 H2]; split.
  - destruct (trimStart_fixed_inv s H1) as [-> | (c & r & -> & Hc)]; [reflexivity|].
    simpl. rewrite Hc. now apply trimStart_fixed_cons.
  - destruct (trimStart_fixed_inv (rev s) H2) as [E | (c & r & E & Hc)].
    + apply (f_equal (@rev Z)) in E. rewrite rev_involutive in E. now subst s.
    + apply (f_equal (@rev Z)) in E. rewrite rev_involutive in E. simpl in E.
      subst s. rewrite replaceRuns_snoc by exact Hc.
      rewrite rev_app_distr. simpl. now rewrite Hc.
Qed.

(** Collapsing is idempotent whatever the state it starts in. *)
Lemma replaceRuns_idem s :
  forall b, replaceRuns false (replaceRuns b s) = replaceRuns b s
            /\ replaceRuns true (replaceRuns b s) = replaceRuns true s.
Proof.
  induction s as [|c r IH]; intros b; simpl; [now split|].
  destruct (isWhiteSpace c) eqn:E.
  - destruct b.
    + apply IH.
    + destruct (IH true) as [_ I2]. simpl.
      change (isWhiteSpace 32) with true. cbv iota. now rewrite I2.
  - destruct (IH false) as [I1 _]. simpl. rewrite E. now rewrite I1.
Qed.

Lemma cleanContent_idem s : cleanContent (cleanContent s) = cleanContent s.
Proof.
  unfold cleanContent.
  rewrite (trim_of_edgeFree (replaceRuns false (trim s))).
  - apply replaceRuns_idem.
  - apply replaceRuns_edgeFree, trim_edgeFree.
Qed.

Lemma replaceRuns_singleSpaced s :
  forall b, singleSpaced b (replaceRuns b s) = true.
Proof.
  induction s as [|c r IH]; intros b; simpl; [reflexivity|].
  destruct (isWhiteSpace c) eqn:E.
  - destruct b; [apply IH|].
    simpl. change (isWhiteSpace 32) with true. cbv iota. simpl. apply IH.
  - simpl. rewrite E. apply IH.
Qed.

(** The normal form is what the specification describes: no whitespace at
    either end, and single spaces between words. *)
Lemma trim_collapse_normal s :
  edgeFree (trim_collapse s) /\ singleSpaced false (trim_collapse s) = true.
Proof.
  split.
  - apply replaceRuns_edgeFree, trim_edgeFree.
  - apply replaceRuns_singleSpaced.
Qed.

End Normalisation.

(** C6. [hash(s) = hash(trim_collapse(s))] for every string [s], and the two
    example tweets, which differ only in whitespace, have the same 32-byte
    digest. *)
Theorem C6_hash_normalisation_idempotent :
  (forall s : JsString, hash s = hash (trim_collapse s))
  /\ hash tweetPlain = hash tweetSpaced
  /\ length (hash tweetPlain) = 32%nat.
Proof.
  split; [|split].
  - intros s. unfold hash, HashService.generateContentHash.
    change (trim_collapse s) with (HashService.cleanContent s).
    now rewrite cleanContent_idem.
  - vm_compute. reflexivity.
  - vm_compute. reflexivity.
Qed.

(* ===================================================================== *)
(** ** Contract gateway *)
(* ===================================================================== *)

Lemma addTrace_nil s : addTrace [] s = s.
Proof. destruct s; unfold addTrace; simpl; now rewrite app_nil_r. Qed.

Lemma addTrace_app e1 e2 s : addTrace e2 (addTrace e1 s) = addTrace (e1 ++ e2) s.
Proof. unfold addTrace; simpl; now rewrite app_assoc. Qed.

Lemma emit_run e s : emit e s = (Ok tt, addTrace [e] s).
Proof. reflexivity. Qed.

Ltac mrun :=
  cbv beta iota zeta delta
    [bind tryCatch ret throw lift emit console dateNow sleep
     getCache putCache getRegistrations putRegistrations storeOp obind].

Ltac mdone := unfold addTrace; simpl; rewrite <- ?app_assoc; simpl; try reflexivity.

Lemma addTrace_snoc e1 e s :
  {| cache := cache (addTrace e1 s); registrations := registrations (addTrace e1 s);
     clock := clock (addTrace e1 s); trace := trace (addTrace e1 s) ++ [e] |}
  = addTrace (e1 ++ [e]) s.
Proof. unfold addTrace; simpl; now rewrite app_assoc. Qed.

Section Gateway.

Variable W : World.
Variable config : ContractConfig.

Lemma hashExistsOnContract_run address name contentHash s :
  BlockchainService.hashExistsOnContract W config address name contentHash s
  = (Ok (reportsExistence W config (address, name) contentHash),
     addTrace (existsEvents W config (address, name) contentHash) s).
Proof.
  unfold BlockchainService.hashExistsOnContract, 
    BlockchainService.callReadOnly, reportsExistence, existsEvents,
    existenceCheckFailed, existsOptions.
  simpl fst; simpl snd. mrun.
  destruct (readOnlyCall W _) as [f|j].
  - mdone.
  - destruct (getProp j "value") as [v|e]; mdone.
Qed.

Lemma verifyOnContract_run address name contentHash s :
  BlockchainService.verifyOnContract W config address name contentHash s
  = (Ok (verifyOn W config (address, name) contentHash (clock s)),
     addTrace (verifyOnEvents W config (address, name) contentHash) s).
Proof.
  unfold BlockchainService.verifyOnContract, tryCatch at 1, bind at 1.
  rewrite hashExistsOnContract_run.
  unfold verifyOn, verifyOnEvents, detailsOf.
  destruct (reportsExistence W config (address, name) contentHash); simpl.
  - unfold BlockchainService.callReadOnly, detailOptions.
    simpl fst; simpl snd. mrun.
    destruct (readOnlyCall W _) as [f|j]; simpl.
    + mdone.
    + destruct (BlockchainService.parseDetails contentHash j) as [[r|]|e]; mdone.
  - mrun. now rewrite app_nil_r.
Qed.

Lemma verifyTweet_run contentHash s :
  BlockchainService.verifyTweet W config contentHash s
  = (Ok (verifyAcross W config (versions config) contentHash (clock s)),
     addTrace (verifyAcrossEvents W config (versions config) contentHash) s).
Proof.
  unfold BlockchainService.verifyTweet, tryCatch, bind, versions.
  rewrite verifyOnContract_run. fold (primary config).
  cbn [verifyAcross verifyAcrossEvents].
  unfold verifyOn.
  destruct (reportsExistence W config (primary config) contentHash) eqn:E3.
  { mrun. now rewrite app_nil_r. }
  destruct (bool_decide (network config = Mainnet)).
  2:{ mrun. cbn [verifyAcross verifyAcrossEvents]. now rewrite app_nil_r. }
  rewrite verifyOnContract_run. fold contractV2. 
  cbn [verifyAcross verifyAcrossEvents clock addTrace].
  unfold verifyOn.
  destruct (reportsExistence W config contractV2 contentHash) eqn:E2.
  { mrun. now rewrite addTrace_app, !app_nil_r. }
  rewrite verifyOnContract_run. fold contractV1.
  cbn [verifyAcross verifyAcrossEvents clock addTrace].
  unfold verifyOn.
  destruct (reportsExistence W config contractV1 contentHash) eqn:E1;
    mrun; unfold addTrace; cbn [cache registrations clock trace];
    now rewrite ?app_nil_r, <- ?app_assoc.
Qed.


Lemma existenceChecks_app e1 e2 :
  existenceChecks (e1 ++ e2) = existenceChecks e1 ++ existenceChecks e2.
Proof.
  induction e1 as [|e r IH]; simpl; [reflexivity|].
  destruct e; try exact IH.
  destruct (bool_decide _); simpl; now rewrite IH.
Qed.

Lemma existenceChecks_verifyOn c contentHash :
  existenceChecks (verifyOnEvents W config c contentHash) = [c].
Proof.
  unfold verifyOnEvents, existsEvents. rewrite existenceChecks_app.
  destruct c as [a n]. simpl.
  destruct (existenceCheckFailed _ _ _ _), (reportsExistence _ _ _ _); reflexivity.
Qed.

Lemma existenceChecks_verifyAcross vs contentHash :
  existenceChecks (verifyAcrossEvents W config vs contentHash)
  = probedUntilHit (fun c => reportsExistence W config c contentHash) vs.
Proof.
  induction vs as [|v r IH]; cbn [verifyAcrossEvents probedUntilHit]; [reflexivity|].
  rewrite existenceChecks_app, existenceChecks_verifyOn.
  destruct (reportsExistence W config v contentHash); [reflexivity|].
  now rewrite IH.
Qed.

Lemma verifyAcross_is_Some vs contentHash now :
  is_Some (verifyAcross W config vs contentHash now)
  <-> exists c, In c vs /\ reportsExistence W config c contentHash = true.
Proof.
  induction vs as [|v r IH]; cbn [verifyAcross In].
  - split; [intros [x Hx]; discriminate | intros (c & [] & _)].
  - unfold verifyOn at 1.
    destruct (reportsExistence W config v contentHash) eqn:E.
    + split; [intros _; exists v; auto | intros _; eauto].
    + rewrite IH. split.
      * intros (c & Hc & Hr); exists c; auto.
      * intros (c & [<- | Hc] & Hr); [congruence | exists c; auto].
Qed.

End Gateway.

(** C2. The gateway's [verifyTweet] probes the contract versions newest first
    (the configured primary, then v2 and v1 on mainnet only), stops at the
    first version that reports the hash, and succeeds exactly when some
    consulted version reports it; a hash present in v1 only is found on
    mainnet after the primary and v2 were asked. *)
Theorem C2_version_fallback_order
    (W : World) (config : ContractConfig) (contentHash : Buffer) (s : State) :
  exists r evs,
    BlockchainService.verifyTweet W config contentHash s = (Ok r, addTrace evs s)
    /\ versions config
        = primary config :: (if bool_decide (network config = Mainnet)
                             then [contractV2; contractV1] else [])
    /\ existenceChecks evs
        = probedUntilHit (fun c => reportsExistence W config c contentHash)
                         (versions config)
    /\ (is_Some r <->
         exists c, In c (versions config)
                   /\ reportsExistence W config c contentHash = true)
    /\ (network config = Mainnet ->
         reportsExistence W config (primary config) contentHash = false ->
         reportsExistence W config contractV2 contentHash = false ->
         reportsExistence W config contractV1 contentHash = true ->
         is_Some r
         /\ existenceChecks evs = [primary config; contractV2; contractV1]).
Proof.
  eexists _, _. split; [apply verifyTweet_run|].
  split; [reflexivity|].
  split; [apply existenceChecks_verifyAcross|].
  split; [apply verifyAcross_is_Some|].
  intros Hnet H3 H2 H1. split.
  - apply verifyAcross_is_Some. exists contractV1. split; [|exact H1].
    unfold versions. rewrite bool_decide_eq_true_2 by exact Hnet. simpl; auto.
  - rewrite existenceChecks_verifyAcross. unfold versions.
    rewrite bool_decide_eq_true_2 by exact Hnet.
    cbn [probedUntilHit]. fold (versions config). 
    rewrite H3, H2, H1. reflexivity.
Qed.

(** C5. When [hash-exists] reports the hash but the [verify-content] call
    throws, or its decoded result does not yield a record, [verifyOnContract]
    returns the degraded record (author 'unknown', block height 0,
    registration id 0, timestamp [Date.now() / 1000]) instead of null or an
    exception. *)
Theorem C5_degraded_record_on_detail_failure
    (W : World) (config : ContractConfig) (address name : string)
    (contentHash : Buffer) (s : State) :
  reportsExistence W config (address, name) contentHash = true ->
  ((exists f, readOnlyCall W (detailOptions config (address, name) contentHash)
              = RpcThrows f)
   \/ (exists j, readOnlyCall W (detailOptions config (address, name) contentHash)
                 = RpcJson j
                 /\ forall r, BlockchainService.parseDetails contentHash j
                              <> Ok (Some r))) ->
  exists r s',
    BlockchainService.verifyOnContract W config address name contentHash s
    = (Ok (Some r), s')
    /\ isDegraded contentHash (clock s) r.
Proof.
  intros Hex Hfail.
  rewrite verifyOnContract_run. unfold verifyOn. rewrite Hex.
  eexists _, _. split; [reflexivity|].
  assert (detailsOf W config (address, name) contentHash = None) as ->.
  { unfold detailsOf. destruct Hfail as [[f ->] | (j & -> & Hj)]; [reflexivity|].
    destruct (BlockchainService.parseDetails contentHash j) as [[r|]|e];
      [now destruct (Hj r) | reflexivity | reflexivity]. }
  repeat split.
Qed.

Lemma C5_witness :
  exists r s',
    BlockchainService.verifyOnContract worldDetailsDown mainnetConfig
      "SPVQ61FEWR6M4HVAT3BNE07D4BNW6A1C2ACCNQ6F" "truthchain_v3"
      sampleHash (emptyState 1718000000123)
    = (Ok (Some r), s')
    /\ isDegraded sampleHash 1718000000123 r.
Proof.
  apply (C5_degraded_record_on_detail_failure worldDetailsDown mainnetConfig).
  - reflexivity.
  - left. exists TransportError. reflexivity.
Defined.

(** A ledger-reported [(err u104)] for the details is one of the results that
    yield no record. *)
Example parseDetails_error_response h :
  BlockchainService.parseDetails h notFoundJson = Ok None.
Proof. reflexivity. Qed.

(** A well-formed answer is decoded field by field. *)
Example parseDetails_sample :
  BlockchainService.parseDetails sampleHash sampleDetails
  = Ok (Some {| BlockchainService.hash := sampleHash;
                BlockchainService.author :=
                  JString "SP1S7KX8TVSAWJ8CVJZQSFERBQ8BNCDXYFHXT21Z9";
                BlockchainService.bnsName := JUndefined;
                BlockchainService.blockHeight := Num (inject_Z 154200);
                BlockchainService.timestamp := Num (inject_Z 1718000000);
                BlockchainService.registrationId := Num (inject_Z 7) |}).
Proof. reflexivity. Qed.

Lemma getContractStats_run W config s :
  BlockchainService.getContractStats W config s
  = match readOnlyCall W (statsOptions config) with
    | RpcJson j => (Ok j, addTrace [EvReadOnly (statsOptions config)] s)
    | RpcThrows _ =>
        (Ok JNull, addTrace [EvReadOnly (statsOptions config);
                             EvConsole Error "Error getting contract stats:"] s)
    end.
Proof.
  unfold BlockchainService.getContractStats, BlockchainService.callReadOnly,
    statsOptions.
  mrun. destruct (readOnlyCall W _); mdone.
Qed.

(** C8. [hashExists] and [getContractStats] always return a value: [false],
    respectively [null], whenever the read-only call throws (transport
    error, malformed response or ledger-reported error), having logged the
    failure; [hashExists] is [true] only for a decoded [value] of [true]. *)
Theorem C8_gateway_reads_never_throw
    (W : World) (config : ContractConfig) (contentHash : Buffer) (s : State) :
  (exists b evs,
      BlockchainService.hashExists W config contentHash s = (Ok b, addTrace evs s)
      /\ (b = true <->
          exists j, readOnlyCall W (existsOptions config (primary config) contentHash)
                    = RpcJson j
                    /\ getProp j "value" = Ok (JBool true)))
  /\ (forall f,
         readOnlyCall W (existsOptions config (primary config) contentHash)
         = RpcThrows f ->
         BlockchainService.hashExists W config contentHash s
         = (Ok false,
            addTrace [EvReadOnly (existsOptions config (primary config) contentHash);
                      EvConsole Error ("Error checking hash existence on "
                                       +:+ contractName config)] s))
  /\ (exists v evs,
         BlockchainService.getContractStats W config s = (Ok v, addTrace evs s))
  /\ (forall f,
         readOnlyCall W (statsOptions config) = RpcThrows f ->
         BlockchainService.getContractStats W config s
         = (Ok JNull,
            addTrace [EvReadOnly (statsOptions config);
                      EvConsole Error "Error getting contract stats:"] s)).
Proof.
  unfold BlockchainService.hashExists.
  rewrite hashExistsOnContract_run. fold (primary config).
  repeat split.
  - eexists _, _. split; [reflexivity|].
    unfold reportsExistence, existsOptions.
    destruct (readOnlyCall W _) as [f|j].
    + split; [discriminate | intros (j & Hj & _); discriminate].
    + destruct (getProp j "value") as [v|e] eqn:E.
      * split.
        -- intros Hv. exists j. split; [reflexivity|].
           destruct v as [| |[|]| | |]; try discriminate. exact E.
        -- intros (j' & Hj & Hv). injection Hj as <-. rewrite E in Hv.
           injection Hv as ->. reflexivity.
      * split; [discriminate|].
        intros (j' & Hj & Hv). injection Hj as <-. congruence.
  - intros f Hf. unfold reportsExistence, existsEvents, existenceCheckFailed.
    unfold existsOptions in Hf |- *. now rewrite Hf.
  - rewrite getContractStats_run. destruct (readOnlyCall W _); eauto.
  - intros f Hf. rewrite getContractStats_run. now rewrite Hf.
Qed.

Lemma C8_witness :
  BlockchainService.hashExists worldLedgerDown mainnetConfig sampleHash
    (emptyState 0)
  = (Ok false,
     addTrace [EvReadOnly (existsOptions mainnetConfig (primary mainnetConfig) sampleHash);
               EvConsole Error "Error checking hash existence on truthchain_v3"]
       (emptyState 0))
  /\ BlockchainService.getContractStats worldLedgerDown mainnetConfig (emptyState 0)
     = (Ok JNull,
        addTrace [EvReadOnly (statsOptions mainnetConfig);
                  EvConsole Error "Error getting contract stats:"] (emptyState 0)).
Proof.
  destruct (C8_gateway_reads_never_throw worldLedgerDown mainnetConfig sampleHash
              (emptyState 0)) as (_ & H1 & _ & H2).
  split.
  - exact (H1 TransportError eq_refl).
  - exact (H2 TransportError eq_refl).
Defined.

(* ===================================================================== *)
(** ** Verification controller: batch and quick probes *)
(* ===================================================================== *)

Section Probes.

Variable W : World.
Variable config : ContractConfig.

Lemma verifyItem_run contentHash hashHex s :
  VerificationController.verifyItem W config contentHash hashHex s
  = (Ok (hashedItemResult W config contentHash hashHex (clock s)),
     addTrace (verifyAcrossEvents W config (versions config) contentHash) s).
Proof.
  unfold VerificationController.verifyItem, tryCatch, bind.
  rewrite verifyTweet_run. unfold hashedItemResult.
  destruct (verifyAcross W config (versions config) contentHash (clock s)) as [v|];
    [|reflexivity].
  unfold lift. destruct (toISOString _); reflexivity.
Qed.

Lemma processItem_run item s :
  VerificationController.processItem W config item s
  = match itemError item with
    | Some e => (Thrown e, s)
    | None => (Ok (resolveItem W config (clock s) item),
               addTrace (itemEvents W config item) s)
    end.
Proof.
  unfold VerificationController.processItem, resolveItem, itemEvents, itemHash,
    itemError.
  destruct item as [|content hash]; [reflexivity|].
  assert (Hnone : forall s0 : State,
             (Ok VerificationController.missingFields, s0)
             = (Ok VerificationController.missingFields, addTrace [] s0))
    by (intros s0; now rewrite addTrace_nil).
  destruct content as [|[|c r]|[|]];
    try apply verifyItem_run; try reflexivity;
    destruct hash as [|[|a h]|[|]];
    try apply verifyItem_run; try reflexivity; apply Hnone.
Qed.

Lemma processItems_run items : forall results s,
  Forall wellFormed items ->
  VerificationController.processItems W config items results s
  = (Ok (results ++ map (resolveItem W config (clock s)) items),
     addTrace (concat (map (itemEvents W config) items)) s).
Proof.
  induction items as [|item rest IH]; intros results s Hwf; simpl.
  - unfold ret. now rewrite app_nil_r, addTrace_nil.
  - apply Forall_cons in Hwf as [Hi Hrest].
    unfold bind. rewrite processItem_run, Hi, IH by exact Hrest.
    now rewrite addTrace_app, <- app_assoc.
Qed.

Lemma processItems_throw good bad rest e : forall results s,
  Forall wellFormed good ->
  itemError bad = Some e ->
  VerificationController.processItems W config (good ++ bad :: rest) results s
  = (Thrown e, addTrace (concat (map (itemEvents W config) good)) s).
Proof.
  induction good as [|item good IH]; intros results s Hwf Hbad; simpl.
  - unfold bind. rewrite processItem_run, Hbad. now rewrite addTrace_nil.
  - apply Forall_cons in Hwf as [Hi Hgood].
    unfold bind. rewrite processItem_run, Hi, IH by assumption.
    now rewrite addTrace_app.
Qed.

(** Either no item throws, or there is a first one that does. *)
Lemma items_split (items : list VerificationController.Batch.Item) :
  Forall wellFormed items
  \/ exists good bad rest e,
       items = good ++ bad :: rest
       /\ Forall wellFormed good /\ itemError bad = Some e.
Proof.
  induction items as [|item rest IH]; [left; constructor|].
  destruct (itemError item) as [e|] eqn:Hi.
  - right. exists [], item, rest, e. repeat split; [constructor | exact Hi].
  - destruct IH as [Hwf | (good & bad & rest' & e & -> & Hgood & Hbad)].
    + left. constructor; assumption.
    + right. exists (item :: good), bad, rest', e.
      repeat split; [constructor; assumption | exact Hbad].
Qed.

Lemma verifyAcrossEvents_gateway vs contentHash :
  Forall isGatewayEvent (verifyAcrossEvents W config vs contentHash).
Proof.
  induction vs as [|v r IH]; cbn [verifyAcrossEvents]; [constructor|].
  apply Forall_app. split.
  - unfold verifyOnEvents, existsEvents. apply Forall_app. split.
    + constructor; [exact I|]. destruct (existenceCheckFailed _ _ _ _);
        repeat constructor.
    + destruct (reportsExistence _ _ _ _); repeat constructor.
  - destruct (reportsExistence _ _ _ _); [constructor | exact IH].
Qed.

Lemma itemEvents_gateway items :
  Forall isGatewayEvent (concat (map (itemEvents W config) items)).
Proof.
  induction items as [|item rest IH]; simpl; [constructor|].
  apply Forall_app. split; [|exact IH].
  unfold itemEvents. destruct (itemHash item) as [[b h]|];
    [apply verifyAcrossEvents_gateway | constructor].
Qed.

Lemma quickVerify_run hashParam s :
  hashParam <> EmptyString ->
  VerificationController.quickVerify W config hashParam s
  = (let found := reportsExistence W config (primary config)
                    (HashService.hexToBuffer hashParam) in
     Ok (mkHttp 200
           {| VerificationController.Quick.success := true;
              VerificationController.Quick.verified := found;
              VerificationController.Quick.message :=
                if found then "Content verified" else "Content not found";
              VerificationController.Quick.data :=
                Some {| VerificationController.Quick.hash := hashParam;
                        VerificationController.Quick.exists_ := found |};
              VerificationController.Quick.error := None |}),
     addTrace (existsEvents W config (primary config)
                 (HashService.hexToBuffer hashParam)) s).
Proof.
  intros Hne. unfold VerificationController.quickVerify, tryCatch, bind.
  rewrite bool_decide_eq_false_2 by exact Hne.
  unfold BlockchainService.hashExists. rewrite hashExistsOnContract_run.
  reflexivity.
Qed.

End Probes.

(** C7 (as the code has it). A batch with no items array, an empty one, or
    more than 10 items is answered 400 and nothing is processed. Otherwise,
    when no item makes the loop body throw (every item of the declared type
    [{content?: string, hash?: string}] is such), the answer is 200 with one
    result per item, in input order, each computed from its own item by the
    gateway's multi-version lookup alone (no cache or store access); an
    item with neither content nor hash yields
    [{success: false, verified: false, error: 'Either content or hash
    required'}] and the remaining items are still processed. An item that
    is [null], or whose [content] (or, [content] being falsy, whose [hash])
    is a truthy value that is not a string, throws before the per-item
    handler: the items before it have been looked up, and the whole batch
    is answered 500 without results. *)
Theorem C7_batch_verify
    (W : World) (config : ContractConfig)
    (items : option (list VerificationController.Batch.Item)) (s : State) :
  ((items = None \/ items = Some []
    \/ exists l, items = Some l /\ (10 < length l)%nat) ->
   exists b,
     VerificationController.batchVerify W config items s = (Ok (mkHttp 400 b), s)
     /\ VerificationController.Batch.success b = false
     /\ VerificationController.Batch.results b = None)
  /\ (forall l, items = Some l -> l <> [] -> (length l <= 10)%nat ->
      Forall wellFormed l ->
      exists b results evs,
        VerificationController.batchVerify W config items s
        = (Ok (mkHttp 200 b), addTrace evs s)
        /\ VerificationController.Batch.success b = true
        /\ VerificationController.Batch.results b = Some results
        /\ length results = length l
        /\ map withoutDate results
           = map (fun item => withoutDate (resolveItem W config (clock s) item)) l
        /\ evs = concat (map (itemEvents W config) l)
        /\ Forall isGatewayEvent evs)
  /\ (forall l good bad rest e, items = Some l -> (length l <= 10)%nat ->
      l = good ++ bad :: rest ->
      Forall wellFormed good -> itemError bad = Some e ->
      exists b,
        VerificationController.batchVerify W config items s
        = (Ok (mkHttp 500 b),
           addTrace (concat (map (itemEvents W config) good)
                     ++ [EvConsole Error "Error in batch verify:"]) s)
        /\ VerificationController.Batch.success b = false
        /\ VerificationController.Batch.results b = None
        /\ VerificationController.Batch.error b = Some (errorMessage e))
  /\ (itemError VerificationController.Batch.ItemNull <> None
      /\ (forall hash,
            itemError (VerificationController.Batch.ItemOf
                         (NotText true) hash) <> None)
      /\ (forall content,
            (content = Absent
             \/ content = Text []
             \/ content = NotText false) ->
            itemError (VerificationController.Batch.ItemOf content
                         (NotText true)) <> None)
      /\ (forall content hash,
            (forall b, content <> NotText b) ->
            (forall b, hash <> NotText b) ->
            wellFormed (VerificationController.Batch.ItemOf content hash)))
  /\ (forall now,
        resolveItem W config now
          (VerificationController.Batch.ItemOf Absent
             Absent)
        = {| VerificationController.Batch.r_success := false;
             VerificationController.Batch.r_verified := false;
             VerificationController.Batch.r_hash := None;
             VerificationController.Batch.r_data := None;
             VerificationController.Batch.r_error :=
               Some "Either content or hash required" |})
  /\ (forall now item contentHash hashHex,
        itemHash item = Some (contentHash, hashHex) ->
        VerificationController.Batch.r_hash (resolveItem W config now item)
        = Some hashHex
        /\ (VerificationController.Batch.r_verified (resolveItem W config now item)
            = true ->
            exists c, In c (versions config)
                      /\ reportsExistence W config c contentHash = true)).
Proof.
  split; [|split; [|split; [|split; [|split]]]].
  - intros [-> | [-> | (l & -> & Hl)]].
    + eexists. split; [reflexivity|]. split; reflexivity.
    + eexists. split; [reflexivity|]. split; reflexivity.
    + destruct l as [|i l]; [simpl in Hl; lia|].
      unfold VerificationController.batchVerify, tryCatch.
      apply Nat.ltb_lt in Hl. rewrite Hl.
      eexists. split; [reflexivity|]. split; reflexivity.
  - intros l -> Hne Hlen Hwf.
    destruct l as [|i l]; [congruence|].
    unfold VerificationController.batchVerify, tryCatch, bind.
    assert ((10 <? length (i :: l))%nat = false) as -> by (apply Nat.ltb_ge; lia).
    rewrite processItems_run by exact Hwf.
    eexists _, _, _. split; [reflexivity|].
    split; [reflexivity|]. split; [reflexivity|].
    split; [change ([] ++ ?x) with x; apply length_map|].
    split; [change ([] ++ ?x) with x; now rewrite List.map_map|].
    split; [reflexivity | apply itemEvents_gateway].
  - intros l good bad rest e -> Hlen -> Hwf Hbad.
    unfold VerificationController.batchVerify, tryCatch, bind.
    assert ((10 <? length (good ++ bad :: rest))%nat = false) as ->
      by (apply Nat.ltb_ge; lia).
    destruct (good ++ bad :: rest) as [|i l] eqn:El;
      [destruct good; discriminate|].
    rewrite <- El, (processItems_throw W config good bad rest e) by assumption.
    unfold console. rewrite emit_run, addTrace_app.
    eexists. split; [reflexivity|]. repeat split.
  - split; [discriminate|]. split; [intros hash; discriminate|]. split.
    + intros content [-> | [-> | ->]]; discriminate.
    + intros content hash Hc Hh. unfold wellFormed, itemError.
      destruct content as [|[|c r]|b]; try reflexivity;
        try (exfalso; now apply (Hc b));
        destruct hash as [|h|b]; try reflexivity; exfalso; now apply (Hh b).
  - reflexivity.
  - intros now item contentHash hashHex Hh. unfold resolveItem. rewrite Hh.
    unfold hashedItemResult.
    destruct (verifyAcross W config (versions config) contentHash now) as [v|] eqn:E.
    + split.
      * destruct (toISOString _); reflexivity.
      * intros _. apply (verifyAcross_is_Some W config (versions config) contentHash now).
        rewrite E. now exists v.
    + split; [reflexivity | discriminate].
Qed.

Lemma C7_witness :
  exists b evs,
    VerificationController.batchVerify worldV1Only mainnetConfig
      (Some [ VerificationController.Batch.ItemOf
                (Text tweetSpaced)
                Absent;
              VerificationController.Batch.ItemOf
                Absent
                Absent ])
      (emptyState 1718000000123)
    = (Ok (mkHttp 200 b), addTrace evs (emptyState 1718000000123))
    /\ option_map (@length _) (VerificationController.Batch.results b) = Some 2%nat.
Proof.
  destruct (C7_batch_verify worldV1Only mainnetConfig
              (Some [ VerificationController.Batch.ItemOf
                        (Text tweetSpaced)
                        Absent;
                      VerificationController.Batch.ItemOf
                        Absent
                        Absent ])
              (emptyState 1718000000123)) as (_ & H & _).
  destruct (H _ eq_refl) as (b & results & evs & Hrun & _ & Hres & Hlen & _).
  - discriminate.
  - simpl; lia.
  - repeat constructor.
  - exists b, evs. split; [exact Hrun|]. rewrite Hres. simpl. now rewrite Hlen.
Defined.

(** A batch of two items, the second of which is [null]: the first item is
    looked up on the ledger, the second makes the loop throw, and the
    answer is 500 with no result for either. *)
Lemma C7_counterexample :
  exists b s',
    VerificationController.batchVerify worldV1Only mainnetConfig
      (Some [ VerificationController.Batch.ItemOf
                Absent
                (Text sampleHex);
              VerificationController.Batch.ItemNull ])
      (emptyState 1718000000123)
    = (Ok (mkHttp 500 b), s')
    /\ VerificationController.Batch.success b = false
    /\ VerificationController.Batch.results b = None
    /\ existenceChecks (trace s') = [primary mainnetConfig; contractV2; contractV1].
Proof.
  eexists _, _. split; [vm_compute; reflexivity|].
  split; [reflexivity|]. split; reflexivity.
Qed.

Lemma C2_witness :
  exists r evs,
    BlockchainService.verifyTweet worldV1Only mainnetConfig sampleHash
      (emptyState 1718000000123)
    = (Ok r, addTrace evs (emptyState 1718000000123))
    /\ is_Some r
    /\ existenceChecks evs = [primary mainnetConfig; contractV2; contractV1].
Proof.
  destruct (C2_version_fallback_order worldV1Only mainnetConfig sampleHash
              (emptyState 1718000000123)) as (r & evs & Hrun & _ & _ & _ & H).
  exists r, evs. split; [exact Hrun|].
  apply H; reflexivity.
Defined.

Lemma existsEvents_target (W : World) (config : ContractConfig)
    (c : ContractId) (contentHash : Buffer) :
  Forall (targets c) (existsEvents W config c contentHash).
Proof.
  unfold existsEvents. constructor.
  - destruct c; reflexivity.
  - destruct (existenceCheckFailed _ _ _ _); repeat constructor.
Qed.

(** C10. The quick probe asks the configured primary contract only, whereas
    POST /verify falls back to the older versions: for a hash recorded by
    truthchain_v1 alone on mainnet, GET /verify/:hash answers
    [verified: false, exists: false] and POST /verify answers
    [verified: true]. *)
Theorem C10_quick_probe_ignores_older_versions :
  (forall (W : World) (config : ContractConfig) (hashParam : string) (s : State),
      exists response evs,
        VerificationController.quickVerify W config hashParam s
        = (Ok response, addTrace evs s)
        /\ Forall (targets (primary config)) evs)
  /\ (exists (W : World) (config : ContractConfig) (h : string) (s : State),
         network config = Mainnet
         /\ reportsExistence W config (primary config) (HashService.hexToBuffer h) = false
         /\ reportsExistence W config contractV2 (HashService.hexToBuffer h) = false
         /\ reportsExistence W config contractV1 (HashService.hexToBuffer h) = true
         /\ (exists s1,
                VerificationController.quickVerify W config h s
                = (Ok (mkHttp 200
                         {| VerificationController.Quick.success := true;
                            VerificationController.Quick.verified := false;
                            VerificationController.Quick.message := "Content not found";
                            VerificationController.Quick.data :=
                              Some {| VerificationController.Quick.hash := h;
                                      VerificationController.Quick.exists_ := false |};
                            VerificationController.Quick.error := None |}), s1))
         /\ (exists response s2,
                VerificationController.verifyTweet W config
                  {| VerificationController.tweetContent := None;
                     VerificationController.hash := Some h |} s
                = (Ok response, s2)
                /\ statusCode response = 200
                /\ VerificationController.success (body response) = true
                /\ VerificationController.verified (body response) = true)).
Proof.
  split.
  - intros W config hashParam s.
    destruct (decide (hashParam = EmptyString)) as [-> | Hne].
    + eexists _, []. rewrite addTrace_nil. split; [reflexivity | constructor].
    + rewrite quickVerify_run by exact Hne.
      eexists _, _. split; [reflexivity|]. apply existsEvents_target.
  - exists worldV1Only, mainnetConfig, sampleHex, (emptyState 1718000000123).
    split; [reflexivity|].
    split; [reflexivity|].
    split; [reflexivity|].
    split; [reflexivity|].
    split.
    + eexists. vm_compute. reflexivity.
    + eexists _, _. split; [vm_compute; reflexivity|].
      split; [reflexivity|]. split; reflexivity.
Qed.

(* ===================================================================== *)
(** ** Verification resolver: cache, then store, then chain *)
(* ===================================================================== *)

Section StoreRuns.
Variable W : World.
Hypothesis available : storeAvailable W.

Lemma storeOp_run op s : storeOp W op s = (Ok tt, addTrace [EvStore op] s).
Proof. unfold storeOp. mrun. now rewrite available. Qed.

Lemma cacheFindOne_run h s :
  cacheFindOne W h s
  = (Ok (liveEntry (cache s) h (clock s)), addTrace [EvStore (CacheFindOne h)] s).
Proof.
  unfold cacheFindOne, bind at 1, dateNow, bind at 1.
  rewrite storeOp_run. reflexivity.
Qed.

Lemma cacheDeleteOne_run h s :
  cacheDeleteOne W h s
  = (Ok tt, {| cache := delete h (cache s); registrations := registrations s;
               clock := clock s; trace := trace s ++ [EvStore (CacheDeleteOne h)] |}).
Proof.
  unfold cacheDeleteOne, bind at 1. rewrite storeOp_run. reflexivity.
Qed.

Lemma regFindOne_run h s :
  regFindOne W h s
  = (Ok (find (fun r => hasHash h r && confirmedOrPending r) (registrations s)),
     addTrace [EvStore (RegFindOne h)] s).
Proof.
  unfold regFindOne, bind at 1. rewrite storeOp_run. reflexivity.
Qed.

Lemma cacheFindOneAndUpdate_run h res expires accessed s :
  cacheFindOneAndUpdate W h res expires accessed s
  = (Ok tt,
     {| cache := <[h := {| VerificationCache.result := Some res;
                           VerificationCache.expiresAt := expires;
                           VerificationCache.hits :=
                             match cache s !! h with
                             | Some d => VerificationCache.hits d
                             | None => 0
                             end + 1;
                           VerificationCache.lastAccessed := accessed |}]> (cache s);
        registrations := registrations s;
        clock := clock s;
        trace := trace s ++ [EvStore (CacheFindOneAndUpdate h)] |}).
Proof.
  unfold cacheFindOneAndUpdate, bind at 1. rewrite storeOp_run. reflexivity.
Qed.

Lemma regFindByIdAndUpdate_run id f s :
  regFindByIdAndUpdate W id f s
  = (Ok tt,
     {| cache := cache s;
        registrations := updateFirst (hasId id) f (registrations s);
        clock := clock s;
        trace := trace s ++ [EvStore (RegFindByIdAndUpdate id)] |}).
Proof.
  unfold regFindByIdAndUpdate, bind at 1. rewrite storeOp_run. reflexivity.
Qed.

End StoreRuns.

(** C1. A live negative cache entry does not mask a stored registration:
    POST /verify deletes the entry, queries the Registration store, finds
    the confirmed or pending record and answers [success: true,
    verified: true] with that record's metadata, without calling the
    ledger; the cache then holds a positive entry for the digest. *)
Theorem C1_negative_cache_is_not_authoritative
    (W : World) (config : ContractConfig)
    (req : VerificationController.VerifyTweetRequest) (h : string)
    (entry : VerificationCache.t) (res : VerificationCache.VerificationResult)
    (r : Registration.t) (s : State) :
  storeAvailable W ->
  requestHash req = Some h ->
  cache s !! h = Some entry ->
  clock s < VerificationCache.expiresAt entry ->
  VerificationCache.result entry = Some res ->
  VerificationCache.isRegistered res = Some false ->
  find (fun x => hasHash h x && confirmedOrPending x) (registrations s) = Some r ->
  exists response s',
    VerificationController.verifyTweet W config req s = (Ok response, s')
    /\ statusCode response = 200
    /\ VerificationController.success (body response) = true
    /\ VerificationController.verified (body response) = true
    /\ (exists d, VerificationController.data (body response) = Some d
                  /\ carriesMetadata h r d)
    /\ trace s' = trace s ++ [EvStore (CacheFindOne h);
                              EvStore (CacheDeleteOne h);
                              EvStore (RegFindOne h);
                              EvStore (CacheFindOneAndUpdate h);
                              EvStore (RegFindByIdAndUpdate (Registration._id r))]
    /\ (exists e p, cache s' !! h = Some e
                    /\ VerificationCache.result e = Some p
                    /\ VerificationCache.isRegistered p = Some true).
Proof.
  intros Hav Hreq Hc Hlive Hres Hneg Hfind.
  assert (Hstep : VerificationController.cacheStep W h s
                  = (Ok None,
                     {| cache := delete h (cache s); registrations := registrations s;
                        clock := clock s;
                        trace := trace s ++ [EvStore (CacheFindOne h);
                                             EvStore (CacheDeleteOne h)] |})).
  { unfold VerificationController.cacheStep, bind at 1.
    rewrite cacheFindOne_run by exact Hav.
    unfold liveEntry. rewrite Hc.
    apply Z.ltb_lt in Hlive. rewrite Hlive, Hres, Hneg.
    unfold bind. rewrite cacheDeleteOne_run by exact Hav.
    unfold ret, addTrace. simpl. now rewrite <- app_assoc. }
  assert (Hbody : forall contentHash,
    exists response s',
      VerificationController.resolve W config h contentHash s = (Ok response, s')
    /\ statusCode response = 200
    /\ VerificationController.success (body response) = true
    /\ VerificationController.verified (body response) = true
    /\ (exists d, VerificationController.data (body response) = Some d
                  /\ carriesMetadata h r d)
    /\ trace s' = trace s ++ [EvStore (CacheFindOne h);
                              EvStore (CacheDeleteOne h);
                              EvStore (RegFindOne h);
                              EvStore (CacheFindOneAndUpdate h);
                              EvStore (RegFindByIdAndUpdate (Registration._id r))]
    /\ (exists e p, cache s' !! h = Some e
                    /\ VerificationCache.result e = Some p
                    /\ VerificationCache.isRegistered p = Some true)).
  { intros contentHash. unfold VerificationController.resolve.
    unfold bind at 1. rewrite Hstep.
    unfold bind at 1. rewrite regFindOne_run by exact Hav.
    cbn [registrations addTrace]. rewrite Hfind.
    unfold VerificationController.storeHit, bind at 1, dateNow.
    unfold bind at 1. rewrite cacheFindOneAndUpdate_run by exact Hav.
    unfold bind at 1. rewrite regFindByIdAndUpdate_run by exact Hav.
    unfold ret. eexists _, _. split; [reflexivity|].
    cbn [statusCode body VerificationController.success
         VerificationController.verified VerificationController.data
         trace cache clock].
    repeat split.
    - eexists. split; [reflexivity|]. repeat split.
    - unfold addTrace; cbn [trace]. rewrite <- !app_assoc. reflexivity.
    - eexists _, _. split; [apply lookup_insert_eq|]. split; reflexivity. }
  unfold VerificationController.verifyTweet, tryCatch.
  unfold requestHash in Hreq.
  destruct (truthyUnits (VerificationController.tweetContent req)) as [c|] eqn:Ec.
  - injection Hreq as <-.
    destruct (Hbody (HashService.generateContentHash c))
      as (response & s' & Hrun & Hrest).
    exists response, s'. split; [|exact Hrest]. now rewrite Hrun.
  - destruct (truthyText (VerificationController.hash req)) as [g|] eqn:Eg;
      [|discriminate].
    injection Hreq as <-.
    destruct (Hbody (HashService.hexToBuffer g)) as (response & s' & Hrun & Hrest).
    exists response, s'. split; [|exact Hrest]. now rewrite Hrun.
Qed.

Lemma C1_witness :
  exists response s',
    VerificationController.verifyTweet worldLedgerDown mainnetConfig
      {| VerificationController.tweetContent := None;
         VerificationController.hash := Some sampleHex |} maskedState
    = (Ok response, s')
    /\ statusCode response = 200
    /\ VerificationController.verified (body response) = true
    /\ exists d, VerificationController.data (body response) = Some d
                 /\ carriesMetadata sampleHex sampleRegistration d.
Proof.
  destruct (C1_negative_cache_is_not_authoritative worldLedgerDown mainnetConfig
              {| VerificationController.tweetContent := None;
                 VerificationController.hash := Some sampleHex |}
              sampleHex staleNegative VerificationCache.negative
              sampleRegistration maskedState)
    as (response & s' & Hrun & Hcode & _ & Hver & Hdata & _).
  - intros op. reflexivity.
  - reflexivity.
  - vm_compute. reflexivity.
  - reflexivity.
  - reflexivity.
  - reflexivity.
  - vm_compute. reflexivity.
  - exists response, s'. split; [exact Hrun|]. split; [exact Hcode|].
    split; [exact Hver | exact Hdata].
Defined.

(* ===================================================================== *)
(** ** BNS staleness sweep *)
(* ===================================================================== *)

Section Sweep.

Variable W : World.

Lemma fetchWalletBNSNames_run walletAddress s :
  BNSValidationService.fetchWalletBNSNames W walletAddress s
  = (Ok (namesSeen W walletAddress), addTrace (fetchEvents W walletAddress) s).
Proof.
  unfold BNSValidationService.fetchWalletBNSNames, namesSeen, fetchEvents.
  mrun. destruct (namesOf W walletAddress); mdone.
Qed.

Lemma validateRegistration_run originalBNS walletAddress s :
  exists result,
    BNSValidationService.validateRegistration W originalBNS walletAddress s
    = (Ok result, addTrace (fetchEvents W walletAddress) s)
    /\ BNSValidationService.status result
       = classify (namesSeen W walletAddress) originalBNS
    /\ (BNSValidationService.status result = BnsTransferred ->
        BNSValidationService.currentNames result = namesSeen W walletAddress).
Proof.
  unfold BNSValidationService.validateRegistration, bind.
  rewrite fetchWalletBNSNames_run. unfold classify.
  destruct (BNSValidationService.includes _ _).
  - eexists. split; [reflexivity|]. split; [reflexivity | discriminate].
  - destruct (0 <? length _)%nat.
    + eexists. split; [reflexivity|]. split; reflexivity.
    + eexists. split; [reflexivity|]. split; [reflexivity | discriminate].
Qed.

Lemma validateOne_run r s :
  BNSValidationService.validateOne W r s
  = if storeFails W (RegFindByIdAndUpdate (Registration._id r))
    then (Thrown (StoreError (RegFindByIdAndUpdate (Registration._id r))),
          addTrace (fetchEvents W (Registration.authorWallet r)
                    ++ [EvStore (RegFindByIdAndUpdate (Registration._id r))]) s)
    else (Ok tt,
          {| cache := cache s;
             registrations :=
               updateFirst (hasId (Registration._id r)) (bnsUpdate W (clock s) r)
                           (registrations s);
             clock := clock s + 100;
             trace := trace s
                      ++ fetchEvents W (Registration.authorWallet r)
                      ++ [EvStore (RegFindByIdAndUpdate (Registration._id r));
                          EvSleep 100] |}).
Proof.
  unfold BNSValidationService.validateOne, bind at 1.
  destruct (validateRegistration_run (orEmpty (Registration.bnsName r))
              (Registration.authorWallet r) s) as (result & -> & Hst & Hnames).
  unfold bind at 1, dateNow. cbn [clock addTrace].
  unfold bind at 1, regFindByIdAndUpdate, bind at 1, storeOp, bind at 1.
  rewrite emit_run, addTrace_app.
  destruct (storeFails W _); [reflexivity|].
  unfold ret, bind, getRegistrations, putRegistrations, sleep.
  cbn [cache registrations clock trace addTrace].
  f_equal. f_equal.
  - f_equal. unfold bnsUpdate. rewrite <- Hst.
    destruct (BNSValidationService.status result) eqn:E; try reflexivity.
    now rewrite (Hnames eq_refl).
  - now rewrite <- !app_assoc.
Qed.


Lemma bnsUpdate_id now r x : Registration._id (bnsUpdate W now r x) = Registration._id x.
Proof. reflexivity. Qed.

Lemma findById_updateFirst_same i f l :
  (forall x, Registration._id (f x) = Registration._id x) ->
  findById i (updateFirst (hasId i) f l) = option_map f (findById i l).
Proof.
  intros Hf. unfold findById. induction l as [|x l IH]; simpl; [reflexivity|].
  destruct (hasId i x) eqn:E; simpl.
  - unfold hasId in *. rewrite Hf, E. reflexivity.
  - rewrite E. exact IH.
Qed.

Lemma findById_updateFirst_other i j f l :
  i <> j ->
  (forall x, Registration._id (f x) = Registration._id x) ->
  findById i (updateFirst (hasId j) f l) = findById i l.
Proof.
  intros Hij Hf. unfold findById. induction l as [|x l IH]; simpl; [reflexivity|].
  destruct (hasId j x) eqn:E; simpl.
  - unfold hasId in *. rewrite Hf.
    apply bool_decide_eq_true in E.
    rewrite !bool_decide_eq_false_2 by congruence. reflexivity.
  - destruct (hasId i x); [reflexivity | exact IH].
Qed.

Lemma findById_NoDup r l :
  List.NoDup (ids l) -> In r l -> findById (Registration._id r) l = Some r.
Proof.
  unfold findById, ids. induction l as [|x l IH]; simpl; [intros _ []|].
  intros Hnd [-> | Hin].
  - unfold hasId. now rewrite bool_decide_eq_true_2.
  - apply NoDup_cons_iff in Hnd as [Hx Hnd].
    unfold hasId at 1. rewrite bool_decide_eq_false_2; [now apply IH|].
    intros E. apply Hx. rewrite E. now apply in_map.
Qed.

Lemma clockAfter_cons start r l :
  clockAfter W start (r :: l)
  = clockAfter W (if updateSucceeds W r then start + 100 else start) l.
Proof.
  unfold clockAfter. cbn [List.filter].
  destruct (updateSucceeds W r); [|reflexivity].
  cbn [length]. lia.
Qed.

Lemma clockAfter_ge start l : start <= clockAfter W start l.
Proof. unfold clockAfter. lia. Qed.

Lemma clockAfter_app start before r after :
  updateSucceeds W r = true ->
  clockAfter W start before + 100 <= clockAfter W start (before ++ r :: after).
Proof.
  intros Hs. unfold clockAfter.
  rewrite List.filter_app, length_app. cbn [List.filter]. rewrite Hs.
  cbn [length]. lia.
Qed.

Lemma validateEach_spec stale : forall n s,
  List.NoDup (ids stale) ->
  exists s',
    BNSValidationService.validateEach W stale n s
    = (Ok (n + length (List.filter (updateSucceeds W) stale))%nat, s')
    /\ cache s' = cache s
    /\ clock s' = clockAfter W (clock s) stale
    /\ trace s' = trace s ++ concat (map (recordEvents W) stale)
    /\ (forall i, ~ In i (ids stale) ->
        findById i (registrations s') = findById i (registrations s))
    /\ (forall r, In r stale -> updateSucceeds W r = false ->
        findById (Registration._id r) (registrations s')
        = findById (Registration._id r) (registrations s))
    /\ (forall before r after,
        stale = before ++ r :: after -> updateSucceeds W r = true ->
        findById (Registration._id r) (registrations s')
        = option_map (bnsUpdate W (clockAfter W (clock s) before) r)
                     (findById (Registration._id r) (registrations s))).
Proof.
  induction stale as [|r rest IH]; intros n s Hnd.
  - exists s. simpl. rewrite Nat.add_0_r, app_nil_r.
    split; [reflexivity|]. split; [reflexivity|].
    split; [unfold clockAfter; simpl; lia|]. split; [reflexivity|].
    split; [reflexivity|]. split; [intros ? []|].
    intros [|x before] ? ? E; discriminate.
  - apply NoDup_cons_iff in Hnd as [Hr Hnd].
    cbn [BNSValidationService.validateEach].
    unfold bind at 1, tryCatch, bind at 1. rewrite validateOne_run.
    cbn [List.filter map concat]. unfold recordEvents at 1.
    rewrite clockAfter_cons.
    destruct (updateSucceeds W r) eqn:Hs;
      pose proof Hs as Ef; unfold updateSucceeds in Ef;
      [apply negb_true_iff in Ef | apply negb_false_iff in Ef]; rewrite Ef.
    2:{
      (* the update throws: logged, not counted *)
      unfold bind at 1, console. rewrite emit_run, addTrace_app. unfold ret.
      destruct (IH n (addTrace ((fetchEvents W (Registration.authorWallet r)
                                 ++ [EvStore (RegFindByIdAndUpdate (Registration._id r))])
                                ++ [EvConsole Error "Failed to validate registration"]) s)
                  Hnd)
        as (s' & Hrun & Hc & Hk & Ht & Hout & Hfail & Hok).
      exists s'. split; [exact Hrun|].
      split; [exact Hc|]. split; [exact Hk|].
      split.
      { rewrite Ht. cbn [trace addTrace].
        rewrite <- !app_assoc. reflexivity. }
      split.
      { intros i Hi. apply Hout. intros Hin. apply Hi. now right. }
      split.
      { intros x [<- | Hin] Hx.
        - apply Hout. exact Hr.
        - now apply Hfail. }
      { intros [|y before] x after E Hx.
        - injection E as <- _. congruence.
        - injection E as <- E. rewrite clockAfter_cons, Hs.
          now apply (Hok before x after). } }
    { (* the update succeeds *)
      unfold ret.
      set (s1 := {| cache := cache s;
                    registrations :=
                      updateFirst (hasId (Registration._id r))
                                  (bnsUpdate W (clock s) r) (registrations s);
                    clock := clock s + 100;
                    trace := trace s ++ fetchEvents W (Registration.authorWallet r)
                             ++ [EvStore (RegFindByIdAndUpdate (Registration._id r));
                                 EvSleep 100] |}).
      destruct (IH (S n) s1 Hnd)
        as (s' & Hrun & Hc & Hk & Ht & Hout & Hfail & Hok).
      exists s'. split.
      { rewrite Hrun. cbn [length]. do 2 f_equal. lia. }
      split; [exact Hc|].
      split; [exact Hk|].
      split.
      { rewrite Ht. cbn [trace s1].
        rewrite <- !app_assoc. reflexivity. }
      assert (Hother : forall i, i <> Registration._id r ->
                findById i (registrations s1) = findById i (registrations s)).
      { intros i Hi. cbn [registrations s1].
        apply findById_updateFirst_other; [exact Hi | apply bnsUpdate_id]. }
      assert (Hne : forall x, In x rest -> Registration._id x <> Registration._id r).
      { intros x Hin E. apply Hr. rewrite <- E. now apply in_map. }
      split.
      { intros i Hi. rewrite Hout.
        - apply Hother. intros E. apply Hi. left. now symmetry.
        - intros Hin. apply Hi. now right. }
      split.
      { intros x [<- | Hin] Hx.
        - congruence.
        - rewrite (Hfail x Hin Hx). apply Hother. now apply Hne. }
      { intros [|y before] x after E Hx.
        - injection E as <- _.
          replace (clockAfter W (clock s) []) with (clock s)
            by (unfold clockAfter; simpl; lia).
          rewrite (Hout _ Hr). cbn [registrations s1].
          apply findById_updateFirst_same. apply bnsUpdate_id.
        - injection E as <- E. rewrite clockAfter_cons, Hs.
          rewrite (Hok before x after E Hx). f_equal.
          apply Hother, Hne. rewrite E. apply in_or_app. right. now left. } }
Qed.


Lemma ids_injective l a b :
  List.NoDup (ids l) -> In a l -> In b l ->
  Registration._id a = Registration._id b -> a = b.
Proof.
  intros Hnd Ha Hb E.
  pose proof (findById_NoDup a l Hnd Ha) as Fa.
  pose proof (findById_NoDup b l Hnd Hb) as Fb.
  rewrite E in Fa. congruence.
Qed.

Lemma NoDup_ids_filter p l :
  List.NoDup (ids l) -> List.NoDup (ids (List.filter p l)).
Proof.
  unfold ids. induction l as [|x l IH]; simpl; [constructor|].
  intros Hnd. apply NoDup_cons_iff in Hnd as [Hx Hnd].
  destruct (p x); simpl; [|now apply IH].
  constructor; [|now apply IH].
  intros Hin. apply Hx. apply in_map_iff in Hin as (y & Hy & Hin).
  apply in_map_iff. exists y. split; [exact Hy|].
  apply filter_In in Hin. tauto.
Qed.

Lemma In_firstn {A} (x : A) k l : In x (firstn k l) -> In x l.
Proof.
  revert k. induction l as [|y l IH]; intros [|k]; simpl; try tauto.
  intros [-> | Hin]; [now left | right; eauto].
Qed.

Lemma NoDup_ids_firstn k l :
  List.NoDup (ids l) -> List.NoDup (ids (firstn k l)).
Proof.
  unfold ids. revert k. induction l as [|x l IH]; intros [|k] Hnd; simpl;
    try constructor.
  - intros Hin. apply NoDup_cons_iff in Hnd as [Hx _]. apply Hx.
    apply in_map_iff in Hin as (y & Hy & Hin).
    apply in_map_iff. exists y. split; [exact Hy|].
    eapply In_firstn. exact Hin.
  - apply IH. now apply NoDup_cons_iff in Hnd.
Qed.


Lemma selected_NoDup maxAge s :
  List.NoDup (ids (registrations s)) -> List.NoDup (ids (selected maxAge s)).
Proof. intros H. apply NoDup_ids_firstn, NoDup_ids_filter, H. Qed.

Lemma selected_In maxAge s r :
  In r (selected maxAge s) ->
  In r (registrations s)
  /\ BNSValidationService.isStale (clock s - maxAge) r = true.
Proof. intros H. apply In_firstn in H. now apply filter_In in H. Qed.

Lemma isStale_bnsName cutoff r :
  BNSValidationService.isStale cutoff r = true ->
  exists b, Registration.bnsName r = Some b.
Proof.
  unfold BNSValidationService.isStale.
  destruct (Registration.bnsName r) as [b|]; [eauto | discriminate].
Qed.

(** The whole sweep, for a store whose documents have distinct ids. *)
Lemma sweep_spec maxAge s :
  storeFails W RegFind = false ->
  List.NoDup (ids (registrations s)) ->
  exists s',
    BNSValidationService.validateStaleRegistrations W maxAge s
    = (Ok (length (List.filter (updateSucceeds W) (selected maxAge s))), s')
    /\ cache s' = cache s
    /\ clock s' = clockAfter W (clock s) (selected maxAge s)
    /\ trace s' = trace s ++ EvStore RegFind
                              :: concat (map (recordEvents W) (selected maxAge s))
    /\ (forall r, In r (registrations s) ->
        ~ In r (selected maxAge s) \/ updateSucceeds W r = false ->
        findById (Registration._id r) (registrations s') = Some r)
    /\ (forall before r after,
        selected maxAge s = before ++ r :: after -> updateSucceeds W r = true ->
        findById (Registration._id r) (registrations s')
        = Some (bnsUpdate W (clockAfter W (clock s) before) r r)).
Proof.
  intros Hfind Hnd.
  unfold BNSValidationService.validateStaleRegistrations, bind at 1, dateNow.
  unfold bind at 1, BNSValidationService.findStale, bind at 1, storeOp, bind at 1.
  rewrite emit_run, Hfind. unfold ret, bind, getRegistrations.
  cbn [registrations addTrace]. fold (selected maxAge s).
  destruct (validateEach_spec (selected maxAge s) 0%nat
              (addTrace [EvStore RegFind] s) (selected_NoDup maxAge s Hnd))
    as (s' & Hrun & Hc & Hk & Ht & Hout & Hfail & Hok).
  exists s'. split; [exact Hrun|]. split; [exact Hc|].
  split; [exact Hk|].
  split; [rewrite Ht; cbn [trace addTrace]; now rewrite <- app_assoc|].
  cbn [registrations clock addTrace] in *.
  split.
  - intros r Hin [Hns | Hf].
    + rewrite Hout; [now apply findById_NoDup|].
      intros Hi. apply in_map_iff in Hi as (x & Hx & Hxs).
      apply Hns. destruct (selected_In _ _ _ Hxs) as [Hxin _].
      now rewrite <- (ids_injective _ _ _ Hnd Hxin Hin Hx).
    + destruct (in_dec (fun a b : N => N.eq_dec a b) (Registration._id r)
                  (ids (selected maxAge s))) as [Hi | Hi].
      * apply in_map_iff in Hi as (x & Hx & Hxs).
        destruct (selected_In _ _ _ Hxs) as [Hxin _].
        pose proof (ids_injective _ _ _ Hnd Hxin Hin Hx) as ->.
        rewrite (Hfail r Hxs Hf). now apply findById_NoDup.
      * rewrite (Hout _ Hi). now apply findById_NoDup.
  - intros before r after Hsel Hs. rewrite (Hok before r after Hsel Hs).
    assert (Hin : In r (selected maxAge s))
      by (rewrite Hsel; apply in_or_app; right; now left).
    destruct (selected_In _ _ _ Hin) as [Hreg _].
    now rewrite (findById_NoDup r _ Hnd Hreg).
Qed.

End Sweep.

Lemma classify_cases names b :
  (BNSValidationService.includes names b = true /\ classify names b = BnsValid)
  \/ (BNSValidationService.includes names b = false
      /\ (exists first rest, names = first :: rest)
      /\ classify names b = BnsTransferred)
  \/ (names = [] /\ classify names b = BnsNoLongerOwned).
Proof.
  unfold classify.
  destruct (BNSValidationService.includes names b) eqn:E; [now left|right].
  destruct names as [|first rest]; [now right|left].
  split; [reflexivity|]. split; [eauto | reflexivity].
Qed.

Lemma firstNameOrNull_cons first rest :
  BNSValidationService.firstNameOrNull (first :: rest)
  = if bool_decide (first = EmptyString) then None else Some first.
Proof. destruct first; reflexivity. Qed.

Lemma filter_updateSucceeds_available W l :
  storeAvailable W -> List.filter (updateSucceeds W) l = l.
Proof.
  intros Hav. induction l as [|x l IH]; [reflexivity|].
  cbn [List.filter].
  assert (updateSucceeds W x = true) as ->
    by (unfold updateSucceeds; now rewrite Hav).
  now rewrite IH.
Qed.

(** C3 (as the code has it). No per-record failure aborts a sweep. A failed
    name-registry fetch is caught and logged inside [fetchWalletBNSNames] and
    read as an empty name list: the record is still processed, its status
    becomes 'no-longer-owned', [lastBnsValidation] is set to the time of its
    update (the start of the sweep plus the 100 ms waited after each earlier
    record whose update succeeded) and it counts as validated. A failed
    store update is caught by the per-record handler, logged and skipped:
    the record is unchanged and not counted. The sweep returns the number
    of selected records whose update succeeded; under a total registry
    outage with a working store that is every selected record. *)
Theorem C3_sweep_failure_semantics (W : World) (maxAge : Z) (s : State) :
  storeFails W RegFind = false ->
  List.NoDup (ids (registrations s)) ->
  exists n s',
    BNSValidationService.validateStaleRegistrations W maxAge s = (Ok n, s')
    /\ n = length (List.filter (updateSucceeds W) (selected maxAge s))
    /\ clock s' = clockAfter W (clock s) (selected maxAge s)
    /\ trace s' = trace s ++ EvStore RegFind
                              :: concat (map (recordEvents W) (selected maxAge s))
    /\ (forall r, In r (selected maxAge s) -> updateSucceeds W r = false ->
        findById (Registration._id r) (registrations s') = Some r
        /\ In (EvConsole Error "Failed to validate registration") (recordEvents W r))
    /\ (forall before r after,
        selected maxAge s = before ++ r :: after -> updateSucceeds W r = true ->
        (namesOf W (Registration.authorWallet r) = NamesThrows
         \/ exists code, namesOf W (Registration.authorWallet r) = NamesNotOk code) ->
        exists r',
          findById (Registration._id r) (registrations s') = Some r'
          /\ Registration.bnsStatus r' = Some BnsNoLongerOwned
          /\ Registration.lastBnsValidation r' = Some (clockAfter W (clock s) before)
          /\ clock s <= clockAfter W (clock s) before
          /\ clockAfter W (clock s) before + 100 <= clock s'
          /\ Registration.currentBnsOwner r' = Registration.currentBnsOwner r
          /\ Registration.bnsTransferredAt r' = Registration.bnsTransferredAt r
          /\ (exists lvl msg, In (EvConsole lvl msg) (recordEvents W r)))
    /\ ((forall w, namesOf W w = NamesThrows) -> storeAvailable W ->
        n = length (selected maxAge s)).
Proof.
  intros Hfind Hnd.
  destruct (sweep_spec W maxAge s Hfind Hnd)
    as (s' & Hrun & _ & Hk & Ht & Hkeep & Hok).
  eexists _, s'. split; [exact Hrun|]. split; [reflexivity|].
  split; [exact Hk|]. split; [exact Ht|]. split; [|split].
  - intros r Hsel Hf. split.
    + apply Hkeep; [apply (selected_In _ _ _ Hsel) | now right].
    + unfold recordEvents. rewrite Hf. apply in_or_app. right. right. now left.
  - intros before r after Hsel Hs Hdown.
    eexists. split; [exact (Hok before r after Hsel Hs)|].
    assert (Hn : namesSeen W (Registration.authorWallet r) = []).
    { unfold namesSeen. destruct Hdown as [-> | [code ->]]; reflexivity. }
    unfold bnsUpdate. rewrite Hn.
    split; [reflexivity|]. split; [reflexivity|].
    split; [apply clockAfter_ge|].
    split; [rewrite Hk, Hsel; now apply clockAfter_app|].
    split; [reflexivity|]. split; [reflexivity|].
    unfold recordEvents, fetchEvents.
    destruct Hdown as [-> | [code ->]]; eexists _, _;
      apply in_or_app; left; right; left; reflexivity.
  - intros _ Hav. now rewrite filter_updateSucceeds_available.
Qed.

(** Three stale records, the registry down, the store rejecting the update
    of the second: the sweep goes on after the failure and returns 2; the
    second record is as it was, the third is marked 'no-longer-owned' and
    stamped 100 ms after the start, the wait that followed the first. *)
Lemma C3_witness :
  exists n s' third,
    BNSValidationService.validateStaleRegistrations worldRegistryDownStoreFlaky
      BNSValidationService.defaultMaxAge batchState = (Ok n, s')
    /\ n = 2%nat
    /\ findById 2 (registrations s') = nth_error threeRecords 1
    /\ findById 3 (registrations s') = Some third
    /\ Registration.bnsStatus third = Some BnsNoLongerOwned
    /\ Registration.lastBnsValidation third = Some 1718000000223.
Proof.
  destruct (C3_sweep_failure_semantics worldRegistryDownStoreFlaky
              BNSValidationService.defaultMaxAge batchState)
    as (n & s' & Hrun & Hn & _ & _ & Hfail & Hdown & _).
  - reflexivity.
  - vm_compute. repeat constructor; intros H; repeat destruct H as [H|H];
      try discriminate H; exact H.
  - destruct (Hfail (namedRecord 2
                       "2c26b46b68ffc68ff99b453c1d30413413422d706483bfa0f98a5e886266e7ae"
                       "SP2J6ZY48GV1EZ5V2V5RB9MP66SW86PYKKNRV9EJ7" "bob.btc"))
      as [Hsecond _].
    + right. left. reflexivity.
    + reflexivity.
    + destruct (Hdown
                  [ namedRecord 1 sampleHex
                      "SP1S7KX8TVSAWJ8CVJZQSFERBQ8BNCDXYFHXT21Z9" "alice.btc";
                    namedRecord 2
                      "2c26b46b68ffc68ff99b453c1d30413413422d706483bfa0f98a5e886266e7ae"
                      "SP2J6ZY48GV1EZ5V2V5RB9MP66SW86PYKKNRV9EJ7" "bob.btc" ]
                  (namedRecord 3
                     "fcde2b2edba56bf408601fb721fe9b5c338d10ee429ea04fae5511b68fbf8fb9"
                     "SP3FBR2AGK5H9QBDH3EEN6DF8EK8JY7RX8QJ5SVTE" "carol.btc")
                  [])
        as (third & Hthird & Hstatus & Hstamp & _).
      * reflexivity.
      * reflexivity.
      * left. reflexivity.
      * exists n, s', third. split; [exact Hrun|].
        split; [rewrite Hn; reflexivity|].
        split; [exact Hsecond|]. split; [exact Hthird|].
        split; [exact Hstatus | exact Hstamp].
Defined.

(** Under a registry outage the sweep validates the stale record and turns
    its status from 'valid' into 'no-longer-owned'. *)
Lemma C3_counterexample :
  exists s',
    BNSValidationService.validateStaleRegistrations worldRegistryDown
      BNSValidationService.defaultMaxAge (sweepState freshRecord) = (Ok 1%nat, s')
    /\ namesOf worldRegistryDown "SP1S7KX8TVSAWJ8CVJZQSFERBQ8BNCDXYFHXT21Z9"
       = NamesThrows
    /\ bnsStatuses (sweepState freshRecord) = [Some BnsValid]
    /\ bnsStatuses s' = [Some BnsNoLongerOwned].
Proof.
  eexists. split; [vm_compute; reflexivity|].
  split; [reflexivity|]. split; reflexivity.
Qed.

(** C9 (as the code has it). For each record a sweep selects and whose store
    update succeeds, with [names] the list fetched for its wallet: if [names]
    contains the bound name the status becomes 'valid'; if [names] is
    non-empty without it the status becomes 'transferred',
    [bnsTransferredAt] is stamped, and [currentBnsOwner] becomes the first
    name in upper case (the schema option of that path), or null when that
    name is the empty string; if [names] is empty the status becomes
    'no-longer-owned'; outside the 'transferred' case the owner and the
    transfer time stay as they were. [lastBnsValidation] is set in every
    case, to the time of the record's update. *)
Theorem C9_sweep_classifies_by_current_names
    (W : World) (maxAge : Z) (s : State)
    (before after : list Registration.t) (r : Registration.t) :
  storeFails W RegFind = false ->
  List.NoDup (ids (registrations s)) ->
  selected maxAge s = before ++ r :: after ->
  updateSucceeds W r = true ->
  exists n s' r' b,
    BNSValidationService.validateStaleRegistrations W maxAge s = (Ok n, s')
    /\ findById (Registration._id r) (registrations s') = Some r'
    /\ Registration.bnsName r = Some b
    /\ (let t := clockAfter W (clock s) before in
        let names := namesSeen W (Registration.authorWallet r) in
        clock s <= t
        /\ t + 100 <= clock s'
        /\ Registration.lastBnsValidation r' = Some t
        /\ (BNSValidationService.includes names b = true ->
            Registration.bnsStatus r' = Some BnsValid
            /\ Registration.bnsTransferredAt r' = Registration.bnsTransferredAt r
            /\ Registration.currentBnsOwner r' = Registration.currentBnsOwner r)
        /\ (BNSValidationService.includes names b = false ->
            forall first rest, names = first :: rest ->
            Registration.bnsStatus r' = Some BnsTransferred
            /\ Registration.bnsTransferredAt r' = Some t
            /\ Registration.currentBnsOwner r'
               = if bool_decide (first = EmptyString) then None
                 else Some (toUpperCase first))
        /\ (names = [] ->
            Registration.bnsStatus r' = Some BnsNoLongerOwned
            /\ Registration.bnsTransferredAt r' = Registration.bnsTransferredAt r
            /\ Registration.currentBnsOwner r' = Registration.currentBnsOwner r)).
Proof.
  intros Hfind Hnd Hsel Hs.
  destruct (sweep_spec W maxAge s Hfind Hnd) as (s' & Hrun & _ & Hk & _ & _ & Hok).
  assert (Hin : In r (selected maxAge s))
    by (rewrite Hsel; apply in_or_app; right; now left).
  destruct (selected_In _ _ _ Hin) as [_ Hstale].
  destruct (isStale_bnsName _ _ Hstale) as [b Hb].
  eexists _, s', _, b. split; [exact Hrun|].
  split; [exact (Hok before r after Hsel Hs)|].
  split; [exact Hb|]. cbv zeta.
  split; [apply clockAfter_ge|].
  split; [rewrite Hk, Hsel; now apply clockAfter_app|].
  split; [reflexivity|].
  unfold bnsUpdate. rewrite Hb.
  change (orEmpty (Some b)) with b.
  set (names := namesSeen W (Registration.authorWallet r)).
  destruct (classify_cases names b)
    as [[Hi ->] | [(Hi & (f & l & Hfl) & ->) | [Hn ->]]];
    cbn [Registration.setBnsValidation Registration.bnsStatus
         Registration.bnsTransferredAt Registration.currentBnsOwner].
  - split; [intros _; repeat split|]. split; [congruence|].
    intros Hn. rewrite Hn in Hi. discriminate.
  - split; [congruence|]. split.
    + intros _ first rest Hn. rewrite Hn, firstNameOrNull_cons.
      split; [reflexivity|]. split; [reflexivity|].
      now destruct (bool_decide (first = EmptyString)).
    + intros Hn. congruence.
  - split; [|split; [|intros _; repeat split]].
    + rewrite Hn. discriminate.
    + intros _ first rest Hx. congruence.
Qed.

Lemma C9_witness :
  exists n s' r',
    BNSValidationService.validateStaleRegistrations
      (worldOwning ["bob.btc"; "carol.btc"])
      BNSValidationService.defaultMaxAge (sweepState freshRecord) = (Ok n, s')
    /\ findById 1 (registrations s') = Some r'
    /\ Registration.lastBnsValidation r' = Some 1718000000123
    /\ Registration.bnsStatus r' = Some BnsTransferred
    /\ Registration.bnsTransferredAt r' = Some 1718000000123
    /\ Registration.currentBnsOwner r' = Some "BOB.BTC".
Proof.
  destruct (C9_sweep_classifies_by_current_names
              (worldOwning ["bob.btc"; "carol.btc"])
              BNSValidationService.defaultMaxAge (sweepState freshRecord)
              [] [] freshRecord)
    as (n & s' & r' & b & Hrun & Hf & Hb & H).
  - reflexivity.
  - repeat constructor. intros [].
  - reflexivity.
  - reflexivity.
  - cbv zeta in H. destruct H as (_ & _ & Hlast & _ & Htr & _).
    injection Hb as <-.
    destruct (Htr eq_refl "bob.btc" ["carol.btc"] eq_refl) as (H1 & H2 & H3).
    exists n, s', r'. split; [exact Hrun|]. split; [exact Hf|].
    split; [exact Hlast|]. split; [exact H1|]. split; [exact H2 | exact H3].
Defined.

(** A wallet that now holds bob.btc instead of alice.btc: the record is
    marked 'transferred' and the owner recorded is BOB.BTC, not the first
    currently-owned name bob.btc as the registry lists it. *)
Lemma C9_counterexample :
  exists s' r',
    BNSValidationService.validateStaleRegistrations (worldOwning ["bob.btc"])
      BNSValidationService.defaultMaxAge (sweepState freshRecord) = (Ok 1%nat, s')
    /\ namesSeen (worldOwning ["bob.btc"])
         (Registration.authorWallet freshRecord) = ["bob.btc"]
    /\ findById 1 (registrations s') = Some r'
    /\ Registration.bnsStatus r' = Some BnsTransferred
    /\ Registration.currentBnsOwner r' = Some "BOB.BTC"
    /\ Registration.currentBnsOwner r' <> Some "bob.btc".
Proof.
  eexists _, _. split; [vm_compute; reflexivity|].
  split; [reflexivity|]. split; [reflexivity|].
  split; [reflexivity|]. split; [reflexivity | discriminate].
Qed.

(* ===================================================================== *)
(** ** Who writes the binding status *)
(* ===================================================================== *)

Create HintDb keeps.

Section KeepsBns.

Variable W : World.
Variable config : ContractConfig.

Lemma keepsBns_ret {A} (a : A) : keepsBns (ret a).
Proof. intros s. reflexivity. Qed.

Lemma keepsBns_throw {A} e : keepsBns (@throw A e).
Proof. intros s. reflexivity. Qed.

Lemma keepsBns_lift {A} (o : Outcome A) : keepsBns (lift o).
Proof. intros s. reflexivity. Qed.

Lemma keepsBns_bind {A B} (m : M A) (k : A -> M B) :
  keepsBns m -> (forall a, keepsBns (k a)) -> keepsBns (bind m k).
Proof.
  intros Hm Hk s. unfold bind. specialize (Hm s).
  destruct (m s) as [[a|e] s1]; simpl in *; [|exact Hm].
  now rewrite Hk.
Qed.

Lemma keepsBns_tryCatch {A} (m : M A) (h : JsError -> M A) :
  keepsBns m -> (forall e, keepsBns (h e)) -> keepsBns (tryCatch m h).
Proof.
  intros Hm Hh s. unfold tryCatch. specialize (Hm s).
  destruct (m s) as [[a|e] s1]; simpl in *; [exact Hm|].
  now rewrite Hh.
Qed.

Lemma keepsBns_traced {A} (m : M A) :
  (forall s, exists a evs, m s = (a, addTrace evs s)) -> keepsBns m.
Proof. intros H s. destruct (H s) as (a & evs & ->). reflexivity. Qed.

Lemma keepsBns_emit e : keepsBns (emit e).
Proof. intros s. reflexivity. Qed.

Lemma keepsBns_dateNow : keepsBns dateNow.
Proof. intros s. reflexivity. Qed.

Lemma keepsBns_sleep ms : keepsBns (sleep ms).
Proof. intros s. reflexivity. Qed.

Lemma keepsBns_getCache : keepsBns getCache.
Proof. intros s. reflexivity. Qed.

Lemma keepsBns_putCache c : keepsBns (putCache c).
Proof. intros s. reflexivity. Qed.

Lemma keepsBns_getRegistrations : keepsBns getRegistrations.
Proof. intros s. reflexivity. Qed.

Hint Resolve keepsBns_ret keepsBns_throw keepsBns_lift keepsBns_emit
  keepsBns_dateNow keepsBns_sleep keepsBns_getCache keepsBns_putCache
  keepsBns_getRegistrations : keeps.

Ltac keeps :=
  repeat first
    [ solve [auto with keeps]
    | apply keepsBns_bind; [|intros ?]
    | apply keepsBns_tryCatch; [|intros ?]
    | match goal with
      | |- keepsBns (match ?x with _ => _ end) => destruct x
      | |- keepsBns (if ?x then _ else _) => destruct x
      end ].

Lemma keepsBns_console lvl msg : keepsBns (console lvl msg).
Proof. unfold console. keeps. Qed.
Hint Resolve keepsBns_console : keeps.

Lemma keepsBns_storeOp op : keepsBns (storeOp W op).
Proof. unfold storeOp. keeps. Qed.
Hint Resolve keepsBns_storeOp : keeps.

Lemma keepsBns_cacheFindOne h : keepsBns (cacheFindOne W h).
Proof. unfold cacheFindOne. keeps. Qed.

Lemma keepsBns_cacheDeleteOne h : keepsBns (cacheDeleteOne W h).
Proof. unfold cacheDeleteOne. keeps. Qed.

Lemma keepsBns_cacheFindOneAndUpdate h res e a :
  keepsBns (cacheFindOneAndUpdate W h res e a).
Proof. unfold cacheFindOneAndUpdate. keeps. Qed.

Lemma keepsBns_regFindOne h : keepsBns (regFindOne W h).
Proof. unfold regFindOne. keeps. Qed.

Lemma bnsStatus_updateFirst p f l :
  (forall x, Registration.bnsStatus (f x) = Registration.bnsStatus x) ->
  map Registration.bnsStatus (updateFirst p f l) = map Registration.bnsStatus l.
Proof.
  intros Hf. induction l as [|x l IH]; simpl; [reflexivity|].
  destruct (p x); simpl; [now rewrite Hf | now rewrite IH].
Qed.

Lemma keepsBns_putRegistrations p f :
  (forall x, Registration.bnsStatus (f x) = Registration.bnsStatus x) ->
  keepsBns (let! l := getRegistrations in putRegistrations (updateFirst p f l)).
Proof. intros Hf s. unfold bnsStatuses. simpl. now apply bnsStatus_updateFirst. Qed.

Lemma keepsBns_regFindOneAndUpdate h now :
  keepsBns (regFindOneAndUpdate W h (Registration.recordVerification now)).
Proof.
  unfold regFindOneAndUpdate. apply keepsBns_bind; [auto with keeps|intros _].
  now apply keepsBns_putRegistrations.
Qed.

Lemma keepsBns_regFindByIdAndUpdate id now :
  keepsBns (regFindByIdAndUpdate W id (Registration.recordVerification now)).
Proof.
  unfold regFindByIdAndUpdate. apply keepsBns_bind; [auto with keeps|intros _].
  now apply keepsBns_putRegistrations.
Qed.

Lemma keepsBns_gatewayVerifyTweet contentHash :
  keepsBns (BlockchainService.verifyTweet W config contentHash).
Proof. apply keepsBns_traced. intros s. rewrite verifyTweet_run. eauto. Qed.

Lemma keepsBns_hashExists contentHash :
  keepsBns (BlockchainService.hashExists W config contentHash).
Proof.
  apply keepsBns_traced. intros s. unfold BlockchainService.hashExists.
  rewrite hashExistsOnContract_run. eauto.
Qed.

Hint Resolve keepsBns_cacheFindOne keepsBns_cacheDeleteOne
  keepsBns_cacheFindOneAndUpdate keepsBns_regFindOne
  keepsBns_regFindOneAndUpdate keepsBns_regFindByIdAndUpdate
  keepsBns_gatewayVerifyTweet keepsBns_hashExists : keeps.

Lemma keepsBns_verifyTweet req :
  keepsBns (VerificationController.verifyTweet W config req).
Proof.
  unfold VerificationController.verifyTweet, VerificationController.resolve,
    VerificationController.cacheStep, VerificationController.storeHit,
    VerificationController.chainStep.
  keeps.
Qed.

Lemma keepsBns_quickVerify h :
  keepsBns (VerificationController.quickVerify W config h).
Proof. unfold VerificationController.quickVerify. keeps. Qed.

Lemma keepsBns_fetchWalletBNSNames walletAddress :
  keepsBns (BNSValidationService.fetchWalletBNSNames W walletAddress).
Proof. unfold BNSValidationService.fetchWalletBNSNames. keeps. Qed.
Hint Resolve keepsBns_fetchWalletBNSNames : keeps.

Lemma keepsBns_validateRegistration originalBNS walletAddress :
  keepsBns (BNSValidationService.validateRegistration W originalBNS walletAddress).
Proof. unfold BNSValidationService.validateRegistration. keeps. Qed.
Hint Resolve keepsBns_validateRegistration : keeps.

Lemma keepsBns_findNamedByWallet wallet :
  keepsBns (BnsEndpoints.findNamedByWallet W wallet).
Proof. unfold BnsEndpoints.findNamedByWallet. keeps. Qed.
Hint Resolve keepsBns_findNamedByWallet : keeps.

Lemma keepsBns_countStatuses regs : forall v t n,
  keepsBns (BnsEndpoints.countStatuses W regs v t n).
Proof.
  induction regs as [|r rest IH]; intros v t n; cbn [BnsEndpoints.countStatuses];
    [auto with keeps|].
  apply keepsBns_bind; [auto with keeps|]. intros result.
  destruct (BNSValidationService.status result); apply IH.
Qed.
Hint Resolve keepsBns_countStatuses : keeps.

Lemma keepsBns_validateBNS walletAddress :
  keepsBns (BnsEndpoints.validateBNS W walletAddress).
Proof.
  unfold BnsEndpoints.validateBNS.
  apply keepsBns_tryCatch; [|intros e; keeps].
  destruct walletAddress as [|[|a w]|[|]]; try solve [auto with keeps].
  apply keepsBns_bind; [auto with keeps|]. intros [|r l]; [auto with keeps|].
  apply keepsBns_bind; [auto with keeps|]. intros [[v t] n]. auto with keeps.
Qed.

Lemma keepsBns_getBNSValidationStatus walletAddress :
  keepsBns (BnsEndpoints.getBNSValidationStatus W walletAddress).
Proof. unfold BnsEndpoints.getBNSValidationStatus. keeps. Qed.

Lemma keepsBns_getValidationStatus contentHash :
  keepsBns (BNSValidationStatus.getValidationStatus W contentHash).
Proof.
  unfold BNSValidationStatus.getValidationStatus,
    BNSValidationStatus.regFindOneByHash.
  keeps.
Qed.

Lemma keepsBns_batchVerify items :
  keepsBns (VerificationController.batchVerify W config items).
Proof.
  apply keepsBns_traced. intros s.
  unfold VerificationController.batchVerify, tryCatch.
  destruct items as [[|i l]|]; try (eexists _, []; now rewrite addTrace_nil).
  destruct (10 <? length (i :: l))%nat;
    [eexists _, []; now rewrite addTrace_nil|].
  unfold bind.
  destruct (items_split (i :: l))
    as [Hwf | (good & bad & rest & e & -> & Hgood & Hbad)].
  - rewrite processItems_run by exact Hwf. eauto.
  - rewrite (processItems_throw W config good bad rest e) by assumption.
    unfold console. rewrite emit_run, addTrace_app. eauto.
Qed.

End KeepsBns.

Lemma applyUpdate_bnsStatus now u r :
  Registration.byValidator u = false ->
  Registration.bnsStatus (Registration.applyUpdate now u r) = Registration.bnsStatus r.
Proof. destruct u; intros H; try discriminate H; reflexivity. Qed.

(** C4 (as the code has it). [bnsStatus] starts 'valid' at creation and is
    changed only via the Validator: of the updates the repository issues
    against a stored Registration (the analytics updates of the
    verification and content endpoints, the chain confirmation, the four
    document methods, the sweep's update) none but the sweep's touches it,
    and the verification endpoints and the endpoints that report on BNS
    validation leave the status of every stored record as it was. A sweep
    sets the status of each record it processes to the
    classification of the wallet's current name list whatever the previous
    status was, so a record that had left 'valid' is 'valid' again after a
    sweep that finds the bound name in the list; records the sweep does not
    process keep their status. *)
Theorem C4_status_follows_current_ownership :
  (forall id hashHex wallet bns url handle stored now,
      Registration.bnsStatus
        (Registration.create id hashHex wallet bns url handle stored now)
      = Some BnsValid)
  /\ (forall u now r,
         Registration.bnsStatus (Registration.applyUpdate now u r)
         <> Registration.bnsStatus r ->
         exists st transfer, u = Registration.BnsValidation st transfer)
  /\ (forall u now (p : Registration.t -> bool) l,
         Registration.byValidator u = false ->
         map Registration.bnsStatus (updateFirst p (Registration.applyUpdate now u) l)
         = map Registration.bnsStatus l)
  /\ (forall W config req s,
         bnsStatuses (snd (VerificationController.verifyTweet W config req s))
         = bnsStatuses s)
  /\ (forall W config hashParam s,
         bnsStatuses (snd (VerificationController.quickVerify W config hashParam s))
         = bnsStatuses s)
  /\ (forall W config items s,
         bnsStatuses (snd (VerificationController.batchVerify W config items s))
         = bnsStatuses s)
  /\ (forall W walletAddress s,
         bnsStatuses (snd (BnsEndpoints.validateBNS W walletAddress s))
         = bnsStatuses s)
  /\ (forall W walletAddress s,
         bnsStatuses (snd (BnsEndpoints.getBNSValidationStatus W walletAddress s))
         = bnsStatuses s)
  /\ (forall W contentHash s,
         bnsStatuses (snd (BNSValidationStatus.getValidationStatus W contentHash s))
         = bnsStatuses s)
  /\ (forall W maxAge s,
         storeFails W RegFind = false ->
         List.NoDup (ids (registrations s)) ->
         exists n s',
           BNSValidationService.validateStaleRegistrations W maxAge s = (Ok n, s')
           /\ (forall r b,
                  In r (selected maxAge s) -> updateSucceeds W r = true ->
                  Registration.bnsName r = Some b ->
                  exists r',
                    findById (Registration._id r) (registrations s') = Some r'
                    /\ Registration.bnsStatus r'
                       = Some (classify (namesSeen W (Registration.authorWallet r)) b)
                    /\ (BNSValidationService.includes
                          (namesSeen W (Registration.authorWallet r)) b = true ->
                        Registration.bnsStatus r' = Some BnsValid))
           /\ (forall r,
                  In r (registrations s) ->
                  ~ In r (selected maxAge s) \/ updateSucceeds W r = false ->
                  findById (Registration._id r) (registrations s') = Some r)).
Proof.
  split; [reflexivity|].
  split.
  { intros u now r Hne. destruct u; try (exfalso; apply Hne; reflexivity). eauto. }
  split.
  { intros u now p l Hu. apply bnsStatus_updateFirst.
    intros x. now apply applyUpdate_bnsStatus. }
  split; [intros; apply keepsBns_verifyTweet|].
  split; [intros; apply keepsBns_quickVerify|].
  split; [intros; apply keepsBns_batchVerify|].
  split; [intros; apply keepsBns_validateBNS|].
  split; [intros; apply keepsBns_getBNSValidationStatus|].
  split; [intros; apply keepsBns_getValidationStatus|].
  intros W maxAge s Hfind Hnd.
  destruct (sweep_spec W maxAge s Hfind Hnd)
    as (s' & Hrun & _ & _ & _ & Hkeep & Hok).
  eexists _, s'. split; [exact Hrun|]. split; [|exact Hkeep].
  intros r b Hsel Hs Hb.
  destruct (in_split _ _ Hsel) as (before & after & Hsplit).
  eexists. split; [exact (Hok before r after Hsplit Hs)|].
  unfold bnsUpdate. rewrite Hb. change (orEmpty (Some b)) with b.
  cbn [Registration.setBnsValidation Registration.bnsStatus].
  split; [reflexivity|].
  intros Hi. unfold classify. now rewrite Hi.
Qed.

Lemma C4_witness :
  exists n s' r',
    BNSValidationService.validateStaleRegistrations (worldOwning ["alice.btc"])
      BNSValidationService.defaultMaxAge (sweepState transferredRecord) = (Ok n, s')
    /\ findById 1 (registrations s') = Some r'
    /\ Registration.bnsStatus r' = Some BnsValid.
Proof.
  destruct C4_status_follows_current_ownership
    as (_ & _ & _ & _ & _ & _ & _ & _ & _ & H).
  destruct (H (worldOwning ["alice.btc"]) BNSValidationService.defaultMaxAge
              (sweepState transferredRecord))
    as (n & s' & Hrun & Hproc & _).
  - reflexivity.
  - repeat constructor. intros [].
  - destruct (Hproc transferredRecord "alice.btc")
      as (r' & Hf & _ & Hv).
    + left. reflexivity.
    + reflexivity.
    + reflexivity.
    + exists n, s', r'. split; [exact Hrun|]. split; [exact Hf|].
      apply Hv. reflexivity.
Defined.

(** A record marked 'transferred' whose wallet owns the bound name again is
    set back to 'valid' by the next sweep. *)
Lemma C4_counterexample :
  exists s',
    BNSValidationService.validateStaleRegistrations (worldOwning ["alice.btc"])
      BNSValidationService.defaultMaxAge (sweepState transferredRecord) = (Ok 1%nat, s')
    /\ bnsStatuses (sweepState transferredRecord) = [Some BnsTransferred]
    /\ bnsStatuses s' = [Some BnsValid].
Proof.
  eexists. split; [vm_compute; reflexivity|]. split; reflexivity.
Qed.

(* ===================================================================== *)
(** ** Digests: shape, hexadecimal round trip, whitespace layout *)
(* ===================================================================== *)

Section Digests.

Import HashService.

Lemma round_length st kw : length (SHA256.round st kw) = length st.
Proof.
  unfold SHA256.round.
  destruct st as [|a [|b [|c [|d [|e [|f [|g [|h [|i r]]]]]]]]]; reflexivity.
Qed.

Lemma fold_round_length l : forall st,
  length (fold_left SHA256.round l st) = length st.
Proof.
  induction l as [|kw l IH]; intros st; simpl; [reflexivity|].
  now rewrite IH, round_length.
Qed.

Lemma compress_length h blk : length (SHA256.compress h blk) = length h.
Proof.
  unfold SHA256.compress.
  rewrite length_map, length_combine, fold_round_length. apply Nat.min_id.
Qed.

Lemma blocks_length n : forall h b, length (SHA256.blocks n h b) = length h.
Proof.
  induction n as [|n IH]; intros h b; simpl; [reflexivity|].
  now rewrite IH, compress_length.
Qed.

Lemma bigEndian_length n x : length (SHA256.bigEndian n x) = n.
Proof. induction n as [|n IH]; simpl; [reflexivity | now rewrite IH]. Qed.

Lemma bigEndian_octets n x : Forall octet (SHA256.bigEndian n x).
Proof.
  induction n as [|n IH]; simpl; constructor; [|exact IH].
  unfold octet. change 255 with (Z.ones 8). rewrite Z.land_ones by lia.
  apply Z.mod_pos_bound. lia.
Qed.

Lemma digest_length msg : length (SHA256.digest msg) = 32%nat.
Proof.
  unfold SHA256.digest.
  set (p := SHA256.pad msg).
  assert (H : length (SHA256.blocks (length p / 64) SHA256.H0 p) = 8%nat)
    by now rewrite blocks_length.
  revert H. generalize (SHA256.blocks (length p / 64) SHA256.H0 p).
  intros l Hl.
  do 9 (destruct l as [|? l]; try discriminate).
  reflexivity.
Qed.

Lemma digest_octets msg : Forall octet (SHA256.digest msg).
Proof.
  unfold SHA256.digest. apply Forall_flat_map.
  apply Forall_forall. intros x _. apply bigEndian_octets.
Qed.

Lemma toHex_length b : String.length (toHex b) = (2 * length b)%nat.
Proof. induction b as [|x b IH]; simpl; [reflexivity | rewrite IH; lia]. Qed.

Lemma hexValue_hexDigit n : 0 <= n < 16 -> hexValue (hexDigit n) = Some n.
Proof.
  intros H. rewrite <- (Z2Nat.id n) by lia.
  assert (Hk : (Z.to_nat n < 16)%nat) by lia. revert Hk.
  generalize (Z.to_nat n) as k. intros k Hk.
  do 16 (destruct k as [|k]; [reflexivity|]). lia.
Qed.

Lemma fromHex_toHex b : Forall octet b -> fromHex (toHex b) = b.
Proof.
  induction 1 as [|x b Hx Hb IH]; simpl; [reflexivity|].
  unfold octet in Hx.
  rewrite !hexValue_hexDigit.
  - rewrite IH. f_equal. symmetry. apply Z.div_mod. lia.
  - apply Z.mod_pos_bound. lia.
  - split; [apply Z.div_pos; lia | apply Z.div_lt_upper_bound; lia].
Qed.

Lemma hexDigit_not_x n : 0 <= n < 16 -> hexDigit n <> "x"%char.
Proof.
  intros H. rewrite <- (Z2Nat.id n) by lia.
  assert (Hk : (Z.to_nat n < 16)%nat) by lia. revert Hk.
  generalize (Z.to_nat n) as k. intros k Hk.
  do 16 (destruct k as [|k]; [discriminate|]). lia.
Qed.

Lemma startsWith0x_inv s :
  startsWith0x s = true -> exists r, s = String "0" (String "x" r).
Proof.
  destruct s as [|a [|b r]]; try discriminate.
  - destruct a as [[] [] [] [] [] [] [] []]; discriminate.
  - destruct a as [[] [] [] [] [] [] [] []]; try discriminate.
    destruct b as [[] [] [] [] [] [] [] []]; try discriminate. eauto.
Qed.

Lemma startsWith0x_toHex b : startsWith0x (toHex b) = false.
Proof.
  destruct (startsWith0x (toHex b)) eqn:E; [|reflexivity].
  apply startsWith0x_inv in E as [r E].
  destruct b as [|x b]; [discriminate|]. simpl in E.
  injection E as _ E _.
  exfalso. apply (hexDigit_not_x (x mod 16)); [|exact E].
  apply Z.mod_pos_bound. lia.
Qed.

Lemma hexToBuffer_toHex b : Forall octet b -> hexToBuffer (toHex b) = b.
Proof.
  intros H. unfold hexToBuffer. rewrite startsWith0x_toHex. now apply fromHex_toHex.
Qed.

Lemma hexToBuffer_prefixed s : hexToBuffer ("0x" +:+ s) = fromHex s.
Proof. reflexivity. Qed.

Lemma hexToBuffer_digestHex content :
  hexToBuffer (generateContentHashHex content) = generateContentHash content.
Proof. apply hexToBuffer_toHex, digest_octets. Qed.

Lemma digestHex_nonempty content :
  exists a r, generateContentHashHex content = String a r.
Proof.
  unfold generateContentHashHex, generateContentHash.
  pose proof (digest_length (utf8Encode (cleanContent content))) as L.
  destruct (SHA256.digest _) as [|x l]; [discriminate|].
  simpl. eauto.
Qed.

(** *** Whitespace layout *)

Lemma joinWords_gap s : forall gap gap',
  joinWords false gap s = joinWords false gap' s.
Proof.
  induction s as [|c r IH]; intros gap gap'; simpl; [reflexivity|].
  destruct (isWhiteSpace c); [apply IH | reflexivity].
Qed.

Lemma joinWords_trimStart s : joinWords false false (trimStart s) = joinWords false false s.
Proof.
  induction s as [|c r IH]; simpl; [reflexivity|].
  destruct (isWhiteSpace c) eqn:E.
  - rewrite IH. apply joinWords_gap.
  - simpl. now rewrite E.
Qed.

Lemma joinWords_blank tail : forall started gap,
  Forall (fun c => isWhiteSpace c = true) tail -> joinWords started gap tail = [].
Proof.
  induction tail as [|c r IH]; intros started gap H; simpl; [reflexivity|].
  inversion H as [|? ? Hc Hr]; subst. rewrite Hc. now apply IH.
Qed.

Lemma joinWords_tail s tail : forall started gap,
  Forall (fun c => isWhiteSpace c = true) tail ->
  joinWords started gap (s ++ tail) = joinWords started gap s.
Proof.
  induction s as [|c r IH]; intros started gap H; simpl.
  - now apply joinWords_blank.
  - destruct (isWhiteSpace c); [now apply IH|].
    destruct (started && gap); now rewrite IH.
Qed.

Lemma trimStart_split s :
  exists lead, Forall (fun c => isWhiteSpace c = true) lead /\ s = lead ++ trimStart s.
Proof.
  induction s as [|c r (lead & Hl & E)]; simpl.
  - exists []. split; [constructor | reflexivity].
  - destruct (isWhiteSpace c) eqn:Ec.
    + exists (c :: lead). split; [now constructor|]. simpl. now rewrite <- E.
    + exists []. split; [constructor | reflexivity].
Qed.

Lemma trimEnd_split s :
  exists tail, Forall (fun c => isWhiteSpace c = true) tail /\ s = trimEnd s ++ tail.
Proof.
  destruct (trimStart_split (rev s)) as (lead & Hl & E).
  exists (rev lead). split.
  - now apply Forall_rev.
  - unfold trimEnd. rewrite <- rev_app_distr, <- E. now rewrite rev_involutive.
Qed.

Lemma joinWords_trim s : joinWords false false (trim s) = joinWords false false s.
Proof.
  unfold trim.
  destruct (trimEnd_split (trimStart s)) as (tail & Ht & E).
  rewrite <- (joinWords_trimStart s). rewrite E at 2.
  now rewrite joinWords_tail.
Qed.

Lemma endsInWord_snoc s c : endsInWord (s ++ [c]) = negb (isWhiteSpace c).
Proof.
  induction s as [|d r IH]; [reflexivity|].
  change ((d :: r) ++ [c]) with (d :: (r ++ [c])). cbn [endsInWord].
  destruct (r ++ [c]) eqn:E; [now destruct r | exact IH].
Qed.

Lemma edgeFree_endsInWord s : edgeFree s -> endsInWord s = true.
Proof.
  intros [_ H].
  destruct (trimStart_fixed_inv (rev s) H) as [E | (c & r & E & Hc)].
  - apply (f_equal (@rev Z)) in E. rewrite rev_involutive in E. now subst s.
  - apply (f_equal (@rev Z)) in E. rewrite rev_involutive in E. simpl in E.
    subst s. rewrite endsInWord_snoc. now rewrite Hc.
Qed.

(** On a string that does not end in whitespace the regular-expression pass
    and the one-pass reading agree, once a word has been emitted. *)
Lemma replaceRuns_joinWords s :
  endsInWord s = true ->
  replaceRuns false s = joinWords true false s
  /\ (s <> [] -> 0x20 :: replaceRuns true s = joinWords true true s).
Proof.
  induction s as [|c r IH]; intros He; [split; [reflexivity | congruence]|].
  assert (Hr : endsInWord r = true) by (destruct r; [reflexivity | exact He]).
  destruct (IH Hr) as [I1 I2].
  cbn [replaceRuns joinWords].
  destruct (isWhiteSpace c) eqn:Ec.
  - assert (Hne : r <> []).
    { intros ->. simpl in He. rewrite Ec in He. discriminate. }
    split; [now apply I2 | intros _; now apply I2].
  - simpl. split; [now rewrite I1 | intros _; now rewrite I1].
Qed.

Lemma cleanContent_joinWords s : cleanContent s = joinWords false false s.
Proof.
  rewrite <- joinWords_trim. unfold cleanContent.
  pose proof (trim_edgeFree s) as Hedge.
  pose proof (edgeFree_endsInWord _ Hedge) as He.
  destruct Hedge as [Hs _].
  destruct (trimStart_fixed_inv _ Hs) as [-> | (c & r & E & Hc)]; [reflexivity|].
  rewrite E in He |- *.
  assert (Hr : endsInWord r = true) by (destruct r; [reflexivity | exact He]).
  cbn [replaceRuns joinWords]. rewrite Hc. simpl.
  f_equal. now apply replaceRuns_joinWords.
Qed.

Lemma joinWords_kind a w w' b : forall started gap,
  isWhiteSpace w = true -> isWhiteSpace w' = true ->
  joinWords started gap (a ++ w :: b) = joinWords started gap (a ++ w' :: b).
Proof.
  induction a as [|c r IH]; intros started gap Hw Hw'; simpl.
  - now rewrite Hw, Hw'.
  - destruct (isWhiteSpace c); [now apply IH|].
    destruct (started && gap); now rewrite (IH true false Hw Hw').
Qed.

Lemma joinWords_run a w w' b : forall started gap,
  isWhiteSpace w = true -> isWhiteSpace w' = true ->
  joinWords started gap (a ++ w :: w' :: b) = joinWords started gap (a ++ w :: b).
Proof.
  induction a as [|c r IH]; intros started gap Hw Hw'; simpl.
  - now rewrite Hw, Hw'.
  - destruct (isWhiteSpace c); [now apply IH|].
    destruct (started && gap); now rewrite (IH true false Hw Hw').
Qed.

End Digests.

(** X1. Whatever the content, the digest has 32 octets, each in [0, 255],
    and its hexadecimal form has 64 characters. *)
Theorem generateContentHash_shape (content : JsString) :
  length (HashService.generateContentHash content) = 32%nat
  /\ Forall octet (HashService.generateContentHash content)
  /\ String.length (HashService.generateContentHashHex content) = 64%nat.
Proof.
  unfold HashService.generateContentHashHex, HashService.generateContentHash.
  split; [apply digest_length|]. split; [apply digest_octets|].
  now rewrite toHex_length, digest_length.
Qed.

(** X2. [hexToBuffer] inverts [generateContentHashHex], with or without
    the 0x prefix, and [validateContentHash] accepts the buffer so decoded
    for the same content. *)
Theorem hexToBuffer_inverts_digestHex (content : JsString) :
  HashService.hexToBuffer (HashService.generateContentHashHex content)
  = HashService.generateContentHash content
  /\ HashService.hexToBuffer ("0x" +:+ HashService.generateContentHashHex content)
     = HashService.generateContentHash content
  /\ HashService.validateContentHash content
       (HashService.hexToBuffer (HashService.generateContentHashHex content))
     = true.
Proof.
  split; [apply hexToBuffer_digestHex|]. split.
  - rewrite hexToBuffer_prefixed. apply fromHex_toHex, digest_octets.
  - rewrite hexToBuffer_digestHex.
    unfold HashService.validateContentHash, HashService.bufferEquals.
    now apply bool_decide_eq_true_2.
Qed.

(** X3. The digest does not depend on the whitespace layout of the content:
    leading and trailing whitespace, the kind of a whitespace character and
    the length of a whitespace run are all irrelevant, and content made of
    whitespace only hashes like the empty string. *)
Theorem generateContentHash_whitespace_layout (w w' : Z) (a b : JsString) :
  HashService.isWhiteSpace w = true ->
  HashService.isWhiteSpace w' = true ->
  HashService.generateContentHash (w :: a) = HashService.generateContentHash a
  /\ HashService.generateContentHash (a ++ [w]) = HashService.generateContentHash a
  /\ HashService.generateContentHash (a ++ w :: b)
     = HashService.generateContentHash (a ++ w' :: b)
  /\ HashService.generateContentHash (a ++ w :: w' :: b)
     = HashService.generateContentHash (a ++ w :: b)
  /\ HashService.generateContentHash [w; w'] = HashService.generateContentHash [].
Proof.
  intros Hw Hw'. unfold HashService.generateContentHash.
  rewrite !cleanContent_joinWords.
  split; [|split; [|split; [|split]]]; do 2 f_equal.
  - simpl. rewrite Hw. apply joinWords_gap.
  - apply joinWords_tail. now repeat constructor.
  - now apply joinWords_kind.
  - now apply joinWords_run.
  - simpl. now rewrite Hw, Hw'.
Qed.

Lemma generateContentHash_whitespace_layout_witness :
  HashService.generateContentHash (9 :: units "a b")
  = HashService.generateContentHash (units "a b")
  /\ HashService.generateContentHash (units "a" ++ 9 :: units "b")
     = HashService.generateContentHash (units "a" ++ 32 :: units "b")
  /\ HashService.generateContentHash (units "a" ++ 9 :: 32 :: units "b")
     = HashService.generateContentHash (units "a" ++ 9 :: units "b").
Proof.
  destruct (generateContentHash_whitespace_layout 9 32 (units "a b") [] eq_refl eq_refl)
    as (H1 & _).
  destruct (generateContentHash_whitespace_layout 9 32 (units "a") (units "b")
              eq_refl eq_refl) as (_ & _ & H3 & H4 & _).
  split; [exact H1|]. split; [exact H3 | exact H4].
Defined.

(* ===================================================================== *)
(** ** The resolver as a function of the state *)
(* ===================================================================== *)

Section ResolverRuns.

Variable W : World.
Variable config : ContractConfig.
Hypothesis available : storeAvailable W.

Lemma regFindOneAndUpdate_run h f s :
  regFindOneAndUpdate W h f s
  = (Ok tt,
     {| cache := cache s;
        registrations := updateFirst (hasHash h) f (registrations s);
        clock := clock s;
        trace := trace s ++ [EvStore (RegFindOneAndUpdate h)] |}).
Proof.
  unfold regFindOneAndUpdate, bind at 1. rewrite storeOp_run by exact available.
  reflexivity.
Qed.

Lemma cacheStep_served h res s :
  servable (cache s) h (clock s) = Some res ->
  VerificationController.cacheStep W h s
  = (match optionalIso (VerificationCache.registrationDate res) with
     | Ok iso => Ok (Some (verifiedResponse "Content verified (cached)"
                             (cachedData h res iso)))
     | Thrown e => Thrown e
     end,
     {| cache := cache s;
        registrations :=
          updateFirst (hasHash h) (Registration.recordVerification (clock s))
                      (registrations s);
        clock := clock s;
        trace := trace s ++ [EvStore (CacheFindOne h);
                             EvStore (RegFindOneAndUpdate h)] |}).
Proof.
  unfold servable, positiveResult. intros Hs.
  unfold VerificationController.cacheStep, bind at 1.
  rewrite cacheFindOne_run by exact available.
  destruct (liveEntry (cache s) h (clock s)) as [e|]; [|discriminate].
  cbv beta iota.
  destruct (VerificationCache.result e) as [res'|]; [|discriminate].
  destruct (VerificationCache.isRegistered res') as [[|]|] eqn:Ei; try discriminate.
  injection Hs as ->.
  unfold bind at 1, dateNow. unfold bind at 1.
  rewrite regFindOneAndUpdate_run.
  unfold optionalIso.
  destruct (VerificationCache.registrationDate res) as [[|ms]|];
    unfold bind, lift, ret, addTrace; cbn; rewrite <- ?app_assoc; reflexivity.
Qed.

Lemma cacheStep_unserved h s :
  servable (cache s) h (clock s) = None ->
  VerificationController.cacheStep W h s
  = (Ok None,
     {| cache := afterMiss h (clock s) (cache s);
        registrations := registrations s;
        clock := clock s;
        trace := trace s ++ missEvents h (clock s) (cache s) |}).
Proof.
  unfold servable, positiveResult, afterMiss, missEvents, corrupted. intros Hs.
  unfold VerificationController.cacheStep, bind at 1.
  rewrite cacheFindOne_run by exact available.
  destruct (liveEntry (cache s) h (clock s)) as [e|];
    [|unfold ret, addTrace; cbn; reflexivity].
  cbv beta iota.
  destruct (VerificationCache.result e) as [res|].
  - destruct (VerificationCache.isRegistered res) as [[|]|]; [discriminate| |].
    + unfold bind at 1. rewrite cacheDeleteOne_run by exact available.
      unfold ret, addTrace; cbn. now rewrite <- app_assoc.
    + unfold bind at 1, console. rewrite emit_run.
      unfold bind at 1. rewrite cacheDeleteOne_run by exact available.
      unfold ret, addTrace; cbn. now rewrite <- !app_assoc.
  - unfold bind at 1, console. rewrite emit_run.
    unfold bind at 1. rewrite cacheDeleteOne_run by exact available.
    unfold ret, addTrace; cbn. now rewrite <- !app_assoc.
Qed.

Lemma storeHit_run h r s :
  VerificationController.storeHit W h r s
  = (Ok (verifiedResponse "Content verified successfully" (storeData h r)),
     {| cache := upserted h (storeResult r (clock s)) (clock s) (cache s);
        registrations :=
          updateFirst (hasId (Registration._id r))
                      (Registration.recordVerification (clock s)) (registrations s);
        clock := clock s;
        trace := trace s ++ [EvStore (CacheFindOneAndUpdate h);
                             EvStore (RegFindByIdAndUpdate (Registration._id r))] |}).
Proof.
  unfold VerificationController.storeHit, bind at 1, dateNow.
  unfold bind at 1. rewrite cacheFindOneAndUpdate_run by exact available.
  unfold bind at 1. rewrite regFindByIdAndUpdate_run by exact available.
  unfold ret; cbn. now rewrite <- app_assoc.
Qed.

Lemma chainStep_run h b s :
  VerificationController.chainStep W config h b s
  = (match onChain W config b (clock s) with
     | Some v =>
         match toISOString (chainDate v) with
         | Ok iso => Ok (verifiedResponse "Content verified successfully"
                           (chainData h v iso))
         | Thrown e => Thrown e
         end
     | None => Ok notFoundResponse
     end,
     {| cache := upserted h
                   (match onChain W config b (clock s) with
                    | Some v => chainResult v
                    | None => VerificationCache.negative
                    end) (clock s) (cache s);
        registrations := registrations s;
        clock := clock s;
        trace := trace s ++ verifyAcrossEvents W config (versions config) b
                 ++ [EvStore (CacheFindOneAndUpdate h)] |}).
Proof.
  unfold VerificationController.chainStep, bind at 1.
  rewrite verifyTweet_run. unfold onChain.
  destruct (verifyAcross W config (versions config) b (clock s)) as [v|].
  - unfold bind at 1, dateNow. unfold bind at 1.
    rewrite cacheFindOneAndUpdate_run by exact available.
    unfold chainDate.
    destruct (toISOString _) as [iso|e];
      unfold bind, lift, ret, addTrace; cbn; now rewrite <- app_assoc.
  - unfold bind at 1, dateNow. unfold bind at 1.
    rewrite cacheFindOneAndUpdate_run by exact available.
    unfold ret, addTrace; cbn. now rewrite <- app_assoc.
Qed.

Lemma resolve_run h b s :
  VerificationController.resolve W config h b s
  = (resolveAnswer W config h b s, resolveState W config h b s).
Proof.
  unfold VerificationController.resolve, resolveAnswer, resolveState.
  unfold bind at 1.
  destruct (servable (cache s) h (clock s)) as [res|] eqn:Es.
  - rewrite (cacheStep_served h res s Es).
    destruct (optionalIso _); reflexivity.
  - rewrite (cacheStep_unserved h s Es).
    unfold bind at 1. rewrite regFindOne_run by exact available.
    cbn [registrations addTrace]. fold (storedRecord h (registrations s)).
    destruct (storedRecord h (registrations s)) as [r|].
    + rewrite storeHit_run. cbn. now rewrite <- !app_assoc.
    + rewrite chainStep_run. cbn. now rewrite <- !app_assoc.
Qed.

Lemma requestTarget_hash req :
  requestHash req = option_map fst (requestTarget req).
Proof.
  unfold requestHash, requestTarget.
  destruct (truthyUnits _); [reflexivity|]. now destruct (truthyText _).
Qed.

(** POST /verify for a request that designates a digest. *)
Lemma verifyTweet_handler_run req h b s :
  requestTarget req = Some (h, b) ->
  VerificationController.verifyTweet W config req s
  = match resolveAnswer W config h b s with
    | Ok response => (Ok response, resolveState W config h b s)
    | Thrown e =>
        (Ok (failureResponse e),
         addTrace [EvConsole Error "Error verifying tweet:"]
                  (resolveState W config h b s))
    end.
Proof.
  unfold requestTarget, VerificationController.verifyTweet, tryCatch. intros Ht.
  destruct (truthyUnits _) as [c|].
  - injection Ht as <- <-. rewrite resolve_run.
    destruct (resolveAnswer _ _ _ _ _); reflexivity.
  - destruct (truthyText _) as [g|]; [|discriminate].
    injection Ht as <- <-. rewrite resolve_run.
    destruct (resolveAnswer _ _ _ _ _); reflexivity.
Qed.

End ResolverRuns.

(* ===================================================================== *)
(** ** POST /verify: what the cache, the store and the ledger contribute *)
(* ===================================================================== *)



Lemma existenceChecks_missEvents h now c : existenceChecks (missEvents h now c) = [].
Proof.
  unfold missEvents. cbn [existenceChecks].
  destruct (liveEntry c h now) as [e|]; [|reflexivity].
  now destruct (corrupted e).
Qed.

Lemma probedUntilHit_none hit vs :
  (forall v, In v vs -> hit v = false) -> probedUntilHit hit vs = vs.
Proof.
  induction vs as [|v r IH]; intros H; cbn [probedUntilHit]; [reflexivity|].
  rewrite (H v) by now left. f_equal. apply IH. intros x Hx. apply H. now right.
Qed.

Lemma verifyAcross_None W config vs b now :
  verifyAcross W config vs b now = None
  <-> forall c, In c vs -> reportsExistence W config c b = false.
Proof.
  split.
  - intros Hn c Hc. destruct (reportsExistence W config c b) eqn:E; [|reflexivity].
    assert (Hs : is_Some (verifyAcross W config vs b now))
      by (apply verifyAcross_is_Some; eauto).
    rewrite Hn in Hs. now destruct Hs.
  - intros H. destruct (verifyAcross W config vs b now) as [v|] eqn:E; [|reflexivity].
    assert (Hs : is_Some (verifyAcross W config vs b now)) by (rewrite E; eauto).
    apply verifyAcross_is_Some in Hs as (c & Hc & Hr).
    rewrite (H c Hc) in Hr. discriminate.
Qed.


Lemma truthyText_digestHex content :
  truthyText (Some (HashService.generateContentHashHex content))
  = Some (HashService.generateContentHashHex content).
Proof. destruct (digestHex_nonempty content) as (a & r & ->). reflexivity. Qed.

(** X4. Verifying by content is verifying by that content's hexadecimal
    digest: POST /verify with [tweetContent] and with [hash] set to
    [generateContentHashHex tweetContent] give the same response and leave
    the same state, and so do the two forms of a batch item, whatever
    the first form carries as [hash]. *)
Theorem verify_by_content_is_verify_by_digest
    (W : World) (config : ContractConfig) (content : JsString)
    (ignored : option string) (anything : Field string) (s : State) :
  content <> [] ->
  VerificationController.verifyTweet W config
    {| VerificationController.tweetContent := Some content;
       VerificationController.hash := ignored |} s
  = VerificationController.verifyTweet W config
      {| VerificationController.tweetContent := None;
         VerificationController.hash :=
           Some (HashService.generateContentHashHex content) |} s
  /\ VerificationController.processItem W config
       (VerificationController.Batch.ItemOf (Text content) anything) s
     = VerificationController.processItem W config
         (VerificationController.Batch.ItemOf Absent
            (Text (HashService.generateContentHashHex content))) s.
Proof.
  intros Hne. destruct content as [|c r]; [congruence|].
  unfold VerificationController.verifyTweet, VerificationController.processItem.
  cbn [VerificationController.tweetContent VerificationController.hash truthyUnits].
  rewrite truthyText_digestHex.
  pose proof (hexToBuffer_digestHex (c :: r)) as Hb.
  split; [now rewrite Hb|].
  destruct (HashService.generateContentHashHex (c :: r)) as [|a t] eqn:E.
  - destruct (digestHex_nonempty (c :: r)) as (a & t & E'). congruence.
  - now rewrite Hb.
Qed.

Lemma verify_by_content_is_verify_by_digest_witness :
  VerificationController.verifyTweet worldV1Only mainnetConfig
    {| VerificationController.tweetContent := Some tweetSpaced;
       VerificationController.hash := None |} maskedState
  = VerificationController.verifyTweet worldV1Only mainnetConfig
      {| VerificationController.tweetContent := None;
         VerificationController.hash :=
           Some (HashService.generateContentHashHex tweetSpaced) |} maskedState.
Proof.
  apply (verify_by_content_is_verify_by_digest worldV1Only mainnetConfig
           tweetSpaced None Absent maskedState).
  discriminate.
Defined.






(** X7. A [verified: false] answer at 200 is never taken from the cache:
    it means that, in this very request, the cache had nothing to serve,
    the store held no confirmed or pending record for the digest, every
    contract version of the configuration was asked in order and none
    reported the hash. The negative result is then cached for one hour. *)
Theorem not_found_answer_is_fresh
    (W : World) (config : ContractConfig)
    (req : VerificationController.VerifyTweetRequest) (s s' : State)
    (response : HttpResponse VerificationController.VerifyTweetResponse) :
  storeAvailable W ->
  VerificationController.verifyTweet W config req s = (Ok response, s') ->
  statusCode response = 200 ->
  VerificationController.verified (body response) = false ->
  exists h b evs,
    requestTarget req = Some (h, b)
    /\ response = notFoundResponse
    /\ servable (cache s) h (clock s) = None
    /\ storedRecord h (registrations s) = None
    /\ (forall c, In c (versions config) -> reportsExistence W config c b = false)
    /\ trace s' = trace s ++ evs
    /\ existenceChecks evs = versions config
    /\ (exists e, cache s' !! h = Some e
                  /\ VerificationCache.result e = Some VerificationCache.negative
                  /\ VerificationCache.expiresAt e = clock s + 3600000).
Proof.
  intros Hav Hrun Hcode Hver.
  destruct (requestTarget req) as [[h b]|] eqn:Ht.
  2:{ unfold requestTarget in Ht.
      unfold VerificationController.verifyTweet, tryCatch in Hrun.
      destruct (truthyUnits _); [discriminate|].
      destruct (truthyText _); [discriminate|].
      injection Hrun as <- <-. discriminate. }
  rewrite (verifyTweet_handler_run W config Hav req h b s Ht) in Hrun.
  unfold resolveAnswer, resolveState in Hrun.
  destruct (servable (cache s) h (clock s)) as [res|] eqn:Es.
  { destruct (optionalIso _); injection Hrun as <- <-; discriminate. }
  destruct (storedRecord h (registrations s)) as [r|] eqn:Er.
  { injection Hrun as <- <-. discriminate. }
  destruct (onChain W config b (clock s)) as [v|] eqn:Ec.
  { destruct (toISOString _); injection Hrun as <- <-; discriminate. }
  injection Hrun as <- <-.
  unfold onChain in Ec.
  pose proof (proj1 (verifyAcross_None W config _ b _) Ec) as Hnone.
  exists h, b, (missEvents h (clock s) (cache s)
                ++ EvStore (RegFindOne h)
                :: verifyAcrossEvents W config (versions config) b
                ++ [EvStore (CacheFindOneAndUpdate h)]).
  split; [reflexivity|]. split; [reflexivity|].
  split; [exact Es|]. split; [exact Er|]. split; [exact Hnone|].
  split; [reflexivity|]. split.
  - rewrite existenceChecks_app, existenceChecks_missEvents.
    cbn [existenceChecks app]. rewrite existenceChecks_app.
    rewrite existenceChecks_verifyAcross. cbn [existenceChecks].
    rewrite app_nil_r. now apply probedUntilHit_none.
  - cbn [cache]. unfold upserted. rewrite lookup_insert_eq.
    eexists. split; [reflexivity|]. split; reflexivity.
Qed.

Lemma not_found_answer_is_fresh_witness :
  exists h b evs s',
    requestTarget {| VerificationController.tweetContent := Some tweetPlain;
                     VerificationController.hash := None |} = Some (h, b)
    /\ snd (VerificationController.verifyTweet worldLedgerDown mainnetConfig
              {| VerificationController.tweetContent := Some tweetPlain;
                 VerificationController.hash := None |} (emptyState 1718000000123))
       = s'
    /\ trace s' = evs
    /\ existenceChecks evs = versions mainnetConfig.
Proof.
  destruct (VerificationController.verifyTweet worldLedgerDown mainnetConfig
              {| VerificationController.tweetContent := Some tweetPlain;
                 VerificationController.hash := None |} (emptyState 1718000000123))
    as [out s'] eqn:Hrun.
  assert (Hout : out = Ok notFoundResponse).
  { assert (E : out = fst (VerificationController.verifyTweet worldLedgerDown
                             mainnetConfig
                             {| VerificationController.tweetContent := Some tweetPlain;
                                VerificationController.hash := None |}
                             (emptyState 1718000000123))) by now rewrite Hrun.
    rewrite E. vm_compute. reflexivity. }
  subst out.
  destruct (not_found_answer_is_fresh worldLedgerDown mainnetConfig
              {| VerificationController.tweetContent := Some tweetPlain;
                 VerificationController.hash := None |}
              (emptyState 1718000000123) s' notFoundResponse)
    as (h & b & evs & Ht & _ & _ & _ & _ & Htr & Hex & _).
  - intros op. reflexivity.
  - exact Hrun.
  - reflexivity.
  - reflexivity.
  - exists h, b, evs, s'. split; [exact Ht|]. split; [reflexivity|].
    split; [exact Htr | exact Hex].
Defined.



(* ===================================================================== *)
(** ** Frames *)
(* ===================================================================== *)

Section Within.

Context (R : State -> State -> Prop) `{!Frame R}.

Lemma within_ret {A} (a : A) : within R (ret a).
Proof. intros s. apply frame_refl. Qed.

Lemma within_throw {A} e : within R (@throw A e).
Proof. intros s. apply frame_refl. Qed.





Lemma within_emit e : within R (emit e).
Proof. intros s. apply frame_emit. Qed.


Lemma within_bind {A B} (m : M A) (k : A -> M B) :
  within R m -> (forall a, within R (k a)) -> within R (bind m k).
Proof.
  intros Hm Hk s. unfold bind. specialize (Hm s).
  destruct (m s) as [[a|e] s1]; cbn [snd] in *; [|exact Hm].
  eapply frame_trans; [exact Hm | apply Hk].
Qed.


Lemma within_storeOp W op : within R (storeOp W op).
Proof.
  unfold storeOp. apply within_bind; [apply within_emit|].
  intros _. destruct (storeFails W op); [apply within_throw | apply within_ret].
Qed.

Lemma within_traced {A} (m : M A) :
  (forall s, exists a evs, m s = (a, addTrace evs s)) -> within R m.
Proof.
  intros H s. destruct (H s) as (a & evs & ->). cbn [snd].
  induction evs as [|e evs IH] using rev_ind.
  - rewrite addTrace_nil. apply frame_refl.
  - rewrite <- addTrace_app. eapply frame_trans; [exact IH|]. apply frame_emit.
Qed.

End Within.

(** Applies a lemma of [within], finding the [Frame] instance. *)
Ltac frame_apply lem := apply lem; try exact _.


#[local] Instance verifyFrame_Frame h : Frame (verifyFrame h).
Proof.
  split.
  - intros s. split; [reflexivity|]. split; [reflexivity|]. split; [reflexivity|].
    exists []. now rewrite app_nil_r.
  - intros a b c (R1 & K1 & C1 & e1 & T1) (R2 & K2 & C2 & e2 & T2).
    split; [congruence|]. split; [congruence|]. split.
    + intros k Hk. rewrite C2, C1 by exact Hk. reflexivity.
    + exists (e1 ++ e2). rewrite T2, T1. now rewrite app_assoc.
  - intros s e. split; [reflexivity|]. split; [reflexivity|]. split; [reflexivity|].
    now exists [e].
Qed.

#[local] Instance sweepFrame_Frame : Frame sweepFrame.
Proof.
  split.
  - intros s. split; [reflexivity|]. split; [reflexivity|]. split; [lia|].
    exists []. now rewrite app_nil_r.
  - intros a b c (R1 & C1 & K1 & e1 & T1) (R2 & C2 & K2 & e2 & T2).
    split; [congruence|]. split; [congruence|]. split; [lia|].
    exists (e1 ++ e2). rewrite T2, T1. now rewrite app_assoc.
  - intros s e. split; [reflexivity|]. split; [reflexivity|]. split; [cbn; lia|].
    now exists [e].
Qed.

Lemma map_updateFirst {K} (key : Registration.t -> K) p f l :
  (forall x, key (f x) = key x) ->
  map key (updateFirst p f l) = map key l.
Proof.
  intros Hf. induction l as [|x l IH]; simpl; [reflexivity|].
  destruct (p x); simpl; [now rewrite Hf | now rewrite IH].
Qed.

Create HintDb frames.

Section VerifyFrame.

Variable W : World.
Variable config : ContractConfig.
Variable h : string.

Lemma verifyFrame_putCache f :
  (forall c k, k <> h -> f c !! k = c !! k) ->
  within (verifyFrame (Some h)) (let! c := getCache in putCache (f c)).
Proof.
  intros Hf s. cbn.
  split; [reflexivity|]. split; [reflexivity|]. split.
  - intros k Hk. apply Hf. congruence.
  - exists []. now rewrite app_nil_r.
Qed.

Lemma verifyFrame_cacheDeleteOne : within (verifyFrame (Some h)) (cacheDeleteOne W h).
Proof.
  unfold cacheDeleteOne. frame_apply @within_bind; [frame_apply @within_storeOp|intros _].
  apply (verifyFrame_putCache (delete h)).
  intros c k Hk. now apply lookup_delete_ne.
Qed.

Lemma verifyFrame_cacheFindOneAndUpdate res e a :
  within (verifyFrame (Some h)) (cacheFindOneAndUpdate W h res e a).
Proof.
  unfold cacheFindOneAndUpdate. frame_apply @within_bind; [frame_apply @within_storeOp|intros _].
  apply (verifyFrame_putCache
           (fun c => <[h := {| VerificationCache.result := Some res;
                               VerificationCache.expiresAt := e;
                               VerificationCache.hits :=
                                 match c !! h with
                                 | Some d => VerificationCache.hits d
                                 | None => 0
                                 end + 1;
                               VerificationCache.lastAccessed := a |}]> c)).
  intros c k Hk. now apply lookup_insert_ne.
Qed.

Lemma verifyFrame_putRegistrations p now :
  within (verifyFrame (Some h))
    (let! l := getRegistrations in
     putRegistrations (updateFirst p (Registration.recordVerification now) l)).
Proof.
  intros s. cbn. split; [|split; [reflexivity|split; [reflexivity|]]].
  - now apply map_updateFirst.
  - exists []. now rewrite app_nil_r.
Qed.

Lemma verifyFrame_regFindOneAndUpdate k now :
  within (verifyFrame (Some h))
    (regFindOneAndUpdate W k (Registration.recordVerification now)).
Proof.
  unfold regFindOneAndUpdate. frame_apply @within_bind; [frame_apply @within_storeOp|intros _].
  apply verifyFrame_putRegistrations.
Qed.

Lemma verifyFrame_regFindByIdAndUpdate i now :
  within (verifyFrame (Some h))
    (regFindByIdAndUpdate W i (Registration.recordVerification now)).
Proof.
  unfold regFindByIdAndUpdate. frame_apply @within_bind; [frame_apply @within_storeOp|intros _].
  apply verifyFrame_putRegistrations.
Qed.

Lemma verifyFrame_gateway b :
  within (verifyFrame (Some h)) (BlockchainService.verifyTweet W config b).
Proof. frame_apply @within_traced. intros s. rewrite verifyTweet_run. eauto. Qed.

Hint Resolve verifyFrame_cacheDeleteOne verifyFrame_cacheFindOneAndUpdate
  verifyFrame_regFindOneAndUpdate verifyFrame_regFindByIdAndUpdate
  verifyFrame_gateway : frames.


End VerifyFrame.



(* ===================================================================== *)
(** ** The sweep: frame and accounting *)
(* ===================================================================== *)

Section SweepFrame.

Variable W : World.






Lemma validateEach_accounting stale : forall n s,
  exists s',
    BNSValidationService.validateEach W stale n s
    = (Ok (n + length (List.filter (updateSucceeds W) stale))%nat, s')
    /\ clock s'
       = clock s + 100 * Z.of_nat (length (List.filter (updateSucceeds W) stale))
    /\ trace s' = trace s ++ concat (map (recordEvents W) stale).
Proof.
  induction stale as [|r rest IH]; intros n s.
  - exists s. simpl. rewrite Nat.add_0_r, app_nil_r. repeat split. lia.
  - cbn [BNSValidationService.validateEach].
    unfold bind at 1, tryCatch, bind at 1. rewrite validateOne_run.
    cbn [List.filter map concat]. unfold recordEvents at 1.
    destruct (updateSucceeds W r) eqn:Hs;
      pose proof Hs as Ef; unfold updateSucceeds in Ef;
      [apply negb_true_iff in Ef | apply negb_false_iff in Ef]; rewrite Ef.
    + unfold ret.
      match goal with
      | |- context [BNSValidationService.validateEach W rest (S n) ?s1] =>
          destruct (IH (S n) s1) as (s' & Hrun & Hk & Ht)
      end.
      exists s'. split; [rewrite Hrun; cbn [length]; do 2 f_equal; lia|].
      cbn [clock trace length] in *. split; [lia|].
      rewrite Ht, <- !app_assoc. reflexivity.
    + unfold bind at 1, console. rewrite emit_run, addTrace_app. unfold ret.
      match goal with
      | |- context [BNSValidationService.validateEach W rest n ?s1] =>
          destruct (IH n s1) as (s' & Hrun & Hk & Ht)
      end.
      exists s'. split; [exact Hrun|].
      cbn [clock trace addTrace] in *. split; [exact Hk|].
      rewrite Ht, <- !app_assoc. reflexivity.
Qed.

Lemma sweep_query_failure maxAge s :
  storeFails W RegFind = true ->
  BNSValidationService.validateStaleRegistrations W maxAge s
  = (Thrown (StoreError RegFind), addTrace [EvStore RegFind] s).
Proof.
  intros Hf.
  unfold BNSValidationService.validateStaleRegistrations,
    BNSValidationService.findStale.
  mrun. now rewrite Hf.
Qed.

Lemma sweep_accounting maxAge s :
  storeFails W RegFind = false ->
  exists s',
    BNSValidationService.validateStaleRegistrations W maxAge s
    = (Ok (length (List.filter (updateSucceeds W) (selected maxAge s))), s')
    /\ clock s'
       = clock s + 100 * Z.of_nat (length (List.filter (updateSucceeds W)
                                                       (selected maxAge s)))
    /\ trace s' = trace s ++ EvStore RegFind
                              :: concat (map (recordEvents W) (selected maxAge s)).
Proof.
  intros Hfind.
  unfold BNSValidationService.validateStaleRegistrations, bind at 1, dateNow.
  unfold bind at 1, BNSValidationService.findStale, bind at 1, storeOp, bind at 1.
  rewrite emit_run, Hfind. unfold ret, bind, getRegistrations.
  cbn [registrations addTrace]. fold (selected maxAge s).
  destruct (validateEach_accounting (selected maxAge s) 0%nat
              (addTrace [EvStore RegFind] s)) as (s' & Hrun & Hk & Ht).
  exists s'. split; [exact Hrun|]. split; [exact Hk|].
  rewrite Ht. cbn [trace addTrace]. now rewrite <- app_assoc.
Qed.

End SweepFrame.

Lemma nameLookups_app e1 e2 :
  nameLookups (e1 ++ e2) = nameLookups e1 ++ nameLookups e2.
Proof. unfold nameLookups. apply flat_map_app. Qed.

Lemma nameLookups_fetchEvents W w : nameLookups (fetchEvents W w) = [w].
Proof. unfold fetchEvents. now destruct (namesOf W w). Qed.

Lemma nameLookups_recordEvents W r :
  nameLookups (recordEvents W r) = [Registration.authorWallet r].
Proof.
  unfold recordEvents. rewrite nameLookups_app, nameLookups_fetchEvents.
  now destruct (updateSucceeds W r).
Qed.

Lemma nameLookups_records W l :
  nameLookups (concat (map (recordEvents W) l)) = map Registration.authorWallet l.
Proof.
  induction l as [|r l IH]; [reflexivity|].
  cbn [map concat]. now rewrite nameLookups_app, nameLookups_recordEvents, IH.
Qed.

Lemma filter_length_le {A} (p : A -> bool) l :
  (length (List.filter p l) <= length l)%nat.
Proof.
  induction l as [|x l IH]; simpl; [lia|]. destruct (p x); simpl; lia.
Qed.


(** X11. Sweep accounting. Once its query has succeeded a sweep cannot
    throw. It selects at most 100 records, asks the registry exactly once
    per selected record, in selection order, and pauses 100 ms after each
    successful update and only then: the clock advances by 100 ms times
    the returned count, which never exceeds the number of selected records
    and equals it when the store is available. *)
Theorem sweep_accounting_and_pacing (W : World) (maxAge : Z) (s : State) :
  storeFails W RegFind = false ->
  exists n s' evs,
    BNSValidationService.validateStaleRegistrations W maxAge s = (Ok n, s')
    /\ (n <= length (selected maxAge s))%nat
    /\ (length (selected maxAge s) <= 100)%nat
    /\ clock s' = clock s + 100 * Z.of_nat n
    /\ trace s' = trace s ++ evs
    /\ nameLookups evs = map Registration.authorWallet (selected maxAge s)
    /\ (storeAvailable W -> n = length (selected maxAge s)).
Proof.
  intros Hfind.
  destruct (sweep_accounting W maxAge s Hfind) as (s' & Hrun & Hk & Ht).
  eexists _, s', _. split; [exact Hrun|].
  split; [apply filter_length_le|].
  split; [unfold selected; rewrite length_firstn; lia|].
  split; [exact Hk|]. split; [exact Ht|]. split.
  - change (EvStore RegFind :: ?l) with ([EvStore RegFind] ++ l).
    rewrite nameLookups_app. apply nameLookups_records.
  - intros Hav. now rewrite filter_updateSucceeds_available.
Qed.

Lemma sweep_accounting_and_pacing_witness :
  exists n s',
    BNSValidationService.validateStaleRegistrations
      (worldOwning ["alice.btc"]) BNSValidationService.defaultMaxAge
      (sweepState freshRecord) = (Ok n, s')
    /\ clock s' = clock (sweepState freshRecord) + 100 * Z.of_nat n
    /\ n = 1%nat.
Proof.
  destruct (sweep_accounting_and_pacing (worldOwning ["alice.btc"])
              BNSValidationService.defaultMaxAge (sweepState freshRecord))
    as (n & s' & evs & Hrun & _ & _ & Hk & _ & _ & Hall).
  - reflexivity.
  - exists n, s'. split; [exact Hrun|]. split; [exact Hk|].
    rewrite Hall; [reflexivity | intros op; reflexivity].
Defined.

(* ===================================================================== *)
(** ** The validation job *)
(* ===================================================================== *)

(** X12. The timer callback never throws. [runValidation] always returns;
    when the sweep's query fails it logs 'BNS validation failed:' and
    leaves the store as it was, whereas [triggerManualValidation] lets that
    exception through. When the query succeeds both run the same sweep,
    with the 24-hour default age. *)
Theorem runValidation_never_throws (W : World) (s : State) :
  (exists s', BnsValidationCron.runValidation W s = (Ok tt, s'))
  /\ (storeFails W RegFind = true ->
      BnsValidationCron.runValidation W s
      = (Ok tt, addTrace [EvStore RegFind;
                          EvConsole Error "BNS validation failed:"] s)
      /\ BnsValidationCron.triggerManualValidation W s
         = (Thrown (StoreError RegFind), addTrace [EvStore RegFind] s))
  /\ (storeFails W RegFind = false ->
      exists n s',
        BNSValidationService.validateStaleRegistrations W (24 * 60 * 60 * 1000) s
        = (Ok n, s')
        /\ BnsValidationCron.runValidation W s = (Ok tt, s')
        /\ BnsValidationCron.triggerManualValidation W s = (Ok n, s')).
Proof.
  assert (Hfail : storeFails W RegFind = true ->
            BnsValidationCron.runValidation W s
            = (Ok tt, addTrace [EvStore RegFind;
                                EvConsole Error "BNS validation failed:"] s)
            /\ BnsValidationCron.triggerManualValidation W s
               = (Thrown (StoreError RegFind), addTrace [EvStore RegFind] s)).
  { intros Hf. split.
    - unfold BnsValidationCron.runValidation, tryCatch, bind at 1, dateNow.
      unfold bind at 1. rewrite (sweep_query_failure W _ s Hf).
      unfold console. now rewrite emit_run, addTrace_app.
    - unfold BnsValidationCron.triggerManualValidation, bind.
      now rewrite (sweep_query_failure W _ s Hf). }
  assert (Hok : storeFails W RegFind = false ->
            exists n s',
              BNSValidationService.validateStaleRegistrations W (24 * 60 * 60 * 1000) s
              = (Ok n, s')
              /\ BnsValidationCron.runValidation W s = (Ok tt, s')
              /\ BnsValidationCron.triggerManualValidation W s = (Ok n, s')).
  { intros Hf.
    destruct (sweep_accounting W (24 * 60 * 60 * 1000) s Hf) as (s' & Hrun & _).
    eexists _, s'. split; [exact Hrun|].
    change BNSValidationService.defaultMaxAge with (24 * 60 * 60 * 1000) in *.
    split.
    - unfold BnsValidationCron.runValidation, tryCatch, bind at 1, dateNow.
      unfold bind at 1.
      change BNSValidationService.defaultMaxAge with (24 * 60 * 60 * 1000).
      now rewrite Hrun.
    - unfold BnsValidationCron.triggerManualValidation, bind.
      change BNSValidationService.defaultMaxAge with (24 * 60 * 60 * 1000).
      now rewrite Hrun. }
  split; [|split; [exact Hfail | exact Hok]].
  destruct (storeFails W RegFind) eqn:Hf.
  - destruct (Hfail eq_refl) as [-> _]. eauto.
  - destruct (Hok eq_refl) as (n & s' & _ & -> & _). eauto.
Qed.

Lemma runValidation_never_throws_witness :
  BnsValidationCron.runValidation
    {| readOnlyCall := quietLedger; namesOf := quietNames;
       storeFails := fun _ => true |} (sweepState freshRecord)
  = (Ok tt, addTrace [EvStore RegFind; EvConsole Error "BNS validation failed:"]
              (sweepState freshRecord)).
Proof.
  destruct (runValidation_never_throws
              {| readOnlyCall := quietLedger; namesOf := quietNames;
                 storeFails := fun _ => true |} (sweepState freshRecord))
    as (_ & H & _).
  destruct (H eq_refl) as [Hrun _]. exact Hrun.
Defined.


Section Cron.

Import BnsValidationCron.

Lemma start_running t h :
  validationTimer t = Some h -> startBNSValidationCron t = t.
Proof. unfold startBNSValidationCron. now intros ->. Qed.

Lemma start_sets_timer t :
  validationTimer t = None ->
  validationTimer (startBNSValidationCron t) = Some (N.succ (nextHandle t)).
Proof. unfold startBNSValidationCron. now intros ->. Qed.

Lemma start_idempotent t :
  startBNSValidationCron (startBNSValidationCron t) = startBNSValidationCron t.
Proof.
  destruct (validationTimer t) as [h|] eqn:E.
  - now rewrite !(start_running t h E).
  - apply (start_running _ _ (start_sets_timer t E)).
Qed.

Lemma stop_idle t : validationTimer t = None -> stopBNSValidationCron t = t.
Proof. unfold stopBNSValidationCron. now intros ->. Qed.

Lemma stop_clears_timer t : validationTimer (stopBNSValidationCron t) = None.
Proof.
  unfold stopBNSValidationCron.
  destruct (validationTimer t) as [h|] eqn:E; [reflexivity | exact E].
Qed.

Lemma stop_idempotent t :
  stopBNSValidationCron (stopBNSValidationCron t) = stopBNSValidationCron t.
Proof. apply stop_idle, stop_clears_timer. Qed.

Lemma handle_injective (l : list Timer) x y :
  List.NoDup (map handle l) -> In x l -> In y l -> handle x = handle y -> x = y.
Proof.
  induction l as [|z l IH]; simpl; [intros _ []|].
  intros Hnd Hx Hy E. apply NoDup_cons_iff in Hnd as [Hz Hnd].
  destruct Hx as [-> | Hx], Hy as [-> | Hy]; try reflexivity.
  - exfalso. apply Hz. rewrite E. now apply in_map.
  - exfalso. apply Hz. rewrite <- E. now apply in_map.
  - now apply IH.
Qed.

Lemma filter_filter_comm {A} (p q : A -> bool) l :
  List.filter p (List.filter q l) = List.filter q (List.filter p l).
Proof.
  induction l as [|x l IH]; simpl; [reflexivity|].
  destruct (p x) eqn:Ep, (q x) eqn:Eq; simpl; rewrite ?Ep, ?Eq, IH; reflexivity.
Qed.

Lemma filter_all {A} (p : A -> bool) l :
  (forall x, In x l -> p x = true) -> List.filter p l = l.
Proof.
  induction l as [|x l IH]; intros H; simpl; [reflexivity|].
  rewrite (H x) by now left. f_equal. apply IH. intros y Hy. apply H. now right.
Qed.

Lemma filter_none {A} (p : A -> bool) l :
  (forall x, In x l -> p x = false) -> List.filter p l = [].
Proof.
  induction l as [|x l IH]; intros H; simpl; [reflexivity|].
  rewrite (H x) by now left. apply IH. intros y Hy. apply H. now right.
Qed.

Lemma cronInvariant_initial : cronInvariant initial.
Proof. split; [constructor|]. split; [constructor | reflexivity]. Qed.

Lemma cronInvariant_start t :
  cronInvariant t -> cronInvariant (startBNSValidationCron t).
Proof.
  intros (Hfresh & Hnd & Hiv). unfold startBNSValidationCron.
  destruct (validationTimer t) as [h|] eqn:E.
  { split; [exact Hfresh|]. split; [exact Hnd|]. now rewrite E. }
  unfold cronInvariant, intervals in *. cbn.
  rewrite <- !app_assoc. cbn [app].
  split; [|split].
  - apply List.Forall_app. split.
    + eapply List.Forall_impl; [|exact Hfresh]. cbn. intros x Hx. lia.
    + repeat constructor; cbn; lia.
  - rewrite map_app. cbn [map handle].
    apply List.NoDup_app; [exact Hnd| |].
    + constructor; [intros [Hx | []]; lia|]. constructor; [intros []|constructor].
    + intros x Hx [<- | [<- | []]];
        apply in_map_iff in Hx as (y & Hy & Hin);
        rewrite List.Forall_forall in Hfresh; specialize (Hfresh y Hin); lia.
  - rewrite List.filter_app, map_app, Hiv. reflexivity.
Qed.

Lemma cronInvariant_stop t :
  cronInvariant t -> cronInvariant (stopBNSValidationCron t).
Proof.
  intros (Hfresh & Hnd & Hiv). unfold stopBNSValidationCron.
  destruct (validationTimer t) as [h|] eqn:E.
  2:{ split; [exact Hfresh|]. split; [exact Hnd|]. now rewrite E. }
  unfold cronInvariant, intervals in *. cbn.
  split; [|split].
  - rewrite List.Forall_forall in *. intros x Hx. apply filter_In in Hx as [Hx _].
    now apply Hfresh.
  - clear Hiv Hfresh. induction (pending t) as [|x l IH]; [constructor|].
    cbn in *. apply NoDup_cons_iff in Hnd as [Hx Hnd].
    destruct (negb _); cbn; [|now apply IH].
    constructor; [|now apply IH].
    intros Hin. apply Hx. apply in_map_iff in Hin as (y & Hy & Hin).
    apply in_map_iff. exists y. split; [exact Hy|].
    apply filter_In in Hin. tauto.
  - rewrite filter_filter_comm. apply (f_equal (@length N)) in Hiv as Hlen.
    assert (Hall : forall x, In x (List.filter repeating (pending t)) -> handle x = h).
    { intros x Hx. apply (in_map handle) in Hx. rewrite Hiv in Hx.
      destruct Hx as [<- | []]. reflexivity. }
    rewrite filter_none; [reflexivity|].
    intros x Hx. rewrite (Hall x Hx). apply negb_false_iff.
    now apply bool_decide_eq_true_2.
Qed.

Lemma cronInvariant_step t c : cronInvariant t -> cronInvariant (cronStep t c).
Proof. destruct c; [apply cronInvariant_start | apply cronInvariant_stop]. Qed.

Lemma cronInvariant_fold calls : forall t,
  cronInvariant t -> cronInvariant (fold_left cronStep calls t).
Proof.
  induction calls as [|c r IH]; intros t Ht; [exact Ht|].
  cbn [fold_left]. apply IH. now apply cronInvariant_step.
Qed.

Lemma timeouts_start t :
  timeouts (startBNSValidationCron t)
  = timeouts t ++ match validationTimer t with
                  | Some _ => []
                  | None => [nextHandle t]
                  end.
Proof.
  unfold startBNSValidationCron.
  destruct (validationTimer t); [now rewrite app_nil_r|].
  unfold timeouts. cbn. rewrite <- !app_assoc. cbn [app].
  rewrite List.filter_app, map_app. reflexivity.
Qed.

Lemma timeouts_stop t :
  cronInvariant t -> timeouts (stopBNSValidationCron t) = timeouts t.
Proof.
  intros (Hfresh & Hnd & Hiv). unfold stopBNSValidationCron.
  destruct (validationTimer t) as [h|] eqn:E; [|reflexivity].
  unfold timeouts, intervals in *. cbn. rewrite filter_filter_comm.
  f_equal. apply filter_all. intros x Hx.
  apply filter_In in Hx as [Hx Hrep].
  apply negb_true_iff, bool_decide_eq_false_2. intros Eh.
  assert (Hh : In h (map handle (List.filter repeating (pending t))))
    by (rewrite Hiv; now left).
  apply in_map_iff in Hh as (y & Hy & Hin).
  apply filter_In in Hin as [Hin Hyrep].
  assert (x = y) by (apply (handle_injective (pending t)); congruence).
  subst y. rewrite Hyrep in Hrep. discriminate.
Qed.

Lemma timeouts_fold calls : forall t,
  cronInvariant t ->
  length (timeouts (fold_left cronStep calls t))
  = (length (timeouts t)
     + effectiveStarts (bool_decide (is_Some (validationTimer t))) calls)%nat.
Proof.
  induction calls as [|c r IH]; intros t Ht; cbn [fold_left effectiveStarts]; [lia|].
  rewrite IH by now apply cronInvariant_step.
  destruct c; cbn [cronStep].
  - rewrite timeouts_start, length_app.
    destruct (validationTimer t) as [h|] eqn:E.
    + rewrite (start_running t h E), E.
      rewrite bool_decide_eq_true_2 by eauto. cbn. lia.
    + rewrite (start_sets_timer t E).
      rewrite bool_decide_eq_true_2 by eauto.
      rewrite bool_decide_eq_false_2 by (intros [x Hx]; discriminate).
      cbn. lia.
  - rewrite timeouts_stop by exact Ht. rewrite stop_clears_timer.
    rewrite (bool_decide_eq_false_2 (is_Some None)) by (intros [x Hx]; discriminate).
    reflexivity.
Qed.

End Cron.

(** X13. The validation job holds at most one interval timer. After any
    sequence of calls to [startBNSValidationCron] and
    [stopBNSValidationCron] the repeating timers are exactly the one
    [validationTimer] refers to (none when it is null); starting twice is
    starting once, stopping twice is stopping once, and after a stop no
    interval is left. [stopBNSValidationCron] does not cancel the one-shot
    initial run: every start that found no job running has left one. *)
Theorem cron_holds_at_most_one_interval (calls : list CronCall) :
  let t := cronRun calls in
  intervals t = match BnsValidationCron.validationTimer t with
                | Some h => [h]
                | None => []
                end
  /\ (length (intervals t) <= 1)%nat
  /\ BnsValidationCron.startBNSValidationCron (BnsValidationCron.startBNSValidationCron t)
     = BnsValidationCron.startBNSValidationCron t
  /\ BnsValidationCron.stopBNSValidationCron (BnsValidationCron.stopBNSValidationCron t)
     = BnsValidationCron.stopBNSValidationCron t
  /\ intervals (BnsValidationCron.stopBNSValidationCron t) = []
  /\ length (intervals (BnsValidationCron.startBNSValidationCron t)) = 1%nat
  /\ length (timeouts t) = effectiveStarts false calls.
Proof.
  cbv zeta. unfold cronRun.
  pose proof (cronInvariant_fold calls _ cronInvariant_initial) as Hinv.
  set (t := fold_left cronStep calls BnsValidationCron.initial) in *.
  pose proof Hinv as (_ & _ & Hiv).
  split; [exact Hiv|]. split.
  { rewrite Hiv. destruct (BnsValidationCron.validationTimer t); simpl; lia. }
  split; [apply start_idempotent|]. split; [apply stop_idempotent|]. split.
  { destruct (cronInvariant_stop t Hinv) as (_ & _ & ->).
    now rewrite stop_clears_timer. }
  split.
  { destruct (cronInvariant_start t Hinv) as (_ & _ & ->).
    destruct (BnsValidationCron.validationTimer t) as [h|] eqn:E.
    - now rewrite (start_running t h E), E.
    - now rewrite (start_sets_timer t E). }
  unfold t. rewrite timeouts_fold by exact cronInvariant_initial.
  reflexivity.
Qed.


(* ===================================================================== *)
(** ** The BNS endpoints *)
(* ===================================================================== *)

Section BnsEndpointRuns.

Variable W : World.

Lemma findNamedByWallet_run wallet s :
  storeFails W RegFind = false ->
  BnsEndpoints.findNamedByWallet W wallet s
  = (Ok (namedOf wallet (registrations s)), addTrace [EvStore RegFind] s).
Proof.
  intros Hf. unfold BnsEndpoints.findNamedByWallet. mrun. now rewrite Hf.
Qed.

Lemma countStatuses_run regs : forall v t n s,
  BnsEndpoints.countStatuses W regs v t n s
  = (Ok ((v + verdicts W BnsValid regs)%nat,
         (t + verdicts W BnsTransferred regs)%nat,
         (n + verdicts W BnsNoLongerOwned regs)%nat),
     addTrace (concat (map (fun r => fetchEvents W (Registration.authorWallet r)) regs))
              s).
Proof.
  induction regs as [|r rest IH]; intros v t n s.
  - cbn. unfold ret. now rewrite !Nat.add_0_r, addTrace_nil.
  - cbn [BnsEndpoints.countStatuses map concat]. unfold bind.
    destruct (validateRegistration_run W (orEmpty (Registration.bnsName r))
                (Registration.authorWallet r) s) as (result & -> & Hst & _).
    rewrite Hst. fold (verdict W r).
    unfold verdicts. cbn [List.filter].
    destruct (verdict W r) eqn:Ev; rewrite IH, addTrace_app;
      cbn [bool_decide decide_rel length];
      repeat match goal with
             | |- context [bool_decide (?a = ?b)] =>
                 first [ rewrite (bool_decide_eq_true_2 (a = b)) by reflexivity
                       | rewrite (bool_decide_eq_false_2 (a = b)) by discriminate ]
             end;
      cbn [length]; unfold verdicts; rewrite ?Nat.add_succ_r; reflexivity.
Qed.

Lemma verdicts_partition l :
  (verdicts W BnsValid l + verdicts W BnsTransferred l
   + verdicts W BnsNoLongerOwned l = length l)%nat.
Proof.
  unfold verdicts. induction l as [|r l IH]; [reflexivity|].
  cbn [List.filter length].
  destruct (verdict W r);
    repeat match goal with
           | |- context [bool_decide (?a = ?b)] =>
               first [ rewrite (bool_decide_eq_true_2 (a = b)) by reflexivity
                     | rewrite (bool_decide_eq_false_2 (a = b)) by discriminate ]
           end;
    cbn [length]; lia.
Qed.

Lemma storeWrites_fetches l :
  storeWrites (concat (map (fun r => fetchEvents W (Registration.authorWallet r)) l))
  = [].
Proof.
  induction l as [|r l IH]; [reflexivity|].
  cbn [map concat]. unfold storeWrites in *. rewrite flat_map_app, IH, app_nil_r.
  unfold fetchEvents. now destruct (namesOf W _).
Qed.

Lemma nameLookups_fetches l :
  nameLookups (concat (map (fun r => fetchEvents W (Registration.authorWallet r)) l))
  = map Registration.authorWallet l.
Proof.
  induction l as [|r l IH]; [reflexivity|].
  cbn [map concat]. now rewrite nameLookups_app, nameLookups_fetchEvents, IH.
Qed.

End BnsEndpointRuns.

(** X14. The manual validation endpoint reports and never persists. With
    the query succeeding, POST validate-BNS for a wallet given as a
    non-empty string answers 200 and leaves both collections and the clock
    as they were: its only effects are the query and one registry request
    per selected record, no store write. The three counters partition the
    selected records ([validated + transferred + noLongerOwned = total]),
    each counting the records whose bound name gets that status from the
    registry's current answer. A wallet address that is a truthy value
    other than a string is answered 500 before any query. GET
    validation-status selects the same records, in store order, and is
    read-only too. *)
Theorem validateBNS_reports_without_persisting
    (W : World) (w : string) (s : State) :
  storeFails W RegFind = false ->
  w <> EmptyString ->
  let selectedRecords := namedOf (toUpperCase w) (registrations s) in
  (exists response evs,
      BnsEndpoints.validateBNS W (Text w) s
      = (Ok response, addTrace evs s)
      /\ statusCode response = 200
      /\ storeWrites evs = []
      /\ nameLookups evs = map Registration.authorWallet selectedRecords
      /\ (selectedRecords = [] ->
          BnsEndpoints.validated (body response) = Some 0%nat
          /\ BnsEndpoints.total (body response) = None)
      /\ (selectedRecords <> [] ->
          BnsEndpoints.validated (body response)
          = Some (verdicts W BnsValid selectedRecords)
          /\ BnsEndpoints.transferred (body response)
             = Some (verdicts W BnsTransferred selectedRecords)
          /\ BnsEndpoints.noLongerOwned (body response)
             = Some (verdicts W BnsNoLongerOwned selectedRecords)
          /\ BnsEndpoints.total (body response) = Some (length selectedRecords)
          /\ (verdicts W BnsValid selectedRecords
              + verdicts W BnsTransferred selectedRecords
              + verdicts W BnsNoLongerOwned selectedRecords
              = length selectedRecords)%nat))
  /\ (exists response,
         BnsEndpoints.validateBNS W (NotText true) s
         = (Ok response, addTrace [EvConsole Error "Error validating BNS:"] s)
         /\ statusCode response = 500)
  /\ (exists response,
         BnsEndpoints.getBNSValidationStatus W w s
         = (Ok response, addTrace [EvStore RegFind] s)
         /\ statusCode response = 200
         /\ BnsEndpoints.s_registrations (body response)
            = Some (map BnsEndpoints.statusEntry selectedRecords)).
Proof.
  intros Hf Hw selectedRecords. split; [|split].
  - unfold BnsEndpoints.validateBNS, tryCatch.
    destruct w as [|a w']; [congruence|]. set (w := String a w') in *.
    unfold bind at 1. rewrite findNamedByWallet_run by exact Hf.
    fold selectedRecords.
    destruct selectedRecords as [|r l] eqn:E.
    + eexists _, _. split; [reflexivity|]. split; [reflexivity|].
      split; [reflexivity|]. split; [reflexivity|].
      split; [intros _; split; reflexivity | congruence].
    + unfold bind. rewrite countStatuses_run. cbn [Nat.add].
      rewrite addTrace_app.
      eexists _, _. split; [reflexivity|]. split; [reflexivity|].
      split.
      { change ([EvStore RegFind] ++ ?l) with (EvStore RegFind :: l).
        unfold storeWrites. cbn [flat_map app].
        apply (storeWrites_fetches W (r :: l)). }
      split.
      { rewrite nameLookups_app. apply (nameLookups_fetches W (r :: l)). }
      split; [congruence|]. intros _.
      repeat (split; [reflexivity|]). apply verdicts_partition.
  - eexists. split; reflexivity.
  - unfold BnsEndpoints.getBNSValidationStatus, tryCatch.
    rewrite bool_decide_eq_false_2 by exact Hw.
    unfold bind. rewrite findNamedByWallet_run by exact Hf.
    eexists. split; [reflexivity|]. split; reflexivity.
Qed.

Lemma validateBNS_reports_without_persisting_witness :
  exists response evs,
    BnsEndpoints.validateBNS (worldOwning ["alice.btc"])
      (Text "sp1s7kx8tvsawj8cvjzqsferbq8bncdxyfhxt21z9") twoRecords
    = (Ok response, addTrace evs twoRecords)
    /\ BnsEndpoints.validated (body response) = Some 1%nat
    /\ BnsEndpoints.transferred (body response) = Some 1%nat
    /\ BnsEndpoints.total (body response) = Some 2%nat.
Proof.
  destruct (validateBNS_reports_without_persisting (worldOwning ["alice.btc"])
              "sp1s7kx8tvsawj8cvjzqsferbq8bncdxyfhxt21z9" twoRecords)
    as [(response & evs & Hrun & _ & _ & _ & _ & Hcounts) _].
  - reflexivity.
  - discriminate.
  - destruct Hcounts as (Hv & Ht & _ & Htot & _); [discriminate|].
    exists response, evs. split; [exact Hrun|].
    split; [exact Hv|]. split; [exact Ht | exact Htot].
Defined.

(* ===================================================================== *)
(** ** Status of one content hash, after a sweep *)
(* ===================================================================== *)







(* ===================================================================== *)
(** ** Registration endpoints *)
(* ===================================================================== *)

Lemma hashExists_run W config b s :
  BlockchainService.hashExists W config b s
  = (Ok (reportsExistence W config (primary config) b),
     addTrace (existsEvents W config (primary config) b) s).
Proof. unfold BlockchainService.hashExists. apply hashExistsOnContract_run. Qed.

Lemma checkRegistration_run W config content s :
  content <> [] ->
  RegistrationController.checkRegistration W config (Text content) s
  = (let found := reportsExistence W config (primary config)
                    (HashService.generateContentHash content) in
     Ok (mkHttp 200
       {| RegistrationController.c_success := true;
          RegistrationController.c_text := None;
          RegistrationController.c_data :=
            Some {| RegistrationController.c_hash :=
                      HashService.generateContentHashHex content;
                    RegistrationController.exists_ := found;
                    RegistrationController.canRegister := negb found;
                    RegistrationController.c_message :=
                      if found then "Content already registered"
                      else "Content available for registration" |};
          RegistrationController.c_error := None |}),
     addTrace (existsEvents W config (primary config)
                 (HashService.generateContentHash content)) s).
Proof.
  intros Hne. destruct content as [|x y]; [congruence|].
  unfold RegistrationController.checkRegistration, tryCatch, bind.
  cbv zeta. now rewrite hashExists_run.
Qed.

(** X16. POST /check-registration and GET /verify/:hash agree. For
    content given as a non-empty string the check endpoint issues the very
    ledger query that the quick probe issues for the content's hexadecimal
    digest and reports the same existence; [canRegister] is its negation.
    Content differing in whitespace layout only gets the same answer. A
    missing, empty or otherwise falsy [tweetContent] is answered 400, a
    truthy one that is not a string 500, both without a ledger query. *)
Theorem checkRegistration_agrees_with_quickVerify
    (W : World) (config : ContractConfig) (content : JsString) (s : State) :
  content <> [] ->
  (exists found evs,
      RegistrationController.checkRegistration W config (Text content) s
      = (Ok (mkHttp 200
               {| RegistrationController.c_success := true;
                  RegistrationController.c_text := None;
                  RegistrationController.c_data :=
                    Some {| RegistrationController.c_hash :=
                              HashService.generateContentHashHex content;
                            RegistrationController.exists_ := found;
                            RegistrationController.canRegister := negb found;
                            RegistrationController.c_message :=
                              if found then "Content already registered"
                              else "Content available for registration" |};
                  RegistrationController.c_error := None |}),
         addTrace evs s)
      /\ VerificationController.quickVerify W config
           (HashService.generateContentHashHex content) s
         = (Ok (mkHttp 200
                  {| VerificationController.Quick.success := true;
                     VerificationController.Quick.verified := found;
                     VerificationController.Quick.message :=
                       if found then "Content verified" else "Content not found";
                     VerificationController.Quick.data :=
                       Some {| VerificationController.Quick.hash :=
                                 HashService.generateContentHashHex content;
                               VerificationController.Quick.exists_ := found |};
                     VerificationController.Quick.error := None |}),
            addTrace evs s))
  /\ (forall w, HashService.isWhiteSpace w = true ->
      RegistrationController.checkRegistration W config (Text (content ++ [w])) s
      = RegistrationController.checkRegistration W config (Text content) s)
  /\ (forall falsy, falsy = Absent \/ falsy = Text [] \/ falsy = NotText false ->
      exists b,
        RegistrationController.checkRegistration W config falsy s
        = (Ok (mkHttp 400 b), s))
  /\ (exists b,
        RegistrationController.checkRegistration W config (NotText true) s
        = (Ok (mkHttp 500 b),
           addTrace [EvConsole Error "Error checking registration:"] s)).
Proof.
  intros Hne.
  split; [|split; [|split]].
  - eexists _, _. split.
    + rewrite checkRegistration_run by exact Hne. cbv zeta. reflexivity.
    + destruct (digestHex_nonempty content) as (a & t & Ehex).
      rewrite quickVerify_run by (rewrite Ehex; discriminate).
      rewrite hexToBuffer_digestHex. reflexivity.
  - intros w Hw.
    rewrite !checkRegistration_run by (try exact Hne; destruct content; discriminate).
    cbv zeta.
    assert (Hh : HashService.generateContentHash (content ++ [w])
                 = HashService.generateContentHash content).
    { unfold HashService.generateContentHash. rewrite !cleanContent_joinWords.
      rewrite joinWords_tail by now repeat constructor. reflexivity. }
    unfold HashService.generateContentHashHex. now rewrite Hh.
  - intros falsy [-> | [-> | ->]]; eexists; reflexivity.
  - eexists. reflexivity.
Qed.

Lemma checkRegistration_agrees_with_quickVerify_witness :
  exists found evs,
    RegistrationController.checkRegistration worldV1Only mainnetConfig
      (Text tweetPlain) (emptyState 0)
    = (Ok (mkHttp 200
             {| RegistrationController.c_success := true;
                RegistrationController.c_text := None;
                RegistrationController.c_data :=
                  Some {| RegistrationController.c_hash :=
                            HashService.generateContentHashHex tweetPlain;
                          RegistrationController.exists_ := found;
                          RegistrationController.canRegister := negb found;
                          RegistrationController.c_message :=
                            if found then "Content already registered"
                            else "Content available for registration" |};
                RegistrationController.c_error := None |}),
       addTrace evs (emptyState 0)).
Proof.
  destruct (checkRegistration_agrees_with_quickVerify worldV1Only mainnetConfig
              tweetPlain (emptyState 0)) as ((found & evs & Hrun & _) & _).
  - discriminate.
  - exists found, evs. exact Hrun.
Defined.

(** X17. POST /register, case by case. Whatever signing and submission
    do: a request whose content or key is missing or falsy, or whose
    content is longer than 280 (UTF-16 units of a string, the [length] of
    anything else), is answered 400 with the state untouched; truthy
    content that is not a string is answered 500; content whose digest
    the primary contract reports is answered 409 after that single ledger
    query. In these cases nothing is submitted. Otherwise exactly one
    transaction is submitted, calling 'register-content' of the configured
    contract with the content's digest and 'tweet', with the key as the
    caller gave it: an accepted broadcast gives 201 with its txid and the
    hexadecimal digest, a rejected one 500 with its error, and an
    exception 500 with its message. No exception escapes. *)
Theorem registerTweet_cases
    (W : World) (config : ContractConfig)
    (submit : BlockchainWrites.TxOptions (Field string)
              -> M BlockchainWrites.BroadcastResponse)
    (req : RegistrationController.RegisterTweetRequest) (s : State) :
  let run := RegistrationController.registerTweet W config submit req s in
  let key := RegistrationController.senderKey req in
  (RegistrationController.truthyContent (RegistrationController.tweetContent req)
   = false
   \/ RegistrationController.truthyKey key = false ->
   exists b, run = (Ok (mkHttp 400 b), s)
             /\ RegistrationController.error b = Some "Missing required fields")
  /\ (RegistrationController.truthyContent (RegistrationController.tweetContent req)
      = true ->
      RegistrationController.truthyKey key = true ->
      (RegistrationController.tooLong req = true ->
       exists b, run = (Ok (mkHttp 400 b), s)
                 /\ RegistrationController.error b = Some "Content too long")
      /\ (RegistrationController.tooLong req = false ->
          (forall content, RegistrationController.tweetContent req <> Text content) ->
          exists b,
            run = (Ok (mkHttp 500 b),
                   addTrace [EvConsole Error "Error registering tweet:"] s))
      /\ (forall content,
            RegistrationController.tweetContent req = Text content ->
            (length content <= 280)%nat ->
            let digest := HashService.generateContentHash content in
            let s1 := addTrace (existsEvents W config (primary config) digest) s in
            let tx := BlockchainWrites.registerOptions config digest key in
            (reportsExistence W config (primary config) digest = true ->
             exists b, run = (Ok (mkHttp 409 b), s1)
                       /\ RegistrationController.error b = Some "Duplicate content")
            /\ (reportsExistence W config (primary config) digest = false ->
                BlockchainWrites.txFunctionName tx = "register-content"
                /\ BlockchainWrites.txContractAddress tx = contractAddress config
                /\ BlockchainWrites.txContractName tx = contractName config
                /\ BlockchainWrites.txHash tx = digest
                /\ BlockchainWrites.txContentType tx = "tweet"
                /\ BlockchainWrites.txSenderKey tx = key
                /\ (forall txid s2,
                       submit tx s1 = (Ok (BlockchainWrites.Accepted txid), s2) ->
                       exists b d,
                         run = (Ok (mkHttp 201 b), s2)
                         /\ RegistrationController.success b = true
                         /\ RegistrationController.data b = Some d
                         /\ RegistrationController.hash d
                            = HashService.generateContentHashHex content
                         /\ RegistrationController.txId d = Some txid)
                /\ (forall e s2,
                       submit tx s1 = (Ok (BlockchainWrites.Rejected e), s2) ->
                       exists b,
                         run = (Ok (mkHttp 500 b), s2)
                         /\ RegistrationController.error b = Some e)
                /\ (forall e s2,
                       submit tx s1 = (Thrown e, s2) ->
                       exists b,
                         run = (Ok (mkHttp 500 b), s2)
                         /\ RegistrationController.error b
                            = Some (errorMessage e))))).
Proof.
  cbv zeta. unfold RegistrationController.registerTweet, tryCatch. split.
  - intros [Hc | Hk].
    + rewrite Hc. cbn [negb orb]. eauto.
    + rewrite Hk. cbn [negb]. rewrite orb_true_r. eauto.
  - intros Hc Hk. rewrite Hc, Hk. cbn [negb orb]. split; [|split].
    + intros Hlen. rewrite Hlen. eauto.
    + intros Hlen Hnot. rewrite Hlen.
      destruct (RegistrationController.tweetContent req) as [|content|b];
        [| exfalso; now apply (Hnot content) |]; eexists; reflexivity.
    + intros content Hcontent Hlen.
      assert (Hshort : RegistrationController.tooLong req = false).
      { unfold RegistrationController.tooLong. rewrite Hcontent.
        now apply Nat.ltb_ge. }
      rewrite Hshort, Hcontent. split.
      * intros Hex. unfold bind. rewrite hashExists_run, Hex. eauto.
      * intros Hex.
        unfold BlockchainWrites.registerTweet, tryCatch, bind.
        rewrite hashExists_run, Hex.
        repeat (split; [reflexivity|]).
        split; [|split].
        -- intros txid s2 Hs. rewrite Hs. eexists _, _.
           split; [reflexivity|]. repeat split.
        -- intros e s2 Hs. rewrite Hs. eexists. split; reflexivity.
        -- intros e s2 Hs. rewrite Hs. eexists. split; reflexivity.
Qed.

Lemma registerTweet_cases_witness :
  exists b d,
    RegistrationController.registerTweet worldEmptyLedger mainnetConfig
      (acceptingNode "0x51a7")
      {| RegistrationController.tweetContent := Text tweetPlain;
         RegistrationController.oversized := false;
         RegistrationController.tweetUrl := None;
         RegistrationController.twitterHandle := None;
         RegistrationController.senderKey := Text "key" |} (emptyState 0)
    = (Ok (mkHttp 201 b),
       addTrace (existsEvents worldEmptyLedger mainnetConfig (primary mainnetConfig)
                   (HashService.generateContentHash tweetPlain)) (emptyState 0))
    /\ RegistrationController.data b = Some d
    /\ RegistrationController.txId d = Some "0x51a7".
Proof.
  pose proof (registerTweet_cases worldEmptyLedger mainnetConfig
                (acceptingNode "0x51a7")
                {| RegistrationController.tweetContent := Text tweetPlain;
                   RegistrationController.oversized := false;
                   RegistrationController.tweetUrl := None;
                   RegistrationController.twitterHandle := None;
                   RegistrationController.senderKey := Text "key" |} (emptyState 0))
    as H0.
  cbv zeta in H0. destruct H0 as [_ H].
  destruct (H eq_refl eq_refl) as (_ & _ & H3).
  destruct (H3 tweetPlain eq_refl) as (_ & H4).
  - simpl. lia.
  - destruct H4 as (_ & _ & _ & _ & _ & _ & Hacc & _).
    + reflexivity.
    + destruct (Hacc "0x51a7" _ eq_refl) as (b & d & Hrun & _ & Hd & _ & Htx).
      exists b, d. split; [exact Hrun|]. split; [exact Hd | exact Htx].
Defined.


(* ===================================================================== *)
(** ** The ledger contract *)
(* ===================================================================== *)

Section Contract.

Import TruthChainV3.

(** The entry a successful registration writes. *)
Lemma registerContentWithBns_cases ctx h ct bns st :
  (totalRegistrations st <> uintMax
   /\ contractActive st = true
   /\ length h = 32%nat
   /\ isValidContentType ct = true
   /\ contentRegistry st !! h = None
   /\ registerContentWithBns ctx h ct bns st
      = (Returned (ROk {| r_registrationId := (totalRegistrations st + 1)%N;
                          r_hash := h;
                          r_author := txSender ctx;
                          r_bnsName := bns;
                          r_blockHeight := stacksBlockHeight ctx;
                          r_timestamp := stacksBlockHeight ctx |}),
         {| contractOwner := contractOwner st;
            totalRegistrations := (totalRegistrations st + 1)%N;
            contractActive := contractActive st;
            contentRegistry :=
              <[h := {| author := txSender ctx;
                        bnsName := bns;
                        blockHeight := stacksBlockHeight ctx;
                        timeStamp := stacksBlockHeight ctx;
                        contentType := ct;
                        registrationId := (totalRegistrations st + 1)%N |}]>
                (contentRegistry st);
            authorContent :=
              <[(txSender ctx, (totalRegistrations st + 1)%N) := h]>
                (authorContent st) |}))
  \/ (snd (registerContentWithBns ctx h ct bns st) = st
      /\ ((totalRegistrations st = uintMax
           /\ fst (registerContentWithBns ctx h ct bns st) = Aborted)
          \/ (totalRegistrations st <> uintMax
              /\ contractActive st = false
              /\ fst (registerContentWithBns ctx h ct bns st)
                 = Returned ERR_UNAUTHORIZED)
          \/ (totalRegistrations st <> uintMax
              /\ contractActive st = true
              /\ length h <> 32%nat
              /\ fst (registerContentWithBns ctx h ct bns st)
                 = Returned ERR_INVALID_HASH)
          \/ (totalRegistrations st <> uintMax
              /\ contractActive st = true
              /\ length h = 32%nat
              /\ isValidContentType ct = false
              /\ fst (registerContentWithBns ctx h ct bns st)
                 = Returned ERR_INVALID_CONTENT_TYPE)
          \/ (totalRegistrations st <> uintMax
              /\ contractActive st = true
              /\ length h = 32%nat
              /\ isValidContentType ct = true
              /\ is_Some (contentRegistry st !! h)
              /\ fst (registerContentWithBns ctx h ct bns st)
                 = Returned ERR_HASH_EXISTS))).
Proof.
  unfold registerContentWithBns.
  destruct (N.eqb_spec (totalRegistrations st) uintMax) as [Emax | Emax].
  { right. split; [reflexivity|]. left. now split. }
  destruct (contractActive st) eqn:Eact; cbn [negb].
  2:{ right. split; [reflexivity|]. right. left. repeat split; assumption. }
  unfold isValidHash.
  destruct (decide (length h = 32%nat)) as [Elen | Elen].
  2:{ rewrite bool_decide_eq_false_2 by exact Elen. cbn [negb].
      right. split; [reflexivity|]. right. right. left. repeat split; assumption. }
  rewrite bool_decide_eq_true_2 by exact Elen. cbn [negb].
  destruct (isValidContentType ct) eqn:Ect; cbn [negb].
  2:{ right. split; [reflexivity|]. right. right. right. left.
      repeat split; assumption. }
  destruct (contentRegistry st !! h) as [e|] eqn:Eh.
  - rewrite bool_decide_eq_false_2 by discriminate. cbn [negb].
    right. split; [reflexivity|]. right. right. right. right.
    repeat split; try assumption. eauto.
  - rewrite bool_decide_eq_true_2 by reflexivity. cbn [negb].
    left. repeat split; assumption.
Qed.

Lemma execute_registry st tx h e :
  contentRegistry st !! h = Some e ->
  contentRegistry (execute st tx) !! h = Some e.
Proof.
  intros He. destruct tx as [ctx c]. unfold execute.
  destruct (wellTyped c); [|exact He].
  destruct c as [g ct bns | g ct |].
  - destruct (registerContentWithBns_cases ctx g ct bns st)
      as [(_ & _ & _ & _ & Hnone & ->) | [-> _]]; [|exact He].
    cbn [snd contentRegistry]. rewrite lookup_insert_ne; [exact He|].
    intros <-. congruence.
  - unfold registerContent.
    destruct (registerContentWithBns_cases ctx g ct None st)
      as [(_ & _ & _ & _ & Hnone & ->) | [-> _]]; [|exact He].
    cbn [snd contentRegistry]. rewrite lookup_insert_ne; [exact He|].
    intros <-. congruence.
  - unfold toggleContractStatus. destruct (negb _); exact He.
Qed.

Lemma executeAll_registry txs : forall st h e,
  contentRegistry st !! h = Some e ->
  contentRegistry (executeAll txs st) !! h = Some e.
Proof.
  induction txs as [|tx txs IH]; intros st h e He; [exact He|].
  cbn [executeAll fold_left]. apply IH. now apply execute_registry.
Qed.

Lemma ledgerInvariant_deploy deployer : ledgerInvariant (deploy deployer).
Proof.
  unfold ledgerInvariant, deploy. cbn.
  split; [reflexivity|]. split; [intros h e H; now rewrite lookup_empty in H|].
  split; [intros a i h H; now rewrite lookup_empty in H|].
  split; [intros i Hi; lia|].
  intros h h' e e' H. now rewrite lookup_empty in H.
Qed.

Lemma ledgerInvariant_register ctx h ct bns st :
  ledgerInvariant st ->
  ledgerInvariant (snd (registerContentWithBns ctx h ct bns st)).
Proof.
  intros Hinv.
  destruct (registerContentWithBns_cases ctx h ct bns st)
    as [(Hmax & _ & _ & _ & Hnone & ->) | [-> _]]; [|exact Hinv].
  destruct Hinv as (Hsize & Hentry & Hindex & Hused & Huniq).
  unfold ledgerInvariant. cbn [snd contentRegistry authorContent totalRegistrations].
  set (i := (totalRegistrations st + 1)%N).
  split; [|split; [|split; [|split]]].
  - rewrite map_size_insert_None by exact Hnone. lia.
  - intros g e Hg. destruct (decide (g = h)) as [-> | Hgh].
    + rewrite lookup_insert_eq in Hg. injection Hg as <-. cbn.
      split; [unfold i; lia|]. apply lookup_insert_eq.
    + rewrite lookup_insert_ne in Hg by congruence.
      destruct (Hentry g e Hg) as [Hid Hidx]. split; [unfold i; lia|].
      rewrite lookup_insert_ne; [exact Hidx|].
      intros E. injection E as _ E. unfold i in E. lia.
  - intros a j g Hg.
    destruct (decide ((txSender ctx, i) = (a, j))) as [E | E].
    + rewrite E, lookup_insert_eq in Hg. injection Hg as <-. injection E as <- <-.
      eexists. split; [apply lookup_insert_eq|]. split; reflexivity.
    + rewrite lookup_insert_ne in Hg by exact E.
      destruct (Hindex a j g Hg) as (e & He & Ha & Hj).
      exists e. split; [|now split].
      rewrite lookup_insert_ne; [exact He|]. intros <-. congruence.
  - intros j Hj. destruct (decide (j = i)) as [-> | Hji].
    + eexists h, _. split; [apply lookup_insert_eq | reflexivity].
    + destruct (Hused j) as (g & e & Hg & Hid); [unfold i in *; lia|].
      exists g, e. split; [|exact Hid].
      rewrite lookup_insert_ne; [exact Hg|]. intros <-. congruence.
  - intros g g' e e' Hg Hg' Hid.
    destruct (decide (g = h)) as [-> | Hgh], (decide (g' = h)) as [-> | Hgh'].
    + reflexivity.
    + rewrite lookup_insert_eq in Hg. injection Hg as <-.
      rewrite lookup_insert_ne in Hg' by congruence.
      destruct (Hentry g' e' Hg') as [Hb _]. cbn in Hid. unfold i in Hid. lia.
    + rewrite lookup_insert_eq in Hg'. injection Hg' as <-.
      rewrite lookup_insert_ne in Hg by congruence.
      destruct (Hentry g e Hg) as [Hb _]. cbn in Hid. unfold i in Hid. lia.
    + rewrite lookup_insert_ne in Hg by congruence.
      rewrite lookup_insert_ne in Hg' by congruence.
      now apply (Huniq g g' e e').
Qed.

Lemma ledgerInvariant_execute st tx :
  ledgerInvariant st -> ledgerInvariant (execute st tx).
Proof.
  intros Hinv. destruct tx as [ctx c]. unfold execute.
  destruct (wellTyped c); [|exact Hinv].
  destruct c as [g ct bns | g ct |].
  - now apply ledgerInvariant_register.
  - now apply ledgerInvariant_register.
  - unfold toggleContractStatus. destruct (negb _); exact Hinv.
Qed.

Lemma ledgerInvariant_executeAll txs : forall st,
  ledgerInvariant st -> ledgerInvariant (executeAll txs st).
Proof.
  induction txs as [|tx txs IH]; intros st Hinv; [exact Hinv|].
  cbn [executeAll fold_left]. apply IH. now apply ledgerInvariant_execute.
Qed.

Lemma execute_owner st tx : contractOwner (execute st tx) = contractOwner st.
Proof.
  destruct tx as [ctx c]. unfold execute.
  destruct (wellTyped c); [|reflexivity].
  destruct c as [g ct bns | g ct |].
  - destruct (registerContentWithBns_cases ctx g ct bns st)
      as [(_ & _ & _ & _ & _ & ->) | [-> _]]; reflexivity.
  - unfold registerContent.
    destruct (registerContentWithBns_cases ctx g ct None st)
      as [(_ & _ & _ & _ & _ & ->) | [-> _]]; reflexivity.
  - unfold toggleContractStatus. now destruct (negb _).
Qed.

Lemma executeAll_owner txs : forall st,
  contractOwner (executeAll txs st) = contractOwner st.
Proof.
  induction txs as [|tx txs IH]; intros st; [reflexivity|].
  cbn [executeAll fold_left]. fold (executeAll txs (execute st tx)).
  now rewrite IH, execute_owner.
Qed.

Lemma fitsBuff_digest content :
  fitsBuff 32 (HashService.generateContentHash content) = true.
Proof.
  unfold fitsBuff, HashService.generateContentHash.
  rewrite digest_length. cbn [Nat.leb andb].
  apply forallb_forall. intros x Hx.
  pose proof (digest_octets (utf8Encode (HashService.cleanContent content))) as Ho.
  rewrite List.Forall_forall in Ho. specialize (Ho x Hx). unfold octet in Ho.
  apply andb_true_iff. split; [apply Z.leb_le | apply Z.ltb_lt]; lia.
Qed.

Lemma register_succeeds ctx h ct bns st :
  totalRegistrations st <> uintMax ->
  contractActive st = true ->
  length h = 32%nat ->
  isValidContentType ct = true ->
  hashExists st h = false ->
  exists receipt st',
    registerContentWithBns ctx h ct bns st = (Returned (ROk receipt), st')
    /\ verifyContent st' h
       = ROk {| author := txSender ctx;
                bnsName := bns;
                blockHeight := stacksBlockHeight ctx;
                timeStamp := stacksBlockHeight ctx;
                contentType := ct;
                registrationId := (totalRegistrations st + 1)%N |}
    /\ hashExists st' h = true.
Proof.
  intros Hmax Hact Hlen Hct Hex.
  destruct (registerContentWithBns_cases ctx h ct bns st)
    as [(_ & _ & _ & _ & _ & ->) | [_ Hcase]].
  - eexists _, _. split; [reflexivity|].
    unfold hashExists, verifyContent. cbn [contentRegistry].
    rewrite !lookup_insert_eq. split; [reflexivity|].
    apply bool_decide_eq_true_2. eauto.
  - exfalso. unfold hashExists in Hex. apply bool_decide_eq_false in Hex.
    destruct Hcase as [[E _] | [(_ & E & _) | [(_ & _ & E & _)
                      | [(_ & _ & _ & E & _) | (_ & _ & _ & _ & E & _)]]]];
      congruence.
Qed.

Lemma wellTyped_gateway_call {Key : Type} config content (key : Key) :
  wellTyped (callOf (BlockchainWrites.registerOptions config
                       (HashService.generateContentHash content) key)) = true.
Proof.
  cbn [callOf BlockchainWrites.registerOptions BlockchainWrites.txHash
       BlockchainWrites.txContentType wellTyped].
  now rewrite fitsBuff_digest.
Qed.


End Contract.

(** X18. Registration round trip on the contract. A call of
    [register-content-with-bns] that passes the checks (counter below the
    largest uint, contract active, a 32-byte hash, a known content type, a
    hash not yet registered) returns [(ok ...)] with the next
    registration id, after which [hash-exists] is true, [verify-content]
    and [get-author-content] return the caller as author, the given BNS
    name and the current block as height and time stamp,
    [get-total-registrations] has grown by one, and every other hash
    verifies as before. *)
Theorem contract_registration_round_trip
    (ctx : TruthChainV3.Context) (h : Buffer) (ct : string) (bns : option string)
    (st : TruthChainV3.Storage) :
  TruthChainV3.totalRegistrations st <> TruthChainV3.uintMax ->
  TruthChainV3.contractActive st = true ->
  length h = 32%nat ->
  TruthChainV3.isValidContentType ct = true ->
  TruthChainV3.hashExists st h = false ->
  let entry := {| TruthChainV3.author := TruthChainV3.txSender ctx;
                  TruthChainV3.bnsName := bns;
                  TruthChainV3.blockHeight := TruthChainV3.stacksBlockHeight ctx;
                  TruthChainV3.timeStamp := TruthChainV3.stacksBlockHeight ctx;
                  TruthChainV3.contentType := ct;
                  TruthChainV3.registrationId :=
                    (TruthChainV3.totalRegistrations st + 1)%N |} in
  exists receipt st',
    TruthChainV3.registerContentWithBns ctx h ct bns st
    = (TruthChainV3.Returned (TruthChainV3.ROk receipt), st')
    /\ TruthChainV3.r_registrationId receipt
       = (TruthChainV3.totalRegistrations st + 1)%N
    /\ TruthChainV3.hashExists st' h = true
    /\ TruthChainV3.verifyContent st' h = TruthChainV3.ROk entry
    /\ TruthChainV3.getAuthorContent st' (TruthChainV3.txSender ctx)
         (TruthChainV3.totalRegistrations st + 1)
       = TruthChainV3.ROk entry
    /\ TruthChainV3.getTotalRegistrations st'
       = TruthChainV3.ROk (TruthChainV3.totalRegistrations st + 1)%N
    /\ (forall h', h' <> h ->
        TruthChainV3.verifyContent st' h' = TruthChainV3.verifyContent st h').
Proof.
  intros Hmax Hact Hlen Hct Hex entry.
  assert (Hnone : TruthChainV3.contentRegistry st !! h = None).
  { unfold TruthChainV3.hashExists in Hex. apply bool_decide_eq_false in Hex.
    destruct (TruthChainV3.contentRegistry st !! h); [|reflexivity].
    exfalso. apply Hex. eauto. }
  destruct (registerContentWithBns_cases ctx h ct bns st)
    as [(_ & _ & _ & _ & _ & ->) | [_ Hcase]].
  - eexists _, _. split; [reflexivity|]. split; [reflexivity|].
    unfold TruthChainV3.hashExists, TruthChainV3.verifyContent,
      TruthChainV3.getAuthorContent, TruthChainV3.getTotalRegistrations.
    cbn [TruthChainV3.contentRegistry TruthChainV3.authorContent
         TruthChainV3.totalRegistrations].
    rewrite !lookup_insert_eq.
    split; [apply bool_decide_eq_true_2; eauto|].
    split; [reflexivity|]. split; [reflexivity|]. split; [reflexivity|].
    intros h' Hh'. rewrite lookup_insert_ne by congruence. reflexivity.
  - exfalso.
    destruct Hcase as [[E _] | [(_ & E & _) | [(_ & _ & E & _)
                      | [(_ & _ & _ & E & _) | (_ & _ & _ & _ & [e E] & _)]]]];
      congruence.
Qed.

Lemma contract_registration_round_trip_witness :
  exists receipt st',
    TruthChainV3.registerContentWithBns
      {| TruthChainV3.txSender := "SP1S7KX8TVSAWJ8CVJZQSFERBQ8BNCDXYFHXT21Z9";
         TruthChainV3.stacksBlockHeight := 154200 |}
      sampleHash "tweet" (Some "alice.btc")
      (TruthChainV3.deploy "SPVQ61FEWR6M4HVAT3BNE07D4BNW6A1C2ACCNQ6F")
    = (TruthChainV3.Returned (TruthChainV3.ROk receipt), st')
    /\ TruthChainV3.r_registrationId receipt = 1%N
    /\ TruthChainV3.hashExists st' sampleHash = true.
Proof.
  destruct (contract_registration_round_trip
              {| TruthChainV3.txSender := "SP1S7KX8TVSAWJ8CVJZQSFERBQ8BNCDXYFHXT21Z9";
                 TruthChainV3.stacksBlockHeight := 154200 |}
              sampleHash "tweet" (Some "alice.btc")
              (TruthChainV3.deploy "SPVQ61FEWR6M4HVAT3BNE07D4BNW6A1C2ACCNQ6F"))
    as (receipt & st' & Hrun & Hid & Hex & _).
  - vm_compute. discriminate.
  - reflexivity.
  - reflexivity.
  - reflexivity.
  - reflexivity.
  - exists receipt, st'. split; [exact Hrun|]. split; [exact Hid | exact Hex].
Defined.

(** X19. Rejected registrations change nothing, and the checks come in a
    fixed order. Whatever the arguments, a call of
    [register-content-with-bns] that does not return [(ok ...)] leaves the
    storage as it was; it aborts when the counter is the largest uint,
    else answers [(err u103)] when the contract is paused, else
    [(err u101)] for a hash that is not 32 bytes long, else [(err u102)]
    for an unknown content type, else [(err u100)] for a registered hash.
    [toggle-contract-status] by anyone but the owner answers [(err u103)]
    and changes nothing. *)
Theorem contract_rejections_are_atomic
    (ctx : TruthChainV3.Context) (h : Buffer) (ct : string) (bns : option string)
    (st : TruthChainV3.Storage) :
  let run := TruthChainV3.registerContentWithBns ctx h ct bns st in
  ((forall receipt, fst run <> TruthChainV3.Returned (TruthChainV3.ROk receipt)) ->
   snd run = st)
  /\ (TruthChainV3.totalRegistrations st = TruthChainV3.uintMax ->
      run = (TruthChainV3.Aborted, st))
  /\ (TruthChainV3.totalRegistrations st <> TruthChainV3.uintMax ->
      (TruthChainV3.contractActive st = false ->
       run = (TruthChainV3.Returned (TruthChainV3.RErr 103), st))
      /\ (TruthChainV3.contractActive st = true ->
          (length h <> 32%nat ->
           run = (TruthChainV3.Returned (TruthChainV3.RErr 101), st))
          /\ (length h = 32%nat ->
              (TruthChainV3.isValidContentType ct = false ->
               run = (TruthChainV3.Returned (TruthChainV3.RErr 102), st))
              /\ (TruthChainV3.isValidContentType ct = true ->
                  TruthChainV3.hashExists st h = true ->
                  run = (TruthChainV3.Returned (TruthChainV3.RErr 100), st)))))
  /\ (TruthChainV3.txSender ctx <> TruthChainV3.contractOwner st ->
      TruthChainV3.toggleContractStatus ctx st
      = (TruthChainV3.Returned (TruthChainV3.RErr 103), st)).
Proof.
  cbv zeta.
  pose proof (registerContentWithBns_cases ctx h ct bns st) as Hcases.
  assert (Hpair : forall (p : TruthChainV3.CallResult TruthChainV3.Receipt
                              * TruthChainV3.Storage) a b,
             snd p = b -> fst p = a -> p = (a, b)).
  { intros [x y] a b; cbn; congruence. }
  split; [|split; [|split]].
  - intros Hno. destruct Hcases as [(_ & _ & _ & _ & _ & E) | [E _]]; [|exact E].
    exfalso. eapply Hno. rewrite E. reflexivity.
  - intros Hmax.
    destruct Hcases as [(E & _) | [Hst [[_ E] | [(E & _) | [(E & _)
                       | [(E & _) | (E & _)]]]]]]; try congruence.
    now apply Hpair.
  - intros Hmax. split.
    + intros Hact.
      destruct Hcases as [(_ & E & _) | [Hst [[E _] | [(_ & _ & E) | [(_ & E & _)
                         | [(_ & E & _) | (_ & E & _)]]]]]]; try congruence.
      now apply Hpair.
    + intros Hact. split.
      * intros Hlen.
        destruct Hcases as [(_ & _ & E & _) | [Hst [[E _] | [(_ & E & _)
                           | [(_ & _ & _ & E) | [(_ & _ & E & _)
                           | (_ & _ & E & _)]]]]]]; try congruence.
        now apply Hpair.
      * intros Hlen. split.
        -- intros Hct.
           destruct Hcases as [(_ & _ & _ & E & _) | [Hst [[E _] | [(_ & E & _)
                              | [(_ & _ & E & _) | [(_ & _ & _ & _ & E)
                              | (_ & _ & _ & E & _)]]]]]]; try congruence.
           now apply Hpair.
        -- intros Hct Hex.
           assert (Hsome : is_Some (TruthChainV3.contentRegistry st !! h)).
           { unfold TruthChainV3.hashExists in Hex.
             now apply bool_decide_eq_true in Hex. }
           destruct Hcases as [(_ & _ & _ & _ & E & _) | [Hst [[E _] | [(_ & E & _)
                              | [(_ & _ & E & _) | [(_ & _ & _ & E & _)
                              | (_ & _ & _ & _ & _ & E)]]]]]]; try congruence.
           ++ rewrite E in Hsome. now destruct Hsome.
           ++ now apply Hpair.
  - intros Hown. unfold TruthChainV3.toggleContractStatus.
    now rewrite bool_decide_eq_false_2 by exact Hown.
Qed.

Lemma contract_rejections_are_atomic_witness :
  TruthChainV3.toggleContractStatus
    {| TruthChainV3.txSender := "SP1S7KX8TVSAWJ8CVJZQSFERBQ8BNCDXYFHXT21Z9";
       TruthChainV3.stacksBlockHeight := 154200 |}
    (TruthChainV3.deploy "SPVQ61FEWR6M4HVAT3BNE07D4BNW6A1C2ACCNQ6F")
  = (TruthChainV3.Returned (TruthChainV3.RErr 103),
     TruthChainV3.deploy "SPVQ61FEWR6M4HVAT3BNE07D4BNW6A1C2ACCNQ6F").
Proof.
  pose proof (contract_rejections_are_atomic
                {| TruthChainV3.txSender := "SP1S7KX8TVSAWJ8CVJZQSFERBQ8BNCDXYFHXT21Z9";
                   TruthChainV3.stacksBlockHeight := 154200 |}
                sampleHash "tweet" None
                (TruthChainV3.deploy "SPVQ61FEWR6M4HVAT3BNE07D4BNW6A1C2ACCNQ6F"))
    as H.
  cbv zeta in H. destruct H as (_ & _ & _ & H). apply H. discriminate.
Defined.

(** X20. First registration wins, for good. Whatever transactions follow
    (registrations with or without BNS name, status toggles, from any
    sender, well typed or not), a hash once registered keeps verifying to
    the same record: no call overwrites or deletes an entry of the
    registry. *)
Theorem contract_registration_is_permanent
    (txs : list (TruthChainV3.Context * TruthChainV3.Call))
    (st : TruthChainV3.Storage) (h : Buffer) (e : TruthChainV3.Entry) :
  TruthChainV3.verifyContent st h = TruthChainV3.ROk e ->
  TruthChainV3.verifyContent (TruthChainV3.executeAll txs st) h = TruthChainV3.ROk e
  /\ TruthChainV3.hashExists (TruthChainV3.executeAll txs st) h = true.
Proof.
  unfold TruthChainV3.verifyContent, TruthChainV3.hashExists. intros Hv.
  destruct (TruthChainV3.contentRegistry st !! h) as [e0|] eqn:E; [|discriminate].
  injection Hv as ->.
  rewrite (executeAll_registry txs st h e E).
  split; [reflexivity|]. apply bool_decide_eq_true_2. eauto.
Qed.

Lemma contract_registration_is_permanent_witness :
  exists st e,
    TruthChainV3.verifyContent st sampleHash = TruthChainV3.ROk e
    /\ TruthChainV3.verifyContent
         (TruthChainV3.executeAll
            [({| TruthChainV3.txSender := "SPVQ61FEWR6M4HVAT3BNE07D4BNW6A1C2ACCNQ6F";
                 TruthChainV3.stacksBlockHeight := 154201 |},
              TruthChainV3.RegisterContent sampleHash "page")] st) sampleHash
       = TruthChainV3.ROk e.
Proof.
  destruct (register_succeeds
              {| TruthChainV3.txSender := "SP1S7KX8TVSAWJ8CVJZQSFERBQ8BNCDXYFHXT21Z9";
                 TruthChainV3.stacksBlockHeight := 154200 |}
              sampleHash "tweet" (Some "alice.btc")
              (TruthChainV3.deploy "SPVQ61FEWR6M4HVAT3BNE07D4BNW6A1C2ACCNQ6F"))
    as (receipt & st' & _ & Hv & _);
    [vm_compute; discriminate | reflexivity | reflexivity | reflexivity | reflexivity |].
  eexists st', _. split; [exact Hv|].
  apply (contract_registration_is_permanent _ st' sampleHash _ Hv).
Defined.

(** X21. Storage invariant of the contract. In every storage reachable
    from deployment by any transactions, [total-registrations] is the
    number of registry entries, every entry carries an id between 1 and
    that total and is indexed in [author-content] under its author and id,
    the index has no other keys, and no two hashes share an id; so
    [get-registration-by-id] answers [(ok id)] exactly for the ids that
    some registered hash carries. *)
Theorem contract_storage_invariant
    (deployer : TruthChainV3.Principal)
    (txs : list (TruthChainV3.Context * TruthChainV3.Call)) :
  let st := TruthChainV3.executeAll txs (TruthChainV3.deploy deployer) in
  ledgerInvariant st
  /\ TruthChainV3.contractOwner st = deployer
  /\ (forall i,
         TruthChainV3.getRegistrationById st i = TruthChainV3.ROk i
         <-> exists h e, TruthChainV3.verifyContent st h = TruthChainV3.ROk e
                         /\ TruthChainV3.registrationId e = i)
  /\ (forall a i e,
         TruthChainV3.getAuthorContent st a i = TruthChainV3.ROk e ->
         TruthChainV3.author e = a /\ TruthChainV3.registrationId e = i).
Proof.
  cbv zeta.
  pose proof (ledgerInvariant_executeAll txs _ (ledgerInvariant_deploy deployer))
    as Hinv.
  set (st := TruthChainV3.executeAll txs (TruthChainV3.deploy deployer)) in *.
  split; [exact Hinv|]. split; [|split].
  - unfold st. apply executeAll_owner.
  - destruct Hinv as (_ & Hentry & _ & Hused & _).
    intros i. unfold TruthChainV3.getRegistrationById, TruthChainV3.verifyContent.
    split.
    + destruct ((0 <? i)%N && (i <=? TruthChainV3.totalRegistrations st)%N) eqn:E;
        [|discriminate].
      intros _. apply andb_true_iff in E as [E1 E2].
      apply N.ltb_lt in E1. apply N.leb_le in E2.
      destruct (Hused i) as (h & e & Hh & Hid); [lia|].
      exists h, e. now rewrite Hh.
    + intros (h & e & Hv & Hid).
      destruct (TruthChainV3.contentRegistry st !! h) as [e0|] eqn:Eh; [|discriminate].
      injection Hv as ->. destruct (Hentry h e Eh) as [Hb _].
      assert (((0 <? i)%N && (i <=? TruthChainV3.totalRegistrations st)%N) = true) as ->.
      { apply andb_true_iff. split; [apply N.ltb_lt | apply N.leb_le]; lia. }
      reflexivity.
  - destruct Hinv as (_ & _ & Hindex & _).
    intros a i e. unfold TruthChainV3.getAuthorContent.
    destruct (TruthChainV3.authorContent st !! (a, i)) as [h|] eqn:Ea; [|discriminate].
    destruct (Hindex a i h Ea) as (e' & He' & Ha & Hi). rewrite He'.
    intros Hr. injection Hr as <-. now split.
Qed.


Lemma hashExists_deploy owner contentHash :
  TruthChainV3.hashExists (TruthChainV3.deploy owner) contentHash = false.
Proof. unfold TruthChainV3.hashExists, TruthChainV3.deploy. cbn. now rewrite lookup_empty. Qed.



(** X22. The transaction the gateway builds always passes the contract's
    argument checks. For every content, the call [registerTweet] submits
    (function 'register-content', the content's digest, 'tweet') is well
    typed for the contract and is never answered [(err u101)] (invalid
    hash) or [(err u102)] (invalid content type); on an active contract
    that does not hold the digest and whose counter is below the largest
    uint it succeeds, recording the sender as author with no BNS name, and
    the record is then found under the buffer decoded from the content's
    hexadecimal digest. *)
Theorem gateway_registration_passes_contract_checks
    (Key : Type) (config : ContractConfig) (content : JsString) (key : Key)
    (ctx : TruthChainV3.Context) (st : TruthChainV3.Storage) :
  let tx := BlockchainWrites.registerOptions config
              (HashService.generateContentHash content) key in
  let run := TruthChainV3.registerContent ctx (BlockchainWrites.txHash tx)
               (BlockchainWrites.txContentType tx) st in
  TruthChainV3.wellTyped (callOf tx) = true
  /\ fst run <> TruthChainV3.Returned (TruthChainV3.RErr 101)
  /\ fst run <> TruthChainV3.Returned (TruthChainV3.RErr 102)
  /\ (TruthChainV3.totalRegistrations st <> TruthChainV3.uintMax ->
      TruthChainV3.contractActive st = true ->
      TruthChainV3.hashExists st (HashService.generateContentHash content) = false ->
      exists receipt,
        fst run = TruthChainV3.Returned (TruthChainV3.ROk receipt)
        /\ TruthChainV3.verifyContent (snd run)
             (HashService.hexToBuffer (HashService.generateContentHashHex content))
           = TruthChainV3.ROk
               {| TruthChainV3.author := TruthChainV3.txSender ctx;
                  TruthChainV3.bnsName := None;
                  TruthChainV3.blockHeight := TruthChainV3.stacksBlockHeight ctx;
                  TruthChainV3.timeStamp := TruthChainV3.stacksBlockHeight ctx;
                  TruthChainV3.contentType := "tweet";
                  TruthChainV3.registrationId :=
                    (TruthChainV3.totalRegistrations st + 1)%N |}).
Proof.
  cbv zeta. cbn [BlockchainWrites.registerOptions BlockchainWrites.txHash
                 BlockchainWrites.txContentType callOf].
  set (digest := HashService.generateContentHash content).
  assert (Hlen : length digest = 32%nat) by apply digest_length.
  unfold TruthChainV3.registerContent.
  pose proof (registerContentWithBns_cases ctx digest "tweet" None st) as Hcases.
  split; [|split; [|split]].
  - apply (wellTyped_gateway_call config content key).
  - destruct Hcases as [(_ & _ & _ & _ & _ & ->) | [_ [[_ ->] | [(_ & _ & ->)
                       | [(_ & _ & E & _) | [(_ & _ & _ & _ & ->)
                       | (_ & _ & _ & _ & _ & ->)]]]]]];
      try discriminate. congruence.
  - destruct Hcases as [(_ & _ & _ & _ & _ & ->) | [_ [[_ ->] | [(_ & _ & ->)
                       | [(_ & _ & _ & ->) | [(_ & _ & _ & E & _)
                       | (_ & _ & _ & _ & _ & ->)]]]]]];
      try discriminate.
  - intros Hmax Hact Hex.
    destruct (register_succeeds ctx digest "tweet" None st
                Hmax Hact Hlen eq_refl Hex) as (receipt & st' & Hrun & Hv & _).
    rewrite Hrun. cbn [fst snd]. exists receipt. split; [reflexivity|].
    rewrite hexToBuffer_digestHex. exact Hv.
Qed.

Lemma gateway_registration_passes_contract_checks_witness :
  TruthChainV3.totalRegistrations freshLedger <> TruthChainV3.uintMax
  /\ TruthChainV3.contractActive freshLedger = true
  /\ TruthChainV3.hashExists freshLedger (HashService.generateContentHash tweetPlain)
     = false
  /\ exists receipt,
       fst (TruthChainV3.registerContent aliceContext
              (BlockchainWrites.txHash
                 (BlockchainWrites.registerOptions mainnetConfig
                    (HashService.generateContentHash tweetPlain) "key"))
              (BlockchainWrites.txContentType
                 (BlockchainWrites.registerOptions mainnetConfig
                    (HashService.generateContentHash tweetPlain) "key"))
              freshLedger)
       = TruthChainV3.Returned (TruthChainV3.ROk receipt).
Proof.
  assert (Hmax : TruthChainV3.totalRegistrations freshLedger <> TruthChainV3.uintMax)
    by (vm_compute; discriminate).
  assert (Hact : TruthChainV3.contractActive freshLedger = true) by reflexivity.
  assert (Hex : TruthChainV3.hashExists freshLedger
                  (HashService.generateContentHash tweetPlain) = false)
    by apply hashExists_deploy.
  split; [exact Hmax|]. split; [exact Hact|]. split; [exact Hex|].
  destruct (proj2 (proj2 (proj2
              (gateway_registration_passes_contract_checks string mainnetConfig
                 tweetPlain "key" aliceContext freshLedger))) Hmax Hact Hex)
    as (receipt & Hrun & _).
  exists receipt. exact Hrun.
Defined.




(* ===================================================================== *)
(** ** Cache maintenance and the health route *)
(* ===================================================================== *)




(** X25. The health route cannot answer 500. Because [getContractStats]
    swallows every failure and the current date always has an ISO form,
    GET /health always answers 200 [success: true] with the configured
    contract identifier and the current time, after a single read-only
    call; [connected] is false exactly when that call failed or decoded to
    a falsy value. *)
Theorem health_always_answers_200
    (W : World) (config : ContractConfig) (s : State) :
  exists b evs,
    Router.health W config s = (Ok (mkHttp 200 b), addTrace evs s)
    /\ Router.success b = true
    /\ Router.connected b
       = Some (match readOnlyCall W (statsOptions config) with
               | RpcJson j => truthy j
               | RpcThrows _ => false
               end)
    /\ Router.contract b
       = Some (contractAddress config +:+ "." +:+ contractName config)
    /\ Router.timestamp b = Some (Iso (clock s))
    /\ ledgerCalls evs = [statsOptions config].
Proof.
  unfold Router.health, tryCatch, bind at 1.
  rewrite getContractStats_run.
  destruct (readOnlyCall W (statsOptions config)) as [f|j];
    unfold bind, dateNow, lift, ret; cbn;
    eexists _, _; (split; [reflexivity|]); repeat split.
Qed.


(* ===================================================================== *)
(** ** Time to live, ledger-call budget, verification counters *)
(* ===================================================================== *)














